(** * Crystal Client Launcher: provisioning and launch composition

    A shallow embedding of the launcher's asset guard
    ([app/assets/js/assetguard.js]), its process builder
    ([app/assets/js/processbuilder.js]) and the memory bounds of its
    configuration store ([app/assets/js/configmanager.js]), followed by
    the properties the specification states about them (Part III) and
    by further properties of the code (Part IV).

    JavaScript strings are modelled as [string] (sequences of 8-bit
    characters), JSON integers as [Z], numbers that can be [NaN] as
    [jsnum], [null]/[undefined] as [None], objects used as dictionaries
    as [gmap string _] (or as insertion-ordered association lists where
    the enumeration order is observable), thrown exceptions as [None]
    results.  Host facilities the code reads ([process.platform],
    [process.arch], the file system, the network, the digest primitive)
    are explicit arguments. *)

From Stdlib Require Import ZArith List String Ascii Bool Lia.
From Stdlib Require Import QArith Qround Sorted.
From stdpp Require Import base option list gmap strings.

Local Open Scope Z_scope.
Local Open Scope stdpp_scope.

(* ================================================================== *)
(** * Part I.  The model                                                *)
(* ================================================================== *)

(** ** JavaScript primitives used by the sources *)

Module JS.

(** A JavaScript number that is either an integer or [NaN]
    ([parseInt] results, sizes, byte counts, and arithmetic on them);
    integers are exact. *)
Inductive jsnum := Num (z : Z) | NaN.

(** [a === b] on numbers: [NaN] is different from everything. *)
Definition num_eq (a b : jsnum) : bool :=
  match a, b with Num x, Num y => x =? y | _, _ => false end.

(** [a > b] on numbers: false as soon as one side is [NaN]. *)
Definition num_gt (a b : jsnum) : bool :=
  match a, b with Num x, Num y => y <? x | _, _ => false end.

(** [a >= b]. *)
Definition num_ge (a b : jsnum) : bool :=
  match a, b with Num x, Num y => y <=? x | _, _ => false end.

Definition num_add (a b : jsnum) : jsnum :=
  match a, b with Num x, Num y => Num (x + y) | _, _ => NaN end.

Definition num_sub (a b : jsnum) : jsnum :=
  match a, b with Num x, Num y => Num (x - y) | _, _ => NaN end.

(** [s.length] *)
Definition length (s : string) : Z := Z.of_nat (String.length s).

(** [s.startsWith(p)] *)
Fixpoint startsWith (s p : string) : bool :=
  match p, s with
  | EmptyString, _ => true
  | String _ _, EmptyString => false
  | String b p', String a s' => Ascii.eqb a b && startsWith s' p'
  end.

(** [s.endsWith(suf)] *)
Fixpoint endsWith (s suf : string) : bool :=
  if String.eqb s suf then true
  else match s with
       | EmptyString => false
       | String _ s' => endsWith s' suf
       end.

(** Position of the first occurrence of [sub] in [s], counted from
    [i]; [None] when there is none. *)
Fixpoint find_from (i : Z) (s sub : string) : option Z :=
  if startsWith s sub then Some i
  else match s with
       | EmptyString => None
       | String _ s' => find_from (i + 1) s' sub
       end.

(** [s.indexOf(sub)], [-1] when absent. *)
Definition indexOf (s sub : string) : Z :=
  match find_from 0 s sub with Some i => i | None => -1 end.

(** Position of the last occurrence of [sub] in [s]. *)
Fixpoint find_last_from (i : Z) (s sub : string) : option Z :=
  match s with
  | EmptyString => if startsWith s sub then Some i else None
  | String _ s' =>
      match find_last_from (i + 1) s' sub with
      | Some j => Some j
      | None => if startsWith s sub then Some i else None
      end
  end.

(** [s.lastIndexOf(sub)], [-1] when absent. *)
Definition lastIndexOf (s sub : string) : Z :=
  match find_last_from 0 s sub with Some i => i | None => -1 end.

Fixpoint take (n : nat) (s : string) : string :=
  match n, s with
  | O, _ => EmptyString
  | S _, EmptyString => EmptyString
  | S n', String a s' => String a (take n' s')
  end.

Fixpoint drop (n : nat) (s : string) : string :=
  match n, s with
  | O, _ => s
  | S _, EmptyString => EmptyString
  | S n', String _ s' => drop n' s'
  end.

(** [s.substring(a, b)]: both ends are clamped to [0 .. s.length] and
    swapped when [a > b]. *)
Definition substring (s : string) (a b : Z) : string :=
  let clamp x := Z.max 0 (Z.min x (length s)) in
  let lo := Z.min (clamp a) (clamp b) in
  let hi := Z.max (clamp a) (clamp b) in
  take (Z.to_nat (hi - lo)) (drop (Z.to_nat lo) s).

(** [s.substring(a)] *)
Definition substring_from (s : string) (a : Z) : string :=
  substring s a (length s).

(** [s.split(c)] for a one-character separator: never empty. *)
Fixpoint split (c : ascii) (s : string) : list string :=
  match s with
  | EmptyString => [EmptyString]
  | String a s' =>
      if Ascii.eqb a c then EmptyString :: split c s'
      else match split c s' with
           | [] => [String a EmptyString]
           | h :: t => String a h :: t
           end
  end.

(** [parts.join(sep)] *)
Fixpoint join (sep : string) (parts : list string) : string :=
  match parts with
  | [] => EmptyString
  | [p] => p
  | p :: rest => p +:+ sep +:+ join sep rest
  end.

(** [arr[i]], [undefined] (here [None]) out of range. *)
Definition at_index {A} (l : list A) (i : nat) : option A := nth_error l i.

Definition lower_char (c : ascii) : ascii :=
  let n := N_of_ascii c in
  if ((65 <=? n) && (n <=? 90))%N then ascii_of_N (n + 32) else c.

(** [s.toLowerCase()] on the ASCII range. *)
Fixpoint toLowerCase (s : string) : string :=
  match s with
  | EmptyString => EmptyString
  | String a s' => String (lower_char a) (toLowerCase s')
  end.

(** White space and line terminators stripped by [trim] and skipped
    by [parseInt]. *)
Definition is_space (c : ascii) : bool :=
  let n := N_of_ascii c in
  ((9 <=? n) && (n <=? 13) || (n =? 32) || (n =? 160))%N.

Fixpoint trimStart (s : string) : string :=
  match s with
  | String a s' => if is_space a then trimStart s' else s
  | EmptyString => EmptyString
  end.

Fixpoint trimEnd (s : string) : string :=
  match s with
  | EmptyString => EmptyString
  | String a s' =>
      match trimEnd s' with
      | EmptyString => if is_space a then EmptyString else String a EmptyString
      | t => String a t
      end
  end.

(** [s.trim()] *)
Definition trim (s : string) : string := trimEnd (trimStart s).

(** Value of a digit in the given radix. *)
Definition digit_value (radix : Z) (c : ascii) : option Z :=
  let n := Z.of_N (N_of_ascii c) in
  let v := if (48 <=? n) && (n <=? 57) then Some (n - 48)
           else if (97 <=? n) && (n <=? 122) then Some (n - 87)
           else if (65 <=? n) && (n <=? 90) then Some (n - 55)
           else None in
  match v with
  | Some d => if d <? radix then Some d else None
  | None => None
  end.

(** Longest prefix of digits, accumulated most significant first. *)
Fixpoint parse_digits (radix : Z) (acc : option Z) (s : string) : option Z :=
  match s with
  | EmptyString => acc
  | String a s' =>
      match digit_value radix a with
      | Some d =>
          parse_digits radix
            (Some (match acc with Some v => v * radix + d | None => d end)) s'
      | None => acc
      end
  end.

(** [parseInt(s)] without a radix argument: leading white space is
    skipped, a sign is read, a [0x]/[0X] prefix selects radix 16, the
    longest run of digits is converted; no digit at all gives [NaN]. *)
Definition parseInt (s : string) : jsnum :=
  let s1 := trimStart s in
  let '(sign, s2) :=
    match s1 with
    | String "-" r => (-1, r)
    | String "+" r => (1, r)
    | _ => (1, s1)
    end in
  let '(radix, s3) :=
    match s2 with
    | String "0" (String "x" r) => (16, r)
    | String "0" (String "X" r) => (16, r)
    | _ => (10, s2)
    end in
  match parse_digits radix None s3 with
  | Some v => Num (sign * v)
  | None => NaN
  end.

(** [parseInt(x)] where [x] may be [undefined]: the text "undefined"
    has no digit. *)
Definition parseInt_opt (x : option string) : jsnum :=
  match x with Some s => parseInt s | None => NaN end.

(** [s.replace(pat, rep)] with a string pattern: the first occurrence
    only ([rep] is taken literally, it holds no [$] in the sources). *)
Fixpoint replace (s pat rep : string) : string :=
  if startsWith s pat then rep +:+ drop (String.length pat) s
  else match s with
       | EmptyString => EmptyString
       | String a s' => String a (replace s' pat rep)
       end.

End JS.

Export JS (jsnum(..)).

(** ** [class Library]: platform rules *)

Module Library.

(** One entry of a library's [rules] array. *)
Record OsProp := { os_name : option string }.
Record Rule := { action : option string; os : option OsProp }.

Section Platform.
(** [process.platform] *)
Variable platform : string.

(** [Library.mojangFriendlyOS()] *)
Definition mojangFriendlyOS : string :=
  if String.eqb platform "darwin" then "osx"
  else if String.eqb platform "win32" then "windows"
  else if String.eqb platform "linux" then "linux"
  else "unknown_os".

(** The loop of [validateRules]: the first rule that has both an
    action and an os and whose action is [allow] or [disallow]
    returns; all others are skipped. *)
Fixpoint validateRules_loop (rules : list Rule) : bool :=
  match rules with
  | [] => true
  | rule :: rest =>
      match action rule, os rule with
      | Some act, Some osProp =>
          let osName := os_name osProp in
          let osMoj := mojangFriendlyOS in
          if String.eqb act "allow" then
            bool_decide (osName = Some osMoj)
          else if String.eqb act "disallow" then
            negb (bool_decide (osName = Some osMoj))
          else validateRules_loop rest
      | _, _ => validateRules_loop rest
      end
  end.

(** [Library.validateRules(rules, natives)] *)
Definition validateRules
    (rules : option (list Rule)) (natives : option (gmap string string)) : bool :=
  match rules with
  | None =>
      match natives with
      | None => true
      | Some nat_ => bool_decide (is_Some (nat_ !! mojangFriendlyOS))
      end
  | Some rs => validateRules_loop rs
  end.
End Platform.

End Library.

(** ** [class Util]: version comparison *)

Module Util.

(** The [for] loop of [mcVersionAtLeast] from index [i], with [n]
    indices of [des] left: the first index at which
    [parseInt(act[i]) >= parseInt(des[i])] does not hold returns
    [false].  An index beyond the end of [act] reads [undefined], which
    [parseInt] turns into [NaN]. *)
Fixpoint mcVersionAtLeast_loop (des act : list string) (i n : nat) : bool :=
  match n with
  | O => true
  | S n' =>
      if negb (JS.num_ge (JS.parseInt_opt (JS.at_index act i))
                 (JS.parseInt_opt (JS.at_index des i)))
      then false
      else mcVersionAtLeast_loop des act (S i) n'
  end.

(** [Util.mcVersionAtLeast(desired, actual)] *)
Definition mcVersionAtLeast (desired actual : string) : bool :=
  let des := JS.split "." desired in
  let act := JS.split "." actual in
  mcVersionAtLeast_loop des act 0 (List.length des).

End Util.

(** ** Node's [path] module

    [path.join] is host library code (Node's [lib/path.js]); the model
    follows its algorithm: the non-empty arguments are glued with the
    platform separator and the result is normalised, which drops empty
    and [.] segments and resolves [..] against the segment before it. *)

Module NodePath.

(** [normalizeString] on the list of segments of the path: [acc] is
    the stack of segments kept so far, most recent first. *)
Fixpoint normalize_segments (allowAboveRoot : bool) (acc segs : list string)
  : list string :=
  match segs with
  | [] => rev acc
  | seg :: rest =>
      if String.eqb seg EmptyString || String.eqb seg "." then
        normalize_segments allowAboveRoot acc rest
      else if String.eqb seg ".." then
        match acc with
        | top :: acc' =>
            if String.eqb top ".." then
              normalize_segments allowAboveRoot
                (if allowAboveRoot then ".." :: acc else acc) rest
            else normalize_segments allowAboveRoot acc' rest
        | [] =>
            normalize_segments allowAboveRoot
              (if allowAboveRoot then [".."] else []) rest
        end
      else normalize_segments allowAboveRoot (seg :: acc) rest
  end.

(** Segments of a path for a separator test ([/] on POSIX, [/] and
    [\] on Windows). *)
Fixpoint segments (isSep : ascii -> bool) (s : string) : list string :=
  match s with
  | EmptyString => [EmptyString]
  | String a s' =>
      if isSep a then EmptyString :: segments isSep s'
      else match segments isSep s' with
           | [] => [String a EmptyString]
           | h :: t => String a h :: t
           end
  end.

Definition normalizeString
    (path : string) (allowAboveRoot : bool) (separator : string)
    (isSep : ascii -> bool) : string :=
  JS.join separator (normalize_segments allowAboveRoot [] (segments isSep path)).

Definition isPosixPathSeparator (c : ascii) : bool := Ascii.eqb c "/".

Definition isPathSeparator (c : ascii) : bool :=
  Ascii.eqb c "/" || Ascii.eqb c "\".

Definition isWindowsDeviceRoot (c : ascii) : bool :=
  let n := N_of_ascii c in
  ((65 <=? n) && (n <=? 90) || (97 <=? n) && (n <=? 122))%N.

Definition first_char (s : string) : option ascii :=
  match s with String a _ => Some a | EmptyString => None end.

Fixpoint last_char (s : string) : option ascii :=
  match s with
  | EmptyString => None
  | String a EmptyString => Some a
  | String _ s' => last_char s'
  end.

Definition char_is (p : ascii -> bool) (c : option ascii) : bool :=
  match c with Some a => p a | None => false end.

(** The non-empty arguments glued with [sep]; [None] when every
    argument is empty. *)
Fixpoint glue (sep : string) (args : list string) : option string :=
  match args with
  | [] => None
  | arg :: rest =>
      match glue sep rest with
      | None => if String.eqb arg EmptyString then None else Some arg
      | Some r => if String.eqb arg EmptyString then Some r else Some (arg +:+ sep +:+ r)
      end
  end.

(** *** POSIX *)

Definition posix_normalize (path : string) : string :=
  if String.eqb path EmptyString then "."
  else
    let isAbsolute := char_is isPosixPathSeparator (first_char path) in
    let trailingSeparator := char_is isPosixPathSeparator (last_char path) in
    let p := normalizeString path (negb isAbsolute) "/" isPosixPathSeparator in
    if String.eqb p EmptyString then
      if isAbsolute then "/" else if trailingSeparator then "./" else "."
    else
      let p' := if trailingSeparator then p +:+ "/" else p in
      if isAbsolute then "/" +:+ p' else p'.

Definition posix_join (args : list string) : string :=
  match glue "/" args with
  | None => "."
  | Some joined => posix_normalize joined
  end.

(** *** Windows *)

(** Longest prefix whose characters satisfy [p], and the rest. *)
Fixpoint span (p : ascii -> bool) (s : string) : string * string :=
  match s with
  | EmptyString => (EmptyString, EmptyString)
  | String a s' =>
      if p a then let '(x, y) := span p s' in (String a x, y)
      else (EmptyString, s)
  end.

Definition notSep (c : ascii) : bool := negb (isPathSeparator c).

(** Result of the root detection of [win32.normalize]: either the
    whole answer (a bare UNC root) or [device], [isAbsolute] and the
    text after the root. *)
Inductive Win32Root :=
| UncRootOnly (normalized : string)
| Root (device : option string) (isAbsolute : bool) (afterRoot : string).

Definition win32_root (path : string) : Win32Root :=
  match path with
  | String c0 (String c1 rest1 as tl1) =>
      if isPathSeparator c0 then
        if isPathSeparator c1 then
          (* possible UNC root: two separators, a server name,
             separators, a share name *)
          let '(firstPart, r1) := span notSep rest1 in
          if negb (String.eqb r1 EmptyString) && negb (String.eqb firstPart EmptyString) then
            let '(_, r2) := span isPathSeparator r1 in
            if negb (String.eqb r2 EmptyString) then
              let '(share, r3) := span notSep r2 in
              if String.eqb r3 EmptyString then
                UncRootOnly ("\\" +:+ firstPart +:+ "\" +:+ r2 +:+ "\")
              else
                Root (Some ("\\" +:+ firstPart +:+ "\" +:+ share)) true r3
            else Root None true path
          else Root None true path
        else Root None true tl1
      else if isWindowsDeviceRoot c0 && Ascii.eqb c1 ":" then
        let device := String c0 (String c1 EmptyString) in
        match rest1 with
        | String c2 rest2 =>
            if isPathSeparator c2 then Root (Some device) true rest2
            else Root (Some device) false rest1
        | EmptyString => Root (Some device) false rest1
        end
      else Root None false path
  | _ => Root None false path
  end.

(** The end of [win32.normalize]: the text after the root is
    normalised and put back behind the device and the root separator. *)
Definition win32_assemble (path : string) (device : option string)
    (isAbsolute : bool) (afterRoot : string) : string :=
  let tail0 :=
    if String.eqb afterRoot EmptyString then EmptyString
    else normalizeString afterRoot (negb isAbsolute) "\" isPathSeparator in
  let tail1 :=
    if String.eqb tail0 EmptyString && negb isAbsolute then "." else tail0 in
  let tail :=
    if negb (String.eqb tail1 EmptyString)
       && char_is isPathSeparator (last_char path)
    then tail1 +:+ "\" else tail1 in
  match device with
  | None => if isAbsolute then "\" +:+ tail else tail
  | Some d => if isAbsolute then d +:+ "\" +:+ tail else d +:+ tail
  end.

Definition win32_normalize (path : string) : string :=
  match path with
  | EmptyString => "."
  | String c EmptyString => if isPosixPathSeparator c then "\" else path
  | _ =>
      match win32_root path with
      | UncRootOnly r => r
      | Root device isAbsolute afterRoot =>
          win32_assemble path device isAbsolute afterRoot
      end
  end.

(** [win32.join] keeps a UNC-looking first argument as it is and
    otherwise collapses the leading run of separators of the glued
    text into one. *)
Definition win32_join (args : list string) : string :=
  match glue "\" args with
  | None => "."
  | Some joined =>
      let firstPart := hd EmptyString
          (List.filter (fun a => negb (String.eqb a EmptyString)) args) in
      let needsReplace :=
        match firstPart with
        | String c0 (String c1 (String c2 _)) =>
            negb (isPathSeparator c0 && isPathSeparator c1
                  && negb (isPathSeparator c2))
        | _ => true
        end in
      let joined' :=
        if needsReplace then
          let '(slashes, rest) := span isPathSeparator joined in
          if (2 <=? String.length slashes)%nat then "\" +:+ rest else joined
        else joined in
      win32_normalize joined'
  end.

(** [path.join(...args)] as selected by [process.platform]. *)
Definition join (platform : string) (args : list string) : string :=
  if String.eqb platform "win32" then win32_join args else posix_join args.

End NodePath.

(** ** [class JavaGuard]: runtime discovery *)

Module JavaGuard.

(** The object built by the two version parsers: the Java 8 parser
    sets [build], [update], [major]; the Java 9 parser sets [build],
    [major], [minor], [revision].  A field that was not set reads as
    [undefined] ([None]). *)
Record JavaVersion := {
  build : jsnum;
  major : jsnum;
  update : option jsnum;
  minor : option jsnum;
  revision : option jsnum
}.

(** The [meta] object of the property validation. *)
Record Meta := {
  arch : option jsnum;
  version : option JavaVersion;
  vendor : option string;
  valid : bool;
  metaExecPath : option string
}.

Definition emptyMeta : Meta :=
  {| arch := None; version := None; vendor := None; valid := false;
     metaExecPath := None |}.

(** An entry of the array handed to [_sortValidJavaArray]: the
    comparator reads [version] and [execPath]. *)
Record Candidate := { cVersion : JavaVersion; execPath : string }.

(** [x === y] where either side may be [undefined]. *)
Definition strict_eq (x y : option jsnum) : bool :=
  match x, y with
  | None, None => true
  | Some a, Some b => JS.num_eq a b
  | _, _ => false
  end.

(** [x > y] where either side may be [undefined] (which converts to
    [NaN]). *)
Definition gt (x y : option jsnum) : bool :=
  match x, y with
  | Some a, Some b => JS.num_gt a b
  | _, _ => false
  end.

(** [_parseJavaRuntimeVersion_8]: [1.{major}.0_{update}-b{build}].
    [pts[1].substring(1)] throws when the text has no [-]. *)
Definition _parseJavaRuntimeVersion_8 (verString : string) : option JavaVersion :=
  let pts := JS.split "-" verString in
  match JS.at_index pts 1 with
  | None => None
  | Some p1 =>
      let build := JS.parseInt (JS.substring_from p1 1) in
      let pts' := JS.split "_" (hd EmptyString pts) in
      let update := JS.parseInt_opt (JS.at_index pts' 1) in
      let major :=
        JS.parseInt_opt (JS.at_index (JS.split "." (hd EmptyString pts')) 1) in
      Some {| build := build; major := major; update := Some update;
              minor := None; revision := None |}
  end.

(** [_parseJavaRuntimeVersion_9]: [{major}.{minor}.{revision}+{build}]. *)
Definition _parseJavaRuntimeVersion_9 (verString : string) : option JavaVersion :=
  let pts := JS.split "+" verString in
  let build := JS.parseInt_opt (JS.at_index pts 1) in
  let pts' := JS.split "." (hd EmptyString pts) in
  Some {| build := build;
          major := JS.parseInt_opt (JS.at_index pts' 0);
          update := None;
          minor := Some (JS.parseInt_opt (JS.at_index pts' 1));
          revision := Some (JS.parseInt_opt (JS.at_index pts' 2)) |}.

Section Host.

(** [process.platform] *)
Variable platform : string.

(** The loose comparison [major == 1] of [parseJavaRuntimeVersion]
    between the first dotted component (a string) and the number 1. *)
Variable looseEqualsOne : string -> bool.

(** [fs.existsSync] *)
Variable existsSync : string -> bool.

(** [child_process.exec(cmd, callback)]: the text the command wrote on
    its error stream; when the process cannot be spawned the callback
    receives an empty text. *)
Variable exec_stderr : string -> string.

(** [JavaGuard.javaExecFromRoot(rootDir)] *)
Definition javaExecFromRoot (rootDir : string) : string :=
  if String.eqb platform "win32" then
    NodePath.join platform [rootDir; "bin"; "javaw.exe"]
  else if String.eqb platform "darwin" then
    NodePath.join platform [rootDir; "Contents"; "Home"; "bin"; "java"]
  else if String.eqb platform "linux" then
    NodePath.join platform [rootDir; "bin"; "java"]
  else rootDir.

(** [JavaGuard.isJavaExecPath(pth)] *)
Definition isJavaExecPath (pth : string) : bool :=
  if String.eqb platform "win32" then
    JS.endsWith pth (NodePath.join platform ["bin"; "javaw.exe"])
  else if String.eqb platform "darwin" then
    JS.endsWith pth (NodePath.join platform ["bin"; "java"])
  else if String.eqb platform "linux" then
    JS.endsWith pth (NodePath.join platform ["bin"; "java"])
  else false.

(** [JavaGuard.parseJavaRuntimeVersion(verString)] *)
Definition parseJavaRuntimeVersion (verString : string) : option JavaVersion :=
  let major := hd EmptyString (JS.split "." verString) in
  if looseEqualsOne major then _parseJavaRuntimeVersion_8 verString
  else _parseJavaRuntimeVersion_9 verString.

Definition goal : Z := 2.

(** The quotation mark put around the path on the command line. *)
Definition double_quote : ascii := ascii_of_N 34.

(** [props[i].split('=')[1].trim()]; the [trim] of [undefined] throws. *)
Definition property_value (line : string) : option string :=
  match JS.at_index (JS.split "=" line) 1 with
  | Some v => Some (JS.trim v)
  | None => None
  end.

(** The [for] loop of [_validateJVMProperties] over the remaining
    lines: the result is the check counter and the meta object at the
    [break] or at the end of the lines, [None] when a line throws. *)
Fixpoint properties_loop (props : list string) (checksum : Z) (meta : Meta)
  : option (Z * Meta) :=
  match props with
  | [] => Some (checksum, meta)
  | line :: rest =>
      if -1 <? JS.indexOf line "sun.arch.data.model" then
        match property_value line with
        | None => None
        | Some v =>
            let arch_ := JS.parseInt v in
            if JS.num_eq arch_ (Num 64) then
              let meta' :=
                {| arch := Some arch_; version := version meta;
                   vendor := vendor meta; valid := valid meta;
                   metaExecPath := metaExecPath meta |} in
              if checksum + 1 =? goal then Some (checksum + 1, meta')
              else properties_loop rest (checksum + 1) meta'
            else properties_loop rest checksum meta
        end
      else if -1 <? JS.indexOf line "java.runtime.version" then
        match property_value line with
        | None => None
        | Some verString =>
            match parseJavaRuntimeVersion verString with
            | None => None
            | Some verOb =>
                if JS.num_eq (major verOb) (Num 8)
                   && gt (update verOb) (Some (Num 52)) then
                  let meta' :=
                    {| arch := arch meta; version := Some verOb;
                       vendor := vendor meta; valid := valid meta;
                       metaExecPath := metaExecPath meta |} in
                  if checksum + 1 =? goal then Some (checksum + 1, meta')
                  else properties_loop rest (checksum + 1) meta'
                else properties_loop rest checksum meta
            end
        end
      else if -1 <? JS.lastIndexOf line "java.vendor " then
        match property_value line with
        | None => None
        | Some vendorName =>
            properties_loop rest checksum
              {| arch := arch meta; version := version meta;
                 vendor := Some vendorName; valid := valid meta;
                 metaExecPath := metaExecPath meta |}
        end
      else properties_loop rest checksum meta
  end.

(** [_validateJVMProperties(stderr)]; [None] when it throws. *)
Definition _validateJVMProperties (stderr : string) : option Meta :=
  let props := JS.split "010" stderr in
  match properties_loop props 0 emptyMeta with
  | None => None
  | Some (checksum, meta) =>
      Some {| arch := arch meta; version := version meta;
              vendor := vendor meta; valid := (checksum =? goal);
              metaExecPath := metaExecPath meta |}
  end.

(** [_validateJavaBinary(binaryExecPath)]: the value the promise
    resolves to.  (The [replace] of [javaw.exe] in the source discards
    its result, so the path that is run is the path that was given.) *)
Definition _validateJavaBinary (binaryExecPath : string) : Meta :=
  if negb (isJavaExecPath binaryExecPath) then emptyMeta
  else if existsSync binaryExecPath then
    let stderr :=
      exec_stderr (String double_quote
                     (binaryExecPath +:+
                      String double_quote " -XshowSettings:properties")) in
    match _validateJVMProperties stderr with
    | Some meta => meta
    | None => emptyMeta
    end
  else emptyMeta.

(** [_validateJavaRootSet(rootSet)] *)
Fixpoint _validateJavaRootSet (rootArr : list string) : list Meta :=
  match rootArr with
  | [] => []
  | root :: rest =>
      let execPath_ := javaExecFromRoot root in
      let metaOb := _validateJavaBinary execPath_ in
      if valid metaOb then
        {| arch := arch metaOb; version := version metaOb;
           vendor := vendor metaOb; valid := valid metaOb;
           metaExecPath := Some execPath_ |} :: _validateJavaRootSet rest
      else _validateJavaRootSet rest
  end.

End Host.

(** [pth.toLowerCase().indexOf('jdk') > -1] *)
Definition mentions_jdk (pth : string) : bool :=
  -1 <? JS.indexOf (JS.toLowerCase pth) "jdk".

(** The tie-break at equal version: priority to the path that does
    not mention a JDK. *)
Definition jre_priority (a b : Candidate) : Z :=
  if mentions_jdk (execPath a) then
    if mentions_jdk (execPath b) then 0 else 1
  else -1.

(** The comparator passed to [validArr.sort] in [_sortValidJavaArray]. *)
Definition compareCandidates (a b : Candidate) : Z :=
  let va := cVersion a in
  let vb := cVersion b in
  if JS.num_eq (major va) (major vb) then
    if JS.num_gt (Num 9) (major va) then
      (* Java 8 *)
      if strict_eq (update va) (update vb) then
        if JS.num_eq (build va) (build vb) then jre_priority a b
        else if JS.num_gt (build va) (build vb) then -1 else 1
      else if gt (update va) (update vb) then -1 else 1
    else
      (* Java 9+ *)
      if strict_eq (minor va) (minor vb) then
        if strict_eq (revision va) (revision vb) then jre_priority a b
        else if gt (revision va) (revision vb) then -1 else 1
      else if gt (minor va) (minor vb) then -1 else 1
  else if JS.num_gt (major va) (major vb) then -1 else 1.

(** [Array.prototype.sort(compare)] as a stable insertion sort: each
    element is put behind the elements of the sorted prefix that the
    comparator does not order after it.  Engines agree with this
    wherever the comparator is consistent on the elements at hand; on
    the others ([jre_priority] answers [-1] both ways for two paths
    that do not mention a JDK) the order is theirs to choose. *)
Fixpoint sort_insert (compare : Candidate -> Candidate -> Z)
    (x : Candidate) (sorted : list Candidate) : list Candidate :=
  match sorted with
  | [] => [x]
  | y :: rest =>
      if 0 <? compare y x then x :: y :: rest
      else y :: sort_insert compare x rest
  end.

(** [JavaGuard._sortValidJavaArray(validArr)] *)
Definition _sortValidJavaArray (validArr : list Candidate) : list Candidate :=
  fold_left (fun sorted x => sort_insert compareCandidates x sorted) validArr [].

(** *** Discovery of installed runtimes *)

(** A JavaScript [Set] of strings, as the list of its members in
    insertion order: [set.add(x)] leaves a set that holds [x] as it is. *)
Definition set_add (x : string) (s : list string) : list string :=
  if existsb (String.eqb x) s then s else s ++ [x].

(** [new Set([...items])] *)
Definition new_Set (items : list string) : list string :=
  fold_left (fun s x => set_add x s) items [].

(** The array the comparator of [_sortValidJavaArray] can work on.  The
    comparator starts by reading [a.version.major] and
    [b.version.major], which throws on a meta object that has no
    [version]; [execPath] is set on every entry by
    [_validateJavaRootSet]. *)
Definition as_candidate (m : Meta) : option Candidate :=
  match version m, metaExecPath m with
  | Some v, Some p => Some {| cVersion := v; execPath := p |}
  | _, _ => None
  end.

Fixpoint as_candidates (validArr : list Meta) : option (list Candidate) :=
  match validArr with
  | [] => Some []
  | m :: rest =>
      match as_candidate m, as_candidates rest with
      | Some c, Some cs => Some (c :: cs)
      | _, _ => None
      end
  end.

(** The end of the three platform scans:
    [pathArr = JavaGuard._sortValidJavaArray(pathArr)] and then
    [pathArr[0].execPath], or [null] for an empty array.  The result is
    [None] when the sort throws.  An array of fewer than two entries is
    returned without a call of the comparator; in a longer one every
    entry is handed to the comparator at least once. *)
Definition first_sorted (pathArr : list Meta) : option (option string) :=
  match pathArr with
  | [] => Some None
  | [m] => Some (metaExecPath m)
  | _ =>
      match as_candidates pathArr with
      | Some cs =>
          Some (match _sortValidJavaArray cs with
                | c :: _ => Some (execPath c)
                | [] => None
                end)
      | None => None
      end
  end.

(** What the two download services answer.  [axios.head] and
    [axios.get] reject on a network error and on a status outside
    2xx. *)
Inductive HeadResult :=
| HeadFailed
| HeadResponse (status : Z) (contentLengthHeader : option string).

(** An element of the array the AdoptOpenJDK service answers with. *)
Record AdoptAsset := {
  binary_link : string;
  binary_size : jsnum;
  binary_name : string
}.

Inductive GetResult :=
| GetFailed
| GetResponse (data : list AdoptAsset).

(** [OpenJDKData]: what [_latestOpenJDK] resolves to. *)
Record OpenJDKData := {
  uri : string;
  od_size : jsnum;
  od_name : string
}.

Section Discovery.

(** [process.platform] *)
Variable platform : string.

Variable looseEqualsOne : string -> bool.

(** [fs.existsSync] and [fs.pathExists] *)
Variable existsSync : string -> bool.

Variable exec_stderr : string -> string.

(** [process.env.JAVA_HOME] *)
Variable JAVA_HOME : option string.

(** [fs.readdir(dir)]: the names in the directory; [None] when the
    call is rejected (the path is not a directory, or cannot be
    read). *)
Variable readdir : string -> option (list string).

(** The set [_scanRegistry()] resolves to.  The registry is read
    through callbacks of the [winreg] package and is an input here. *)
Variable registryRoots : list string.

(** [axios.head(url)] and [axios.get(url)] *)
Variable axios_head : string -> HeadResult.
Variable axios_get : string -> GetResult.

(** [JavaGuard._latestAdoptOpenJDK(major)].  A rejected request
    resolves the promise to [null] in its [catch] handler (the read of
    [req.data] that follows throws inside the executor, after the
    promise is settled). *)
Definition _latestAdoptOpenJDK (major_ : string) : option OpenJDKData :=
  let sanitizedOS :=
    if String.eqb platform "win32" then "windows"
    else if String.eqb platform "darwin" then "mac" else platform in
  let url :=
    "https://api.adoptopenjdk.net/v2/latestAssets/nightly/openjdk" +:+ major_
    +:+ "?os=" +:+ sanitizedOS
    +:+ "&arch=x64&heap_size=normal&openjdk_impl=hotspot&type=jre" in
  match axios_get url with
  | GetFailed => None
  | GetResponse [] => None
  | GetResponse (first :: _) =>
      Some {| uri := binary_link first; od_size := binary_size first;
              od_name := binary_name first |}
  end.

(** The address [_latestCorretto] asks. *)
Definition corretto_url (major_ : string) : string :=
  let '(sanitizedOS, ext) :=
    if String.eqb platform "win32" then ("windows", "zip")
    else if String.eqb platform "darwin" then ("macos", "tar.gz")
    else if String.eqb platform "linux" then ("linux", "tar.gz")
    else (platform, "tar.gz") in
  "https://corretto.aws/downloads/latest/amazon-corretto-" +:+ major_
  +:+ "-x64-" +:+ sanitizedOS +:+ "-jdk." +:+ ext.

(** [JavaGuard._latestCorretto(major)] *)
Definition _latestCorretto (major_ : string) : option OpenJDKData :=
  let url := corretto_url major_ in
  match axios_head url with
  | HeadFailed => None
  | HeadResponse status contentLengthHeader =>
      if status =? 200 then
        Some {| uri := url;
                od_size := JS.parseInt_opt contentLengthHeader;
                od_name := JS.substring_from url (JS.lastIndexOf url "/" + 1) |}
      else None
  end.

(** [JavaGuard._latestOpenJDK(major)] *)
Definition _latestOpenJDK (major_ : string) : option OpenJDKData :=
  if String.eqb platform "darwin" then _latestCorretto major_
  else _latestAdoptOpenJDK major_.

(** [JavaGuard._scanJavaHome()]: [fs.existsSync(undefined)] is
    [false]. *)
Definition _scanJavaHome : option string :=
  match JAVA_HOME with
  | Some jHome => if existsSync jHome then Some jHome else None
  | None => None
  end.

(** [JavaGuard._scanInternetPlugins()] *)
Definition _scanInternetPlugins : option string :=
  let pth := "/Library/Internet Plug-Ins/JavaAppletPlugin.plugin" in
  if existsSync (javaExecFromRoot platform pth) then Some pth else None.

(** The loop of [_scanFileSystem] over the names of the directory. *)
Fixpoint scan_loop (scanDir : string) (files res : list string) : list string :=
  match files with
  | [] => res
  | file :: rest =>
      let combinedPath := NodePath.join platform [scanDir; file] in
      let execPath_ := javaExecFromRoot platform combinedPath in
      scan_loop scanDir rest
        (if existsSync execPath_ then set_add combinedPath res else res)
  end.

(** [JavaGuard._scanFileSystem(scanDir)]; [None] when the promise is
    rejected. *)
Definition _scanFileSystem (scanDir : string) : option (list string) :=
  if existsSync scanDir then
    match readdir scanDir with
    | Some files => Some (scan_loop scanDir files [])
    | None => None
    end
  else Some [].

(** The validation of a set of roots followed by the choice of the
    first of the sorted array. *)
Definition best_of (uberSet : list string) : option (option string) :=
  first_sorted
    (_validateJavaRootSet platform looseEqualsOne existsSync exec_stderr uberSet).

(** [_win32JavaValidate(dataDir)]; the outer [None] is a rejected
    promise, the inner one the answer [null]. *)
Definition _win32JavaValidate (dataDir : string) : option (option string) :=
  let scanned :=
    if (List.length registryRoots =? 0)%nat then
      match _scanFileSystem "C:\Program Files\Java" with
      | Some java =>
          match _scanFileSystem "C:\Program Files\AdoptOpenJDK" with
          | Some adopt => Some (new_Set (registryRoots ++ java ++ adopt))
          | None => None
          end
      | None => None
      end
    else Some registryRoots in
  match scanned with
  | None => None
  | Some pathSet1 =>
      match _scanFileSystem (NodePath.join platform [dataDir; "runtime"; "x64"]) with
      | None => None
      | Some pathSet2 =>
          let uberSet := new_Set (pathSet1 ++ pathSet2) in
          let uberSet' :=
            match _scanJavaHome with
            | Some jHome =>
                if JS.indexOf jHome "(x86)" =? -1 then set_add jHome uberSet
                else uberSet
            | None => uberSet
            end in
          best_of uberSet'
      end
  end.

(** [_darwinJavaValidate(dataDir)].  With a [JAVA_HOME] that exists the
    function calls [jHome.contains(...)]; strings have no method of
    that name ([includes] is the one that exists), so the call throws. *)
Definition _darwinJavaValidate (dataDir : string) : option (option string) :=
  match _scanFileSystem "/Library/Java/JavaVirtualMachines" with
  | None => None
  | Some pathSet1 =>
      match _scanFileSystem (NodePath.join platform [dataDir; "runtime"; "x64"]) with
      | None => None
      | Some pathSet2 =>
          let uberSet := new_Set (pathSet1 ++ pathSet2) in
          let uberSet' :=
            match _scanInternetPlugins with
            | Some iPPath => set_add iPPath uberSet
            | None => uberSet
            end in
          match _scanJavaHome with
          | Some _ => None
          | None => best_of uberSet'
          end
      end
  end.

(** [_linuxJavaValidate(dataDir)] *)
Definition _linuxJavaValidate (dataDir : string) : option (option string) :=
  match _scanFileSystem "/usr/lib/jvm" with
  | None => None
  | Some pathSet1 =>
      match _scanFileSystem (NodePath.join platform [dataDir; "runtime"; "x64"]) with
      | None => None
      | Some pathSet2 =>
          let uberSet := new_Set (pathSet1 ++ pathSet2) in
          let uberSet' :=
            match _scanJavaHome with
            | Some jHome => set_add jHome uberSet
            | None => uberSet
            end in
          best_of uberSet'
      end
  end.

(** [validateJava(dataDir)]: the method named
    ['_' + process.platform + 'JavaValidate'], which exists for three
    platforms; calling the [undefined] of any other throws. *)
Definition validateJava (dataDir : string) : option (option string) :=
  if String.eqb platform "win32" then _win32JavaValidate dataDir
  else if String.eqb platform "darwin" then _darwinJavaValidate dataDir
  else if String.eqb platform "linux" then _linuxJavaValidate dataDir
  else None.

End Discovery.

End JavaGuard.

(** ** [class AssetGuard]: validation passes and download queues *)

Module AssetGuard.

(** [class Asset] (and [class Library], which adds no field).  The
    constructor sets the first five fields; [type] is read by the
    download loop and is [undefined] unless a caller adds it.  The
    size is the JSON number of the manifest. *)
Record Asset := {
  id : string;
  hash : option string;
  size : Z;
  from : string;
  to : string;
  type : option string
}.

Definition new_Asset (id_ : string) (hash_ : option string) (size_ : Z)
    (from_ to_ : string) : Asset :=
  {| id := id_; hash := hash_; size := size_; from := from_; to := to_;
     type := None |}.

(** The per-item hook of a tracker.  The only one the sources install
    is the runtime unpacking hook of [_enqueueOpenJDK].  Its invocation
    is recorded; what it starts (the unpacking of the archive, the
    removal of the archive, and the [complete] event with data [java]
    it emits when these are done, some time after the invocation
    returned) is outside this model. *)
Inductive Callback := UnpackOpenJDK (dataDir name : string).

(** [class DLTracker] *)
Record DLTracker := {
  dlqueue : list Asset;
  dlsize : Z;
  callback : option Callback
}.

Definition new_DLTracker (q : list Asset) (sz : Z) : DLTracker :=
  {| dlqueue := q; dlsize := sz; callback := None |}.

(** The fields of an [AssetGuard] instance. *)
Record Guard := {
  totaldlsize : jsnum;
  progress : Z;
  assets : DLTracker;
  libraries : DLTracker;
  files : DLTracker;
  forge : DLTracker;
  java : DLTracker;
  extractQueue : list string;
  commonPath : string;
  javaexec : string
}.

(** [new AssetGuard(commonPath, javaexec)] *)
Definition new_AssetGuard (commonPath_ javaexec_ : string) : Guard :=
  {| totaldlsize := Num 0; progress := 0;
     assets := new_DLTracker [] 0; libraries := new_DLTracker [] 0;
     files := new_DLTracker [] 0; forge := new_DLTracker [] 0;
     java := new_DLTracker [] 0; extractQueue := [];
     commonPath := commonPath_; javaexec := javaexec_ |}.

(** The category identifiers: the names of the tracker fields. *)
Inductive Identifier := Assets | Libraries | Files | Forge | Java.

Definition identifier_name (i : Identifier) : string :=
  match i with
  | Assets => "assets" | Libraries => "libraries" | Files => "files"
  | Forge => "forge" | Java => "java"
  end.

(** [this[identifier]] *)
Definition tracker (i : Identifier) (g : Guard) : DLTracker :=
  match i with
  | Assets => assets g | Libraries => libraries g | Files => files g
  | Forge => forge g | Java => java g
  end.

(** [this[identifier] = t] *)
Definition set_tracker (i : Identifier) (t : DLTracker) (g : Guard) : Guard :=
  {| totaldlsize := totaldlsize g; progress := progress g;
     assets := match i with Assets => t | _ => assets g end;
     libraries := match i with Libraries => t | _ => libraries g end;
     files := match i with Files => t | _ => files g end;
     forge := match i with Forge => t | _ => forge g end;
     java := match i with Java => t | _ => java g end;
     extractQueue := extractQueue g;
     commonPath := commonPath g; javaexec := javaexec g |}.

Definition set_totals (total : jsnum) (prog : Z) (g : Guard) : Guard :=
  {| totaldlsize := total; progress := prog;
     assets := assets g; libraries := libraries g; files := files g;
     forge := forge g; java := java g; extractQueue := extractQueue g;
     commonPath := commonPath g; javaexec := javaexec g |}.

Definition set_extractQueue (q : list string) (g : Guard) : Guard :=
  {| totaldlsize := totaldlsize g; progress := progress g;
     assets := assets g; libraries := libraries g; files := files g;
     forge := forge g; java := java g; extractQueue := q;
     commonPath := commonPath g; javaexec := javaexec g |}.

(** What the guard writes on the console. *)
Inductive LogMessage :=
| DLQueueDump (q : list Asset)
| WarnSize (got : jsnum) (assetId : string) (expected : Z)
| HashesMatch (assetId : string)
| HashesDoNotMatch (assetId : string)
| ItemFailed (identifier : string)
| AllProcessed (identifier : string).

(** What a run of the guard does that an observer can see, in order:
    events emitted on the guard, console output, hooks and the external
    unpacker. *)
Inductive Event :=
| EmitProgress (data : string) (value : Z) (total : jsnum)
| EmitComplete (data : string)
| EmitError (data : string)
| ConsoleLog (msg : LogMessage)
| ConsoleError (msg : LogMessage)
| CallbackApplied (cb : Callback) (a : Asset)
| ExtractPackXZ (filePaths : list string) (javaExecutable : string).

(** The local files: path to content.  [fs.existsSync] is presence in
    the map, [fs.readFileSync] the content. *)
Abbreviation FileSystem := (gmap string string).

(** The answer of [axios.get(url, {responseType: 'stream'})]: a
    rejection (network error, timeout, or a status outside 2xx, which
    axios rejects), or a response with its status, the number read from
    its [content-length] header and the chunks of its body. *)
Inductive FetchResult :=
| FetchFailed
| Response (status : Z) (contentLength : jsnum) (chunks : list string).

(** The state a run threads: the guard object, the files, and the
    observable events so far (oldest first). *)
Record World := {
  guard : Guard;
  fs : FileSystem;
  trace : list Event
}.

Definition emit (e : Event) (w : World) : World :=
  {| guard := guard w; fs := fs w; trace := trace w ++ [e] |}.

Definition with_guard (g : Guard) (w : World) : World :=
  {| guard := g; fs := fs w; trace := trace w |}.

Definition write_file (p content : string) (w : World) : World :=
  {| guard := guard w; fs := <[p := content]> (fs w); trace := trace w |}.

(** How an [async] function ends. *)
Inductive Outcome := Returned (r : bool) | Thrown.

Definition hex_digit (n : N) : ascii :=
  if (n <? 10)%N then ascii_of_N (48 + n) else ascii_of_N (87 + n).

(** [digest('hex')]: two lower-case hexadecimal digits per byte. *)
Fixpoint hex (bytes : string) : string :=
  match bytes with
  | EmptyString => EmptyString
  | String c rest =>
      String (hex_digit (N_of_ascii c / 16))
        (String (hex_digit (N_of_ascii c mod 16)) (hex rest))
  end.

(** An entry of the asset index ([indexData.objects[key]]). *)
Record IndexObject := { io_hash : string; io_size : Z }.

(** An artifact descriptor of a library ([downloads.artifact] or one
    of [downloads.classifiers]). *)
Record ArtifactInfo := {
  sha1 : option string;
  a_size : Z;
  url : string;
  path : string
}.

Record Downloads := {
  artifact : option ArtifactInfo;
  classifiers : option (gmap string ArtifactInfo)
}.

(** An entry of [versionData.libraries]. *)
Record LibraryEntry := {
  name : string;
  rules : option (list Library.Rule);
  natives : option (gmap string string);
  downloads : option Downloads;
  extract_exclude : option (list string)
}.

(** [versionData.downloads.client] and [versionData.logging.client.file] *)
Record ClientInfo := { c_sha1 : option string; c_size : Z; c_url : string }.
Record LogFileInfo := {
  f_id : string; f_sha1 : option string; f_size : Z; f_url : string
}.

(** The version manifest, as far as the guard and the process builder
    read it. *)
Record VersionData := {
  vd_id : string;
  vd_libraries : list LibraryEntry;
  vd_client : ClientInfo;
  vd_logging : LogFileInfo;
  vd_assets : string;
  vd_type : string
}.

Section Host.

(** [process.platform] and [process.arch] *)
Variable platform : string.
Variable arch : string.

(** [crypto.createHash(algo).update(buf).digest()]: the raw digest. *)
Variable digest : string -> string -> string.

(** The network: what fetching a URL gives. *)
Variable fetch : string -> FetchResult.

(** [AssetGuard._calculateHash(buf, algo)] *)
Definition _calculateHash (buf algo : string) : string :=
  hex (digest algo buf).

(** [AssetGuard._validateLocal(filePath, algo, hash)] on the files [fs_]. *)
Definition _validateLocal
    (fs_ : FileSystem) (filePath algo : string) (hash_ : option string) : bool :=
  match fs_ !! filePath with
  | Some buf =>
      match hash_ with
      | None => true
      | Some h => String.eqb (_calculateHash buf algo) (JS.toLowerCase h)
      end
  | None => false
  end.

(** The [Asset] built for one entry of the asset index. *)
Definition index_asset (commonPath_ key : string) (value : IndexObject) : Asset :=
  let resourceURL := "https://resources.download.minecraft.net/" in
  let localPath := NodePath.join platform [commonPath_; "assets"] in
  let objectPath := NodePath.join platform [localPath; "objects"] in
  let hash_ := io_hash value in
  let assetName := NodePath.join platform [JS.substring hash_ 0 2; hash_] in
  let urlName := JS.substring hash_ 0 2 +:+ "/" +:+ hash_ in
  new_Asset key (Some hash_) (io_size value) (resourceURL +:+ urlName)
    (NodePath.join platform [objectPath; assetName]).

(** The iteration of [_assetChainValidateAssets] over the entries of
    the index: [acc] counts the entries seen, [q] and [dlSize] are the
    queue and its size so far. *)
Fixpoint validateAssets_loop
    (fs_ : FileSystem) (commonPath_ : string) (total : Z)
    (objects : list (string * IndexObject))
    (acc : Z) (q : list Asset) (dlSize_ : Z) (events : list Event)
  : list Asset * Z * list Event :=
  match objects with
  | [] => (q, dlSize_, events)
  | (key, value) :: rest =>
      let acc' := acc + 1 in
      let events' := events ++ [EmitProgress "assets" acc' (Num total)] in
      let ast := index_asset commonPath_ key value in
      if negb (_validateLocal fs_ (to ast) "sha1" (hash ast)) then
        validateAssets_loop fs_ commonPath_ total rest acc'
          (q ++ [ast]) (dlSize_ + size ast) events'
      else
        validateAssets_loop fs_ commonPath_ total rest acc' q dlSize_ events'
  end.

(** [_assetChainValidateAssets(versionData, indexData)] (the part of
    [validateAssets] that runs once the index is at hand): the
    [assets] tracker is replaced by a fresh one. *)
Definition _assetChainValidateAssets
    (objects : list (string * IndexObject)) (w : World) : World :=
  let total := Z.of_nat (List.length objects) in
  let '(q, dlSize_, events) :=
    validateAssets_loop (fs w) (commonPath (guard w)) total objects 0 [] 0 [] in
  {| guard := set_tracker Assets (new_DLTracker q dlSize_) (guard w);
     fs := fs w;
     trace := trace w ++ events |}.

(** The artifact a library entry resolves to:
    [lib.downloads.artifact] without natives, otherwise the classifier
    named by [lib.natives[os]] with [${arch}] replaced.  [None] when
    the expression throws or gives [undefined] (whose [sha1] is then
    read, which throws). *)
Definition resolve_artifact (lib : LibraryEntry) : option ArtifactInfo :=
  match natives lib with
  | None =>
      match downloads lib with
      | Some d => artifact d
      | None => None
      end
  | Some nat_ =>
      match nat_ !! Library.mojangFriendlyOS platform, downloads lib with
      | Some classifier, Some d =>
          match classifiers d with
          | Some cs =>
              cs !! JS.replace classifier "${arch}" (JS.replace arch "x" EmptyString)
          | None => None
          end
      | _, _ => None
      end
  end.

(** The [Library] object built for a resolved artifact. *)
Definition library_asset (libPath : string) (lib : LibraryEntry)
    (art : ArtifactInfo) : Asset :=
  new_Asset (name lib) (sha1 art) (a_size art) (url art)
    (NodePath.join platform [libPath; path art]).

(** The iteration of [validateLibraries]; [None] when an entry throws. *)
Fixpoint validateLibraries_loop
    (fs_ : FileSystem) (libPath : string) (libArr : list LibraryEntry)
    (q : list Asset) (dlSize_ : Z) : option (list Asset * Z) :=
  match libArr with
  | [] => Some (q, dlSize_)
  | lib :: rest =>
      if Library.validateRules platform (rules lib) (natives lib) then
        match resolve_artifact lib with
        | None => None
        | Some art =>
            let libItm := library_asset libPath lib art in
            if negb (_validateLocal fs_ (to libItm) "sha1" (hash libItm)) then
              validateLibraries_loop fs_ libPath rest
                (q ++ [libItm]) (dlSize_ + size libItm * 1)
            else validateLibraries_loop fs_ libPath rest q dlSize_
        end
      else validateLibraries_loop fs_ libPath rest q dlSize_
  end.

(** [validateLibraries(versionData)]: on success the [libraries]
    tracker is replaced by a fresh one; [None] when the pass throws
    (the promise is rejected and the guard is left as it was). *)
Definition validateLibraries (versionData : VersionData) (w : World)
  : option World :=
  let libPath := NodePath.join platform [commonPath (guard w); "libraries"] in
  match validateLibraries_loop (fs w) libPath (vd_libraries versionData) [] 0 with
  | Some (q, dlSize_) =>
      Some (with_guard (set_tracker Libraries (new_DLTracker q dlSize_) (guard w)) w)
  | None => None
  end.

(** [tracker.dlqueue.push(a); tracker.dlsize += a.size*1] on [files]. *)
Definition enqueue_file (a : Asset) (g : Guard) : Guard :=
  set_tracker Files
    {| dlqueue := dlqueue (files g) ++ [a];
       dlsize := dlsize (files g) + size a * 1;
       callback := callback (files g) |} g.

(** [validateClient(versionData, force)] *)
Definition validateClient (versionData : VersionData) (force : bool)
    (w : World) : World :=
  let clientData := vd_client versionData in
  let version_ := vd_id versionData in
  let targetPath :=
    NodePath.join platform [commonPath (guard w); "versions"; version_] in
  let targetFile := version_ +:+ ".jar" in
  let client :=
    new_Asset (version_ +:+ " client") (c_sha1 clientData) (c_size clientData)
      (c_url clientData) (NodePath.join platform [targetPath; targetFile]) in
  if negb (_validateLocal (fs w) (to client) "sha1" (hash client)) || force then
    with_guard (enqueue_file client (guard w)) w
  else w.

(** [validateLogConfig(versionData)] *)
Definition validateLogConfig (versionData : VersionData) (w : World) : World :=
  let file := vd_logging versionData in
  let targetPath :=
    NodePath.join platform [commonPath (guard w); "assets"; "log_configs"] in
  let logConfig :=
    new_Asset (f_id file) (f_sha1 file) (f_size file) (f_url file)
      (NodePath.join platform [targetPath; f_id file]) in
  if negb (_validateLocal (fs w) (to logConfig) "sha1" (hash logConfig)) then
    with_guard (enqueue_file logConfig (guard w)) w
  else w.

(** [validateMiscellaneous(versionData)] *)
Definition validateMiscellaneous (versionData : VersionData) (w : World) : World :=
  validateLogConfig versionData (validateClient versionData false w).

(** One [data] event of the response stream: the byte counter grows
    by the chunk and a progress event is emitted. *)
Definition receive_chunk (w : World) (chunk : string) : World :=
  let g := guard w in
  let progress' := progress g + JS.length chunk in
  emit (EmitProgress "download" progress' (totaldlsize g))
    (with_guard (set_totals (totaldlsize g) progress' g) w).

(** The body of the promise created for one asset of the queue, when
    the fetch answered with status 200: the size check, the stream
    written to [asset.to], then, on [close], the hook and the hash
    re-check.  (Directories are not part of the file system of the
    model, so [fs.ensureDirSync] leaves no trace here.) *)
Definition complete_download
    (dlTracker : DLTracker) (asset : Asset)
    (contentLength : jsnum) (chunks : list string) (w : World) : World :=
  let doHashCheck := negb (JS.num_eq contentLength (Num (size asset))) in
  let w1 :=
    if doHashCheck then
      let g := guard w in
      emit (ConsoleLog (WarnSize contentLength (id asset) (size asset)))
        (with_guard
           (set_totals
              (JS.num_add (JS.num_sub (totaldlsize g) (Num (size asset)))
                 contentLength)
              (progress g) g) w)
    else w in
  let w2 := fold_left receive_chunk chunks w1 in
  let w3 := write_file (to asset) (String.concat EmptyString chunks) w2 in
  let w4 :=
    match callback dlTracker with
    | Some cb => emit (CallbackApplied cb asset) w3
    | None => w3
    end in
  if doHashCheck then
    if _validateLocal (fs w4) (to asset)
         (match type asset with Some _ => "md5" | None => "sha1" end)
         (hash asset)
    then emit (ConsoleLog (HashesMatch (id asset))) w4
    else emit (ConsoleError (HashesDoNotMatch (id asset))) w4
  else w4.

(** The promise awaited for one asset.  The result tells whether it
    resolved; the flag is the variable [err] of [startAsyncProcess].

    - A rejected fetch runs the [catch] handler, which emits [error];
      [req] is then [undefined], reading [req.data] throws, and the
      [catch] block sets [err] and rejects.
    - A status other than 200 enters the [else] branch, whose first
      statement reads the undeclared [resp]: it throws before that
      branch touches the byte counter, and the [catch] block sets
      [err] and rejects.  The listener for [data] was attached before
      the status was tested, so the body of such a response is still
      read: every chunk is counted and reported as it arrives, after
      the rejection. *)
Definition download_asset
    (dlTracker : DLTracker) (asset : Asset) (err : bool) (w : World)
  : World * bool * bool :=
  match fetch (from asset) with
  | FetchFailed => (emit (EmitError "download") w, true, false)
  | Response status contentLength chunks =>
      if status =? 200 then
        (complete_download dlTracker asset contentLength chunks w, err, true)
      else (fold_left receive_chunk chunks w, true, false)
  end.

(** [for (const asset of dlQueue) { await new Promise(...) }]: the
    [await] of a rejected promise throws out of the loop. *)
Fixpoint download_loop
    (dlTracker : DLTracker) (dlQueue : list Asset) (err : bool) (w : World)
  : World * bool * bool :=
  match dlQueue with
  | [] => (w, err, true)
  | asset :: rest =>
      match download_asset dlTracker asset err w with
      | (w', err', true) => download_loop dlTracker rest err' w'
      | (w', err', false) => (w', err', false)
      end
  end.

(** The end of [startAsyncProcess], once the byte counter has reached
    the expected total: the unpacker runs on the backlog, if there is
    one, before the aggregate [complete] event.  (The source chains
    the event behind the unpacker with [then]; the model runs the
    unpacker in place.) *)
Definition finish_downloads (w : World) : World :=
  let g := guard w in
  if JS.num_ge (Num (progress g)) (totaldlsize g) then
    match extractQueue g with
    | _ :: _ =>
        let w1 := emit (EmitProgress "extract" 1 (Num 1)) w in
        let w2 := emit (ExtractPackXZ (extractQueue g) (javaexec g)) w1 in
        emit (EmitComplete "download")
          (with_guard (set_extractQueue [] (guard w2)) w2)
    | [] => emit (EmitComplete "download") w
    end
  else w.

(** [startAsyncProcess(identifier, limit)] *)
Definition startAsyncProcess (identifier : Identifier) (w : World)
  : World * Outcome :=
  let dlTracker := tracker identifier (guard w) in
  let dlQueue := dlqueue dlTracker in
  if 0 <? Z.of_nat (List.length dlQueue) then
    let w0 := emit (ConsoleLog (DLQueueDump dlQueue)) w in
    match download_loop dlTracker dlQueue false w0 with
    | (w1, err, true) =>
        let w2 :=
          if err then
            emit (ConsoleLog (ItemFailed (identifier_name identifier))) w1
          else
            emit (ConsoleLog (AllProcessed (identifier_name identifier))) w1 in
        let w3 :=
          with_guard (set_tracker identifier (new_DLTracker [] 0) (guard w2)) w2 in
        (finish_downloads w3, Returned true)
    | (w1, _, false) => (w1, Thrown)
    end
  else (w, Returned false).

(** An element of the [identifiers] argument of [processDlQueues]. *)
Record Iden := { iden_id : Identifier; limit : Z }.

(** [this.totaldlsize += this[iden.id].dlsize] over the identifiers. *)
Definition sum_dlsize (identifiers : list Iden) (g : Guard) : jsnum :=
  fold_left
    (fun total iden => JS.num_add total (Num (dlsize (tracker (iden_id iden) g))))
    identifiers (Num 0).

(** The second loop of [processDlQueues]: a category that throws ends
    the run there (nothing catches it). *)
Fixpoint process_loop (identifiers : list Iden) (shouldFire : bool) (w : World)
  : World * bool * Outcome :=
  match identifiers with
  | [] => (w, shouldFire, Returned true)
  | iden :: rest =>
      match startAsyncProcess (iden_id iden) w with
      | (w', Returned r) =>
          process_loop rest (if r then false else shouldFire) w'
      | (w', Thrown) => (w', shouldFire, Thrown)
      end
  end.

(** [processDlQueues(identifiers)].  The outcome is [Returned true]
    when the body ran to its end. *)
Definition processDlQueues (identifiers : list Iden) (w : World)
  : World * Outcome :=
  let g := guard w in
  let w0 := with_guard (set_totals (sum_dlsize identifiers g) 0 g) w in
  match process_loop identifiers true w0 with
  | (w1, shouldFire, Returned _) =>
      (if shouldFire then emit (EmitComplete "download") w1 else w1,
       Returned true)
  | (w1, _, Thrown) => (w1, Thrown)
  end.

(** The default value of the [identifiers] argument. *)
Definition default_identifiers : list Iden :=
  [ {| iden_id := Assets; limit := 10 |};
    {| iden_id := Libraries; limit := 10 |};
    {| iden_id := Files; limit := 10 |};
    {| iden_id := Forge; limit := 5 |} ].

End Host.

End AssetGuard.

(** ** The configuration store ([configmanager.js]) *)

Module ConfigManager.

(** The memory bounds are computed from [os.totalmem()], a count of
    bytes, which is an argument here.  The arithmetic of the source is
    on doubles; the model computes in the rationals, which agrees with
    it on every amount of memory below [2^50] bytes (the quotients by
    4 and by 8 are exact, and the last quotient is an integer or at
    least [1/4000000000] away from the next one, more than the
    rounding of the division can move it). *)

(** [exports.getAbsoluteMinRAM()] *)
Definition getAbsoluteMinRAM (mem : Z) : Z :=
  if 6000000000 <=? mem then 3 else 2.

(** [exports.getAbsoluteMaxRAM()]; [Number.parseInt] of the positive
    quotient [gT16/8] is its integer part. *)
Definition getAbsoluteMaxRAM (mem : Z) : Z :=
  let gT16 := mem - 16000000000 in
  Qfloor
    ((inject_Z mem - inject_Z 1000000000
      - (if 0 <? gT16 then
           inject_Z (Qfloor (inject_Z gT16 / inject_Z 8))
           + inject_Z 16000000000 / inject_Z 4
         else inject_Z mem / inject_Z 4))
     / inject_Z 1000000000)%Q.

(** [resolveMaxRAM()] and [resolveMinRAM()] *)
Definition resolveMaxRAM (mem : Z) : string :=
  if 8000000000 <=? mem then "4G"
  else if 6000000000 <=? mem then "3G" else "2G".

Definition resolveMinRAM (mem : Z) : string := resolveMaxRAM mem.

(** The configuration object, with the types [DEFAULT_CONFIG] gives
    its fields. *)
Record JavaSettings := {
  minRAM : string;
  maxRAM : string;
  executable : option string;
  jvmOptions : list string
}.

Record GameSettings := {
  resWidth : jsnum;
  resHeight : jsnum;
  fullscreen : bool;
  autoConnect : bool;
  launchDetached : bool;
  hideLauncher : bool
}.

Record LauncherSettings := {
  allowPrerelease : bool;
  dataDirectory : string
}.

Record Config := {
  java : JavaSettings;
  game : GameSettings;
  launcher : LauncherSettings
}.

(** [DEFAULT_CONFIG], for the memory of the machine and the data path
    computed when the module is loaded. *)
Definition DEFAULT_CONFIG (mem : Z) (dataPath : string) : Config :=
  {| java :=
       {| minRAM := resolveMinRAM mem;
          maxRAM := resolveMaxRAM mem;
          executable := None;
          jvmOptions :=
            [ "-XX:+UseConcMarkSweepGC"; "-XX:+CMSIncrementalMode";
              "-XX:-UseAdaptiveSizePolicy"; "-Xmn128M" ] |};
     game :=
       {| resWidth := Num 1280; resHeight := Num 720; fullscreen := false;
          autoConnect := true; launchDetached := true; hideLauncher := true |};
     launcher := {| allowPrerelease := false; dataDirectory := dataPath |} |}.

(** The getters the process builder calls, on the loaded
    configuration (their [def] argument left at [false]). *)
Definition getFullscreen (config : Config) : bool := fullscreen (game config).
Definition getGameWidth (config : Config) : jsnum := resWidth (game config).
Definition getGameHeight (config : Config) : jsnum := resHeight (game config).

End ConfigManager.

(** ** [class ProcessBuilder]: the classpath *)

Module ProcessBuilder.

Import AssetGuard.

(** A JavaScript object used as a dictionary from strings to strings,
    in the order the properties were created. *)
Abbreviation Dict := (list (string * string)).

(** [obj[k] = v]: an existing property keeps its place and takes the
    new value, a new one is added last.  Assigning a string to
    [__proto__] reaches the prototype accessor and creates nothing. *)
Fixpoint dict_assign (k v : string) (d : Dict) : Dict :=
  match d with
  | [] => [(k, v)]
  | (k', v') :: d' =>
      if String.eqb k k' then (k, v) :: d' else (k', v') :: dict_assign k v d'
  end.

Definition dict_set (k v : string) (d : Dict) : Dict :=
  if String.eqb k "__proto__" then d else dict_assign k v d.

(** [obj[k]] *)
Fixpoint dict_get (k : string) (d : Dict) : option string :=
  match d with
  | [] => None
  | (k', v) :: d' => if String.eqb k k' then Some v else dict_get k d'
  end.

Fixpoint all_digits (s : string) : bool :=
  match s with
  | EmptyString => true
  | String c s' =>
      let n := N_of_ascii c in ((48 <=? n) && (n <=? 57))%N && all_digits s'
  end.

(** The value of a property name that is an array index: a canonical
    decimal numeral below [2^32 - 1]. *)
Definition array_index (k : string) : option Z :=
  match k with
  | EmptyString => None
  | String "0" EmptyString => Some 0
  | String "0" _ => None
  | _ =>
      if all_digits k then
        match JS.parse_digits 10 None k with
        | Some v => if v <? 4294967295 then Some v else None
        | None => None
        end
      else None
  end.

Fixpoint insert_by_index (e : Z * string) (l : list (Z * string))
  : list (Z * string) :=
  match l with
  | [] => [e]
  | e' :: l' => if fst e <? fst e' then e :: l else e' :: insert_by_index e l'
  end.

(** [Object.values(obj)] (also the order in which [{...obj}] copies):
    the properties named by array indices first, in ascending order,
    then the others in creation order. *)
Definition object_values (d : Dict) : list string :=
  let indexed :=
    fold_right
      (fun kv acc =>
         match array_index (fst kv) with
         | Some i => insert_by_index (i, snd kv) acc
         | None => acc
         end) [] d in
  let named :=
    List.filter
      (fun kv => match array_index (fst kv) with None => true | Some _ => false end)
      d in
  map snd indexed ++ map snd named.

(** The fields of a [ProcessBuilder] instance that the classpath reads. *)
Record Builder := {
  commonDir : string;
  versionData : VersionData;
  libPath : string;
  usingLiteLoader : bool;
  llPath : option string
}.

(** An entry of a native archive: its name and its content. *)
Record ZipEntry := { entryName : string; entryData : string }.

Section Host.

Variable platform : string.
Variable arch : string.

(** [new AdmZip(path).getEntries()]; [None] when the archive cannot be
    opened (the constructor throws). *)
Variable zipEntries : string -> option (list ZipEntry).

(** [new ProcessBuilder(versionData, mcArgs)], with the common
    directory the configuration store returns. *)
Definition new_ProcessBuilder (commonDir_ : string) (versionData_ : VersionData)
  : Builder :=
  {| commonDir := commonDir_; versionData := versionData_;
     libPath := NodePath.join platform [commonDir_; "libraries"];
     usingLiteLoader := false; llPath := None |}.

(** [lib.name.substring(0, lib.name.lastIndexOf(':'))] *)
Definition versionIndependentId (libName : string) : string :=
  JS.substring libName 0 (JS.lastIndexOf libName ":").

(** The files one native archive contributes to the temporary
    directory: every entry whose name holds none of the exclusions. *)
Definition extract_natives (tempNativePath : string)
    (exclusionArr : list string) (entries : list ZipEntry)
  : list (string * string) :=
  map (fun e => (NodePath.join platform [tempNativePath; entryName e], entryData e))
    (List.filter
       (fun e =>
          negb (existsb (fun exclusion => -1 <? JS.indexOf (entryName e) exclusion)
                  exclusionArr))
       entries).

(** The loop of [_resolveMojangLibraries]: the dictionary of library
    paths and the files written for the natives; [None] when an entry
    throws. *)
Fixpoint resolve_loop (libPath_ tempNativePath : string)
    (libArr : list LibraryEntry) (libs : Dict) (written : list (string * string))
  : option (Dict * list (string * string)) :=
  match libArr with
  | [] => Some (libs, written)
  | lib :: rest =>
      if Library.validateRules platform (rules lib) (natives lib) then
        match natives lib with
        | None =>
            match resolve_artifact platform arch lib with
            | None => None
            | Some art =>
                let to_ := NodePath.join platform [libPath_; path art] in
                resolve_loop libPath_ tempNativePath rest
                  (dict_set (versionIndependentId (name lib)) to_ libs) written
            end
        | Some _ =>
            let exclusionArr :=
              match extract_exclude lib with
              | Some ex => ex
              | None => ["META-INF/"]
              end in
            match resolve_artifact platform arch lib with
            | None => None
            | Some art =>
                let to_ := NodePath.join platform [libPath_; path art] in
                match zipEntries to_ with
                | None => None
                | Some entries =>
                    resolve_loop libPath_ tempNativePath rest libs
                      (written ++ extract_natives tempNativePath exclusionArr entries)
                end
            end
        end
      else resolve_loop libPath_ tempNativePath rest libs written
  end.

(** [_resolveMojangLibraries(tempNativePath)] *)
Definition _resolveMojangLibraries (b : Builder) (tempNativePath : string)
  : option (Dict * list (string * string)) :=
  resolve_loop (libPath b) tempNativePath (vd_libraries (versionData b)) [] [].

(** One step of [_processClassPathList]: an entry is cut right after
    its first [.jar]. *)
Definition trim_to_jar (entry : string) : string :=
  let ext := ".jar" in
  let extLen := JS.length ext in
  let extIndex := JS.indexOf entry ext in
  if (-1 <? extIndex) && negb (extIndex =? JS.length entry - extLen) then
    JS.substring entry 0 (extIndex + extLen)
  else entry.

(** [_processClassPathList(list)] *)
Definition _processClassPathList (l : list string) : list string :=
  map trim_to_jar l.

(** [classpathArg(tempNativePath)]; [None] when it throws.  The only
    libraries merged are the ones of the version manifest:
    [finalLibs = {...mojangLibs}]. *)
Definition classpathArg (b : Builder) (tempNativePath : string)
  : option (list string) :=
  let version_ := vd_id (versionData b) in
  let cpArgs0 :=
    [NodePath.join platform
       [commonDir b; "versions"; version_; version_ +:+ ".jar"]] in
  let cpArgs1 :=
    if usingLiteLoader b then
      match llPath b with
      | Some p => Some (cpArgs0 ++ [p])
      | None => None
      end
    else Some cpArgs0 in
  match _resolveMojangLibraries b tempNativePath with
  | None => None
  | Some (mojangLibs, _) =>
      let finalLibs := mojangLibs in
      match cpArgs1 with
      | Some cpArgs =>
          Some (_processClassPathList (cpArgs ++ object_values finalLibs))
      | None => None
      end
  end.

End Host.

(** *** The command line *)

(** An element of the argument array: the words of the argument
    template and the JVM options are strings; the resolution of the
    window pushes a boolean or two numbers. *)
Inductive Arg :=
| ArgString (s : string)
| ArgBool (b : bool)
| ArgNumber (n : jsnum).

(** The instance fields [_resolveMcArgs] reads besides those of the
    classpath. *)
Record Launcher := {
  builder : Builder;
  gameDir : string;
  mcArgs : string
}.

Definition is_line_terminator (c : ascii) : bool :=
  let n := N_of_ascii c in ((n =? 10) || (n =? 13))%N.

(** The text the dot can run over: up to the first line terminator. *)
Fixpoint line_of (s : string) : string :=
  match s with
  | EmptyString => EmptyString
  | String c s' =>
      if is_line_terminator c then EmptyString else String c (line_of s')
  end.

(** What the star on the opening brace consumes. *)
Fixpoint skip_braces (s : string) : string :=
  match s with
  | String "{" s' => skip_braces s'
  | _ => s
  end.

(** The longest prefix of [s] that is followed by a closing brace. *)
Fixpoint up_to_last_brace (s : string) : option string :=
  match s with
  | EmptyString => None
  | String c s' =>
      match up_to_last_brace s' with
      | Some t => Some (String c t)
      | None => if Ascii.eqb c "}" then Some EmptyString else None
      end
  end.

(** The regular expression [argDiscovery] of [_resolveMcArgs]: an
    escaped dollar sign, an opening brace under a star, a group that
    holds a dot under a star, and a closing brace.  [argDiscovery s] is
    the group of the leftmost match ([s.match(argDiscovery)[1]]),
    [None] when [argDiscovery.test(s)] is false.  A match starts at a
    dollar sign; the greedy star on the brace takes the opening braces
    that follow it; the greedy group then runs to the end of the line
    and gives back characters up to the last closing brace of the
    line. *)
Fixpoint argDiscovery (s : string) : option string :=
  match s with
  | EmptyString => None
  | String c s' =>
      if Ascii.eqb c "$" then
        match up_to_last_brace (skip_braces (line_of s')) with
        | Some group => Some group
        | None => argDiscovery s'
        end
      else argDiscovery s'
  end.

Section Launch.

Variable platform : string.

(** The loaded configuration. *)
Variable config : ConfigManager.Config.

(** The [switch] of [_resolveMcArgs]: the value of a declared
    variable, [None] for a name it does not know. *)
Definition placeholder_value (l : Launcher) (identifier : string) : option string :=
  if String.eqb identifier "version_name" then Some "Crystal Client"
  else if String.eqb identifier "game_directory" then Some (gameDir l)
  else if String.eqb identifier "assets_root" then
    Some (NodePath.join platform [commonDir (builder l); "assets"])
  else if String.eqb identifier "assets_index_name" then
    Some (vd_assets (versionData (builder l)))
  else if String.eqb identifier "user_properties" then Some "{}"
  else if String.eqb identifier "version_type" then
    Some (vd_type (versionData (builder l)))
  else None.

(** The body of the first loop of [_resolveMcArgs] for one word. *)
Definition resolve_word (l : Launcher) (word : string) : string :=
  match argDiscovery word with
  | Some identifier =>
      match placeholder_value l identifier with
      | Some val => val
      | None => word
      end
  | None => word
  end.

(** [_resolveMcArgs()] *)
Definition _resolveMcArgs (l : Launcher) : list Arg :=
  map ArgString (map (resolve_word l) (JS.split " " (mcArgs l)))
  ++ (if ConfigManager.getFullscreen config then
        [ArgString "--fullscreen"; ArgBool true]
      else
        [ArgString "--width"; ArgNumber (ConfigManager.getGameWidth config);
         ArgString "--height"; ArgNumber (ConfigManager.getGameHeight config)]).

End Launch.

End ProcessBuilder.

(* ================================================================== *)
(** * Part II.  Readings of the specification                           *)
(* ================================================================== *)

(** Definitions that follow the words of the specification, to be
    compared with the code of Part I, and the vocabulary the
    properties of Part III are stated in. *)

Module Reading.

(** *** Platform rules *)

(** A rule the loop of [validateRules] returns on: it has an action
    and an os, and the action is [allow] or [disallow]. *)
Definition decisive (r : Library.Rule) : bool :=
  match Library.action r, Library.os r with
  | Some act, Some _ => String.eqb act "allow" || String.eqb act "disallow"
  | _, _ => false
  end.

(** The os of the rule names the current one. *)
Definition names_current_os (platform : string) (r : Library.Rule) : bool :=
  match Library.os r with
  | Some o => bool_decide (Library.os_name o = Some (Library.mojangFriendlyOS platform))
  | None => false
  end.

Definition is_allow (r : Library.Rule) : bool :=
  match Library.action r with
  | Some act => String.eqb act "allow"
  | None => false
  end.

(** What a decisive rule answers: [allow] includes on the named OS
    only, [disallow] includes everywhere else. *)
Definition verdict (platform : string) (r : Library.Rule) : bool :=
  if is_allow r then names_current_os platform r
  else negb (names_current_os platform r).

(** The sentence of the specification, read with a rule matching when
    its OS name is the current one: the first matching rule decides by
    its action, and the library is allowed when none matches. *)
Fixpoint first_matching_rule_decides (platform : string)
    (rules : list Library.Rule) : bool :=
  match rules with
  | [] => true
  | r :: rest =>
      if decisive r && names_current_os platform r then is_allow r
      else first_matching_rule_decides platform rest
  end.

Definition stated_validateRules (platform : string)
    (rules : option (list Library.Rule)) (natives : option (gmap string string))
  : bool :=
  match rules with
  | None =>
      match natives with
      | None => true
      | Some n => bool_decide (is_Some (n !! Library.mojangFriendlyOS platform))
      end
  | Some rs => first_matching_rule_decides platform rs
  end.

(** *** Paths *)

(** A segment that normalisation keeps as it is. *)
Definition plain (seg : string) : bool :=
  negb (String.eqb seg EmptyString || String.eqb seg "." || String.eqb seg "..").

(** The text the Windows branch of [javaExecFromRoot] appends. *)
Definition exe_tail : string := "bin\javaw.exe".

(** A path that ends with [\bin\javaw.exe]. *)
Definition ends_exe (s : string) : Prop :=
  exists z, s = z +:+ String "\" exe_tail.

(** A path that is [bin\javaw.exe] or ends with [\bin\javaw.exe]. *)
Definition good (s : string) : Prop := s = exe_tail \/ ends_exe s.

(** *** Java candidates *)

(** A candidate whose version was read in the Java 8 scheme
    ([1.{major}.0_{update}-b{build}]) with numeric major and update;
    the build is whatever [parseInt] made of the text after the dash
    (a vendor suffix gives [NaN]). *)
Definition java8 (maj upd : Z) (bld : jsnum) (pth : string)
  : JavaGuard.Candidate :=
  {| JavaGuard.cVersion :=
       {| JavaGuard.build := bld; JavaGuard.major := Num maj;
          JavaGuard.update := Some (Num upd);
          JavaGuard.minor := None; JavaGuard.revision := None |};
     JavaGuard.execPath := pth |}.

(** [a] ranks above [b]: the comparator of [_sortValidJavaArray]
    orders [a] before [b] whichever of the two is its first argument,
    and the sorted array of the two has [a] first. *)
Definition ranks_above (a b : JavaGuard.Candidate) : Prop :=
  JavaGuard.compareCandidates a b < 0 /\
  JavaGuard.compareCandidates b a > 0 /\
  JavaGuard._sortValidJavaArray [a; b] = [a; b] /\
  JavaGuard._sortValidJavaArray [b; a] = [a; b].

(** The substring check as the specification words it: the path
    contains [jdk], letter for letter. *)
Definition contains_jdk (pth : string) : bool := -1 <? JS.indexOf pth "jdk".

(** The first candidate is ahead of the second in the stated order:
    higher major; at equal major (below 9, the Java 8 scheme) higher
    update; at equal update higher build; at equal version a path
    that does not mention a JDK against one that does. *)
Definition outranks (ma ua : Z) (ba : jsnum) (pa : string)
    (mb ub : Z) (bb : jsnum) (pb : string) : Prop :=
  ma > mb \/
  (ma = mb /\ ma < 9 /\
   (ua > ub \/
    (ua = ub /\
     (JS.num_gt ba bb = true \/
      (JS.num_eq ba bb = true /\ JavaGuard.mentions_jdk pa = false
       /\ JavaGuard.mentions_jdk pb = true))))).

(** *** Property dumps *)

Definition newline : string := String (ascii_of_N 10) EmptyString.

(** The line is read as the architecture property and gives 64. *)
Definition arch_ok (line : string) : bool :=
  (-1 <? JS.indexOf line "sun.arch.data.model")
  && match JavaGuard.property_value line with
     | Some v => JS.num_eq (JS.parseInt v) (Num 64)
     | None => false
     end.

(** The line is read as the runtime version and gives major 8 with an
    update above 52. *)
Definition version_ok (looseEqualsOne : string -> bool) (line : string) : bool :=
  negb (-1 <? JS.indexOf line "sun.arch.data.model")
  && (-1 <? JS.indexOf line "java.runtime.version")
  && match JavaGuard.property_value line with
     | Some v =>
         match JavaGuard.parseJavaRuntimeVersion looseEqualsOne v with
         | Some verOb =>
             JS.num_eq (JavaGuard.major verOb) (Num 8) && JavaGuard.gt (JavaGuard.update verOb) (Some (Num 52))
         | None => false
         end
     | None => false
     end.

(** How many lines pass one of the two checks. *)
Definition passed_checks (looseEqualsOne : string -> bool) (props : list string)
  : Z :=
  fold_right
    (fun line n =>
       (if arch_ok line || version_ok looseEqualsOne line then 1 else 0) + n)
    0 props.

(** What a 64-bit Java 7 prints for [-XshowSettings:properties] when
    the environment sets [JAVA_TOOL_OPTIONS] to define
    [sun.arch.data.model]: the launcher echoes the variable on the
    error stream before the property list. *)
Definition java7_with_tool_options : string :=
  JS.join newline
    [ "Picked up JAVA_TOOL_OPTIONS: -Dsun.arch.data.model=64";
      "Property settings:";
      "    java.runtime.version = 1.7.0_80-b15";
      "    java.vendor = Oracle Corporation";
      "    sun.arch.data.model = 64" ].

(** The runtime version the OpenJDK 8 packages of Ubuntu report: the
    text after the dash is the name of the package, not [b] and a
    number. *)
Definition packaged_version_text : string :=
  "1.8.0_292-8u292-b10-0ubuntu1~20.04-b10".

(** What such a runtime prints for [-XshowSettings:properties]. *)
Definition packaged_java8_dump : string :=
  JS.join newline
    [ "Property settings:";
      "    java.runtime.version = 1.8.0_292-8u292-b10-0ubuntu1~20.04-b10";
      "    java.vendor = Private Build";
      "    sun.arch.data.model = 64" ].

(** Two installations of that runtime, a JRE and a JDK. *)
Definition packaged_jre : JavaGuard.Candidate :=
  java8 8 292 NaN "/opt/java/jre1.8.0_292/bin/java".

Definition packaged_jdk : JavaGuard.Candidate :=
  java8 8 292 NaN "/opt/java/jdk1.8.0_292/bin/java".

Import AssetGuard ProcessBuilder.

(** *** Classpath *)

(** The libraries the version manifest declares for the classpath, in
    manifest order: for every entry that passes its rules, has no
    natives and resolves to an artifact, its key (the name without
    the version) and its path. *)
Definition declared (platform arch libPath_ : string)
    (libArr : list LibraryEntry) : list (string * string) :=
  flat_map
    (fun lib =>
       if Library.validateRules platform (rules lib) (natives lib) then
         match natives lib, resolve_artifact platform arch lib with
         | None, Some art =>
             [(versionIndependentId (name lib),
               NodePath.join platform [libPath_; path art])]
         | _, _ => []
         end
       else [])
    libArr.

(** The path of the last declaration of a key. *)
Definition last_declared (key : string) (decls : list (string * string))
  : option string :=
  dict_get key (rev decls).

(** [obj[k] = v] for a pair. *)
Definition set_pair (d : Dict) (kv : string * string) : Dict :=
  dict_set (fst kv) (snd kv) d.



(** A manifest with one library, [com.example:foo] in version 1.0. *)
Definition foo_manifest : VersionData :=
  {| vd_id := "1.8.9";
     vd_libraries :=
       [ {| name := "com.example:foo:1.0"; rules := None; natives := None;
            downloads :=
              Some {| artifact :=
                        Some {| sha1 := Some "0a"; a_size := 10;
                                url := "https://libraries.example/foo-1.0.jar";
                                path := "com/example/foo/1.0/foo-1.0.jar" |};
                      classifiers := None |};
            extract_exclude := None |} ];
     vd_client := {| c_sha1 := None; c_size := 0; c_url := EmptyString |};
     vd_logging :=
       {| f_id := "client-1.7.xml"; f_sha1 := None; f_size := 0;
          f_url := EmptyString |};
     vd_assets := "1.8";
     vd_type := "release" |}.

(** A manifest that declares [com.example:foo] twice, version 1.0
    then version 2.0. *)
Definition foo_twice_manifest : VersionData :=
  {| vd_id := "1.8.9";
     vd_libraries :=
       vd_libraries foo_manifest ++
       [ {| name := "com.example:foo:2.0"; rules := None; natives := None;
            downloads :=
              Some {| artifact :=
                        Some {| sha1 := Some "0b"; a_size := 12;
                                url := "https://libraries.example/foo-2.0.jar";
                                path := "com/example/foo/2.0/foo-2.0.jar" |};
                      classifiers := None |};
            extract_exclude := None |} ];
     vd_client := vd_client foo_manifest;
     vd_logging := vd_logging foo_manifest;
     vd_assets := "1.8";
     vd_type := "release" |}.

(** *** Validation passes *)

(** The two passes that rebuild a download queue from the local
    files. *)
Inductive ValidationPass :=
| AssetPass (objects : list (string * IndexObject))
| LibraryPass (versionData : VersionData).

Section PassHost.

Variables (platform arch : string) (digest : string -> string -> string).

(** One validation pass; [None] when it throws. *)
Definition run_pass (p : ValidationPass) (w : World) : option World :=
  match p with
  | AssetPass objects => Some (_assetChainValidateAssets platform digest objects w)
  | LibraryPass versionData => validateLibraries platform arch digest versionData w
  end.

(** [n] passes in a row. *)
Fixpoint run_passes (n : nat) (p : ValidationPass) (w : World) : option World :=
  match n with
  | O => Some w
  | S n' =>
      match run_pass p w with
      | Some w' => run_passes n' p w'
      | None => None
      end
  end.

(** The queue a pass rebuilds. *)
Definition pass_queue (p : ValidationPass) (g : Guard) : list Asset :=
  match p with
  | AssetPass _ => dlqueue (assets g)
  | LibraryPass _ => dlqueue (libraries g)
  end.

(** The artifacts a pass looks at: one per entry of the asset index,
    one per library entry that passes its rules and resolves. *)
Definition pass_artifacts (p : ValidationPass) (commonPath_ : string)
  : list Asset :=
  match p with
  | AssetPass objects =>
      map (fun kv => index_asset platform commonPath_ (fst kv) (snd kv)) objects
  | LibraryPass versionData =>
      flat_map
        (fun lib =>
           if Library.validateRules platform (rules lib) (natives lib) then
             match resolve_artifact platform arch lib with
             | Some art =>
                 [library_asset platform
                    (NodePath.join platform [commonPath_; "libraries"]) lib art]
             | None => []
             end
           else [])
        (vd_libraries versionData)
  end.

(** The destination of the artifact exists and the hash computed
    from its content is the expected hash. *)
Definition present_with_hash (fs_ : FileSystem) (a : Asset) : Prop :=
  exists buf, fs_ !! to a = Some buf /\
              hash a = Some (_calculateHash digest buf "sha1").

(** What the passes test before they enqueue. *)
Definition locally_valid (fs_ : FileSystem) (a : Asset) : bool :=
  _validateLocal digest fs_ (to a) "sha1" (hash a).

End PassHost.

(** A digest used to run the model on examples: the content itself. *)
Definition sample_digest (algo buf : string) : string := buf.

(** A guard over [/c] and a file system that holds one asset object,
    whose content [abc] has the digest [616263]. *)
Definition sample_world : World :=
  {| guard := new_AssetGuard "/c" "/usr/bin/java";
     fs := {[ "/c/assets/objects/61/616263" := "abc";
              "/c/libraries/com/example/foo/1.0/foo-1.0.jar" := "jar";
              "/c/versions/1.8.9/1.8.9.jar" := "client";
              "/c/assets/log_configs/client-1.7.xml" := "<xml/>" ]};
     trace := [] |}.

Definition sample_index : list (string * IndexObject) :=
  [("icons/icon_16x16.png", {| io_hash := "616263"; io_size := 3 |})].

(** The manifest [foo_manifest] with no hash for its library. *)
Definition unhashed_manifest : VersionData :=
  {| vd_id := "1.8.9";
     vd_libraries :=
       [ {| name := "com.example:foo:1.0"; rules := None; natives := None;
            downloads :=
              Some {| artifact :=
                        Some {| sha1 := None; a_size := 10;
                                url := "https://libraries.example/foo-1.0.jar";
                                path := "com/example/foo/1.0/foo-1.0.jar" |};
                      classifiers := None |};
            extract_exclude := None |} ];
     vd_client := vd_client foo_manifest;
     vd_logging := vd_logging foo_manifest;
     vd_assets := "1.8";
     vd_type := "release" |}.

(** *** Downloads *)

(** Bytes in the chunks of a body. *)
Definition total_length (chunks : list string) : Z :=
  fold_right (fun c n => JS.length c + n) 0 chunks.

(** The progress events of the chunks of one body, from the byte
    count [prog]. *)
Fixpoint progress_events (prog : Z) (total : jsnum) (chunks : list string)
  : list Event :=
  match chunks with
  | [] => []
  | c :: rest =>
      EmitProgress "download" (prog + JS.length c) total
      :: progress_events (prog + JS.length c) total rest
  end.

Definition callback_events (t : DLTracker) (a : Asset) : list Event :=
  match callback t with
  | Some cb => [CallbackApplied cb a]
  | None => []
  end.

(** The outcome of the hash comparison on the content written for the
    asset (an asset without a hash always agrees). *)
Definition hash_agrees (digest : string -> string -> string)
    (a : Asset) (content : string) : bool :=
  match hash a with
  | None => true
  | Some h =>
      String.eqb
        (_calculateHash digest content
           (match type a with Some _ => "md5" | None => "sha1" end))
        (JS.toLowerCase h)
  end.

(** The expected total once the size of the asset is replaced by the
    reported content length. *)
Definition adjusted_total (total : jsnum) (a : Asset) (contentLength : jsnum)
  : jsnum :=
  JS.num_add (JS.num_sub total (Num (size a))) contentLength.

(** The aggregate completion signal. *)
Definition is_complete (e : Event) : bool :=
  match e with
  | EmitComplete data => String.eqb data "download"
  | _ => false
  end.

(** How many aggregate completion signals a list of events holds. *)
Definition count_complete (events : list Event) : nat :=
  List.length (List.filter is_complete events).

Definition sum_sizes (q : list Asset) : Z :=
  fold_right (fun a n => size a + n) 0 q.

(** The fetch of the artifact answers with status 200 and delivers as
    many bytes as its content length announces. *)
Definition served (fetch : string -> FetchResult) (a : Asset) : Prop :=
  exists chunks,
    fetch (from a) = Response 200 (Num (total_length chunks)) chunks.

(** A tracker whose size is the sum of the sizes of its members, all
    positive, and whose members are all served. *)
Definition queue_ok (fetch : string -> FetchResult) (t : DLTracker) : Prop :=
  dlsize t = sum_sizes (dlqueue t) /\
  Forall (fun a => 0 < size a /\ served fetch a) (dlqueue t).

Definition queue_is_empty (t : DLTracker) : bool :=
  match dlqueue t with [] => true | _ :: _ => false end.

(** None of the requested categories has anything queued. *)
Definition all_empty (identifiers : list Iden) (g : Guard) : bool :=
  forallb (fun iden => queue_is_empty (tracker (iden_id iden) g)) identifiers.

(** The sum of the sizes of the requested trackers. *)
Definition sum_remaining (identifiers : list Iden) (g : Guard) : Z :=
  fold_right (fun iden n => dlsize (tracker (iden_id iden) g) + n) 0 identifiers.

(** The end of a run that downloaded something: the unpacking of the
    backlog, when there is one, then the aggregate signal. *)
Definition completion (backlog : list string) (javaExecutable : string)
  : list Event :=
  match backlog with
  | [] => []
  | _ :: _ =>
      [EmitProgress "extract" 1 (Num 1); ExtractPackXZ backlog javaExecutable]
  end ++ [EmitComplete "download"].

(** *** Sample runs *)

(** [n] bytes. *)
Fixpoint filler (n : nat) : string :=
  match n with
  | O => EmptyString
  | S n' => String "x" (filler n')
  end.

Definition sample_asset (name_ : string) (size_ : Z) : Asset :=
  new_Asset name_ None size_ ("https://host.example/" +:+ name_) ("/c/" +:+ name_).

(** A guard whose [assets] and [libraries] queues hold the given
    artifacts, with sizes that add up. *)
Definition sample_guard (assetQueue libraryQueue : list Asset) : World :=
  {| guard :=
       set_tracker Libraries
         (new_DLTracker libraryQueue (sum_sizes libraryQueue))
         (set_tracker Assets
            (new_DLTracker assetQueue (sum_sizes assetQueue))
            (new_AssetGuard "/c" "/usr/bin/java"));
     fs := ∅;
     trace := [] |}.

Definition assets_then_libraries : list Iden :=
  [ {| iden_id := Assets; limit := 10 |};
    {| iden_id := Libraries; limit := 10 |} ].

(** Scenario D of the specification: 100 bytes of assets (in two
    chunks) and 50 bytes of libraries, all served. *)
Definition scenario_d : World :=
  sample_guard [sample_asset "a" 100] [sample_asset "l" 50].

Definition scenario_d_fetch (url_ : string) : FetchResult :=
  if String.eqb url_ "https://host.example/a" then
    Response 200 (Num 100) [filler 60; filler 40]
  else if String.eqb url_ "https://host.example/l" then
    Response 200 (Num 50) [filler 50]
  else FetchFailed.

(** Three bytes of assets and a library that is an empty file. *)
Definition empty_library_run : World :=
  sample_guard [sample_asset "a" 3] [sample_asset "empty" 0].

Definition empty_library_fetch (url_ : string) : FetchResult :=
  if String.eqb url_ "https://host.example/a" then Response 200 (Num 3) ["abc"]
  else if String.eqb url_ "https://host.example/empty" then Response 200 (Num 0) []
  else FetchFailed.

(** Three bytes of assets, served without a [content-length] header:
    [parseInt(undefined)] is [NaN]. *)
Definition headerless_run : World := sample_guard [sample_asset "a" 3] [].

Definition headerless_fetch (url_ : string) : FetchResult :=
  Response 200 NaN ["abc"].

(** Two assets; the fetch of the first fails, the second would be
    served. *)
Definition failing_run : World :=
  sample_guard [sample_asset "a" 3; sample_asset "b" 3] [].

Definition failing_fetch (url_ : string) : FetchResult :=
  if String.eqb url_ "https://host.example/a" then FetchFailed
  else Response 200 (Num 3) ["abc"].

End Reading.

(* ================================================================== *)
(** * Part II, continued.  Vocabulary of the further properties         *)
(* ================================================================== *)

Module Terms.

(** *** Versions *)

(** The number of dotted components of a version text, and its
    [i]-th component as [parseInt] reads it. *)
Definition components (v : string) : nat := List.length (JS.split "." v).

Definition component (v : string) (i : nat) : jsnum :=
  JS.parseInt_opt (JS.at_index (JS.split "." v) i).

(** *** Numerals and version texts *)

(** The characters of [s] all differ from [c]. *)
Fixpoint free_of (c : ascii) (s : string) : bool :=
  match s with
  | EmptyString => true
  | String a s' => negb (Ascii.eqb a c) && free_of c s'
  end.




Fixpoint digits_value (acc : Z) (s : string) : Z :=
  match s with
  | EmptyString => acc
  | String c s' => digits_value (acc * 10 + (Z.of_N (N_of_ascii c) - 48)) s'
  end.

(** The number a numeral writes. *)
Definition value (s : string) : Z := digits_value 0 s.



(** *** Lines of a property dump *)

(** The line holds the name. *)
Definition mentions (line name_ : string) : bool := -1 <? JS.indexOf line name_.

(** The line is read by [_validateJVMProperties] without an
    exception: when it is taken for one of the three properties it has
    a value (a text after an equals sign), and the value of a runtime
    version can be parsed. *)
Definition readable (looseEqualsOne : string -> bool) (line : string) : bool :=
  if mentions line "sun.arch.data.model" then
    bool_decide (is_Some (JavaGuard.property_value line))
  else if mentions line "java.runtime.version" then
    match JavaGuard.property_value line with
    | Some v =>
        bool_decide (is_Some (JavaGuard.parseJavaRuntimeVersion looseEqualsOne v))
    | None => false
    end
  else if -1 <? JS.lastIndexOf line "java.vendor " then
    bool_decide (is_Some (JavaGuard.property_value line))
  else true.


(** The dump of a 64-bit Java 8, update 152, as the properties option
    prints it. *)
Definition java8_dump : string :=
  JS.join Reading.newline
    [ "Property settings:";
      "    java.runtime.version = 1.8.0_152-b16";
      "    java.vendor = Oracle Corporation";
      "    sun.arch.data.model = 64";
      "    sun.boot.library.path = /usr/lib/jvm/jre/lib/amd64" ].

(** The dump of a 64-bit Java 8 whose version text has no build
    suffix. *)
Definition java8_dump_without_build : string :=
  JS.join Reading.newline
    [ "Property settings:";
      "    java.runtime.version = 1.8.0_292";
      "    sun.arch.data.model = 64" ].

(** *** Order of runtime candidates *)

(** The three numbers the comparator of [_sortValidJavaArray] orders
    a candidate by, when they are numbers: the major version, then
    update and build in the Java 8 scheme (a major below 9), minor and
    revision in the later scheme. *)
Definition version_key (c : JavaGuard.Candidate) : option (Z * Z * Z) :=
  let v := JavaGuard.cVersion c in
  match JavaGuard.major v with
  | Num m =>
      if m <? 9 then
        match JavaGuard.update v, JavaGuard.build v with
        | Some (Num u), Num b => Some (m, u, b)
        | _, _ => None
        end
      else
        match JavaGuard.minor v, JavaGuard.revision v with
        | Some (Num mi), Some (Num r) => Some (m, mi, r)
        | _, _ => None
        end
  | NaN => None
  end.

(** The order of versions on the keys. *)
Definition key_le (k1 k2 : Z * Z * Z) : Prop :=
  let '(m1, u1, b1) := k1 in
  let '(m2, u2, b2) := k2 in
  m1 < m2 \/ (m1 = m2 /\ (u1 < u2 \/ (u1 = u2 /\ b1 <= b2))).

(** The version of [a] is at least the version of [b]. *)
Definition not_older (a b : JavaGuard.Candidate) : Prop :=
  exists ka kb,
    version_key a = Some ka /\ version_key b = Some kb /\ key_le kb ka.

(** The command line [_validateJavaBinary] runs for an executable. *)
Definition properties_command (pth : string) : string :=
  String JavaGuard.double_quote
    (pth +:+ String JavaGuard.double_quote " -XshowSettings:properties").

(** What a valid answer of [_validateJavaBinary] for an executable
    stands for: the path has the form of a Java executable, it exists,
    and the property output of the command was found valid. *)
Definition accepted (platform : string) (looseEqualsOne existsSync : string -> bool)
    (exec_stderr : string -> string) (pth : string) : Prop :=
  JavaGuard.isJavaExecPath platform pth = true /\
  existsSync pth = true /\
  exists meta,
    JavaGuard._validateJVMProperties looseEqualsOne
      (exec_stderr (properties_command pth)) = Some meta /\
    JavaGuard.valid meta = true.

(** A machine on which the paths of one Java installation exist. *)
Definition sample_exists (pth : string) : bool :=
  String.eqb pth "/opt/jdk8" || String.eqb pth "/opt/jdk8/bin/java"
  || String.eqb pth "/opt/jdk8/Contents/Home/bin/java".

(** Two Java 8 candidates, update 60 and update 152. *)
Definition older_runtime : JavaGuard.Candidate :=
  Reading.java8 8 60 (Num 1) "/usr/lib/jvm/jre8u60/bin/java".

Definition newer_runtime : JavaGuard.Candidate :=
  Reading.java8 8 152 (Num 16) "/usr/lib/jvm/jre8u152/bin/java".

(** *** The runtime download *)

(** The name of the Corretto archive for macOS. *)
Definition corretto_macos_name (major_ : string) : string :=
  "amazon-corretto-" +:+ major_ +:+ "-x64-macos-jdk.tar.gz".

(** *** Download queues *)

Import AssetGuard.

(** The size of the tracker is the sum of the sizes of its queue. *)
Definition size_consistent (t : DLTracker) : Prop :=
  dlsize t = Reading.sum_sizes (dlqueue t).

(** The artifact fails the local validation on the files [fs_]. *)
Definition locally_invalid (digest : string -> string -> string)
    (fs_ : FileSystem) (a : Asset) : bool :=
  negb (Reading.locally_valid digest fs_ a).

(** The two artifacts the miscellaneous pass checks: the client jar
    and the log configuration. *)
Definition client_asset (platform : string) (commonPath_ : string)
    (versionData : VersionData) : Asset :=
  new_Asset (vd_id versionData +:+ " client")
    (c_sha1 (vd_client versionData)) (c_size (vd_client versionData))
    (c_url (vd_client versionData))
    (NodePath.join platform
       [NodePath.join platform [commonPath_; "versions"; vd_id versionData];
        vd_id versionData +:+ ".jar"]).

Definition log_config_asset (platform : string) (commonPath_ : string)
    (versionData : VersionData) : Asset :=
  new_Asset (f_id (vd_logging versionData))
    (f_sha1 (vd_logging versionData)) (f_size (vd_logging versionData))
    (f_url (vd_logging versionData))
    (NodePath.join platform
       [NodePath.join platform [commonPath_; "assets"; "log_configs"];
        f_id (vd_logging versionData)]).

(** [n] runs of a step. *)
Fixpoint repeated {A} (n : nat) (f : A -> A) (x : A) : A :=
  match n with
  | O => x
  | S n' => repeated n' f (f x)
  end.

(** [n] copies of a list, one after the other. *)
Fixpoint copies {A} (n : nat) (l : list A) : list A :=
  match n with
  | O => []
  | S n' => l ++ copies n' l
  end.

(** The category a validation pass fills. *)
Definition pass_identifier (p : Reading.ValidationPass) : Identifier :=
  match p with
  | Reading.AssetPass _ => Assets
  | Reading.LibraryPass _ => Libraries
  end.

(** The fetch of the artifact is answered with status 200. *)
Definition answered (fetch : string -> FetchResult) (a : Asset) : Prop :=
  exists contentLength chunks,
    fetch (from a) = Response 200 contentLength chunks.

(** The body the fetch of the artifact delivers, and its length. *)
Definition body (fetch : string -> FetchResult) (a : Asset) : string :=
  match fetch (from a) with
  | Response _ _ chunks => String.concat EmptyString chunks
  | FetchFailed => EmptyString
  end.

Definition body_length (fetch : string -> FetchResult) (a : Asset) : Z :=
  match fetch (from a) with
  | Response _ _ chunks => Reading.total_length chunks
  | FetchFailed => 0
  end.

(** The files once the bodies of a queue were written, in order. *)
Definition written (fetch : string -> FetchResult) (q : list Asset)
    (fs_ : FileSystem) : FileSystem :=
  fold_left (fun f a => <[to a := body fetch a]> f) q fs_.

Definition received (fetch : string -> FetchResult) (q : list Asset) : Z :=
  fold_right (fun a n => body_length fetch a + n) 0 q.

(** *** The command line *)

Import ProcessBuilder.

(** The argument template the launcher passes to the process builder
    ([scripts/landing.js]). *)
Definition launcher_template : string :=
  JS.join " "
    [ "--username"; "${auth_player_name}";
      "--version"; "${version_name}";
      "--gameDir"; "${game_directory}";
      "--assetsDir"; "${assets_root}";
      "--assetIndex"; "${assets_index_name}";
      "--uuid"; "${auth_uuid}";
      "--accessToken"; "${auth_access_token}";
      "--userProperties"; "${user_properties}";
      "--userType"; "${user_type}" ].

(** A word that holds a variable: a text, the variable in its braces
    behind a dollar sign, a text. *)
Definition word_with_variable (pre identifier post : string) : string :=
  pre +:+ "${" +:+ identifier +:+ "}" +:+ post.





(** A builder and a configuration for examples. *)
Definition sample_launcher (mcArgs_ : string) : Launcher :=
  {| builder :=
       {| commonDir := "/c"; versionData := Reading.foo_manifest;
          libPath := "/c/libraries"; usingLiteLoader := false; llPath := None |};
     gameDir := "/home/steve/Application Support/minecraft";
     mcArgs := mcArgs_ |}.

Definition sample_config : ConfigManager.Config :=
  ConfigManager.DEFAULT_CONFIG 8000000000 "/home/steve/minecraft".

End Terms.

(* ================================================================== *)
(** * Part III.  Properties                                             *)
(* ================================================================== *)

(** ** Strings *)

Section StringFacts.

Lemma append_nil_l (s : string) : EmptyString +:+ s = s.
Proof. reflexivity. Qed.

Lemma append_cons (a : ascii) (s t : string) :
  String a s +:+ t = String a (s +:+ t).
Proof. reflexivity. Qed.

Lemma append_nil_r (s : string) : s +:+ EmptyString = s.
Proof. induction s as [|a s IH]; [reflexivity|]. rewrite append_cons, IH. reflexivity. Qed.

Lemma append_assoc (s t u : string) : (s +:+ t) +:+ u = s +:+ (t +:+ u).
Proof.
  induction s as [|a s IH]; [reflexivity|].
  rewrite !append_cons, IH. reflexivity.
Qed.

Lemma endsWith_refl (s : string) : JS.endsWith s s = true.
Proof. destruct s; simpl; [reflexivity|]. rewrite Ascii.eqb_refl, String.eqb_refl. reflexivity. Qed.

Lemma endsWith_cons (a : ascii) (s suf : string) :
  JS.endsWith s suf = true -> JS.endsWith (String a s) suf = true.
Proof.
  intros H. change (JS.endsWith (String a s) suf)
    with (if String.eqb (String a s) suf then true else JS.endsWith s suf).
  rewrite H. destruct (String.eqb (String a s) suf); reflexivity.
Qed.

Lemma endsWith_app (p s suf : string) :
  JS.endsWith s suf = true -> JS.endsWith (p +:+ s) suf = true.
Proof.
  intros H. induction p as [|a p IH]; [exact H|].
  rewrite append_cons. apply endsWith_cons, IH.
Qed.

Lemma endsWith_app_same (p suf : string) : JS.endsWith (p +:+ suf) suf = true.
Proof. apply endsWith_app, endsWith_refl. Qed.

End StringFacts.

(** ** Platform rules *)

Section RuleEvaluation.

Import Library Reading.

Variable platform : string.

Lemma validateRules_loop_find (rs : list Rule) :
  validateRules_loop platform rs =
    match find decisive rs with
    | Some r => verdict platform r
    | None => true
    end.
Proof.
  induction rs as [|r rs IH]; [reflexivity|].
  simpl. unfold decisive at 1, verdict, is_allow, names_current_os.
  destruct r as [[act|] [o|]]; simpl; try exact IH.
  destruct (String.eqb act "allow") eqn:Ha; simpl; rewrite ?Ha; [reflexivity|].
  destruct (String.eqb act "disallow") eqn:Hd; simpl; rewrite ?Ha;
    [reflexivity|exact IH].
Qed.

End RuleEvaluation.

(** C1, as stated, fails: on Linux a library whose only rule allows
    [osx] has no rule matching the current OS, so the stated default
    would include it, while [validateRules] excludes it. *)
Lemma validateRules_allow_for_other_os :
  let rules :=
    Some [ {| Library.action := Some "allow";
              Library.os := Some {| Library.os_name := Some "osx" |} |} ] in
  Library.validateRules "linux" rules None = false /\
  Reading.stated_validateRules "linux" rules None = true.
Proof. split; reflexivity. Qed.

(** C1, amended: without rules and without natives the library is
    included; without rules and with natives it is included exactly
    when natives has an entry for the current OS name; with rules, the
    first rule that carries both an action and an os and whose action
    is allow or disallow decides, whether or not it names the current
    OS (an allow rule includes exactly when its OS name is the current
    one, a disallow rule exactly when it is not), and the library is
    included when there is no such rule. *)
Theorem validateRules_three_valued
    (platform : string) (rs : list Library.Rule) (n : gmap string string)
    (natives : option (gmap string string)) :
  Library.validateRules platform None None = true /\
  (Library.validateRules platform None (Some n) = true <->
     exists classifier, n !! Library.mojangFriendlyOS platform = Some classifier) /\
  Library.validateRules platform (Some rs) natives =
    match find Reading.decisive rs with
    | Some r => Reading.verdict platform r
    | None => true
    end.
Proof.
  split; [reflexivity|]. split.
  - simpl. rewrite bool_decide_eq_true. reflexivity.
  - apply validateRules_loop_find.
Qed.

(** ** Paths: construction and recognition of the executable *)

Section PathFacts.

Import NodePath Reading.

Lemma segments_nonempty (isSep : ascii -> bool) (s : string) :
  segments isSep s <> [].
Proof.
  destruct s as [|a s]; simpl; [discriminate|].
  destruct (isSep a); [discriminate|].
  destruct (segments isSep s); discriminate.
Qed.

(** Cutting a path at a separator cuts its list of segments. *)
Lemma segments_app (isSep : ascii -> bool) (c : ascii) (a b : string) :
  isSep c = true ->
  segments isSep (a +:+ String c b) = segments isSep a ++ segments isSep b.
Proof.
  intros Hc. induction a as [|x a IH].
  - rewrite append_nil_l. simpl. rewrite Hc. reflexivity.
  - rewrite append_cons. simpl. destruct (isSep x).
    + rewrite IH. reflexivity.
    + rewrite IH. pose proof (segments_nonempty isSep a) as Hne.
      destruct (segments isSep a) as [|h t]; [contradiction|]. reflexivity.
Qed.

Lemma normalize_segments_plain (allow : bool) (ts acc : list string) :
  forallb plain ts = true ->
  normalize_segments allow acc ts = rev acc ++ ts.
Proof.
  revert acc. induction ts as [|t ts IH]; intros acc H.
  - simpl. rewrite app_nil_r. reflexivity.
  - simpl in H. apply andb_true_iff in H as [Ht Hts].
    unfold plain in Ht. apply negb_true_iff in Ht.
    apply orb_false_iff in Ht as [Ht H2]. 
    simpl. rewrite Ht, H2. rewrite IH by exact Hts.
    simpl. rewrite <- app_assoc. reflexivity.
Qed.

Lemma normalize_segments_app (allow : bool) (xs ts acc : list string) :
  forallb plain ts = true ->
  exists ys, normalize_segments allow acc (xs ++ ts) = ys ++ ts.
Proof.
  intros Hts. revert acc. induction xs as [|x xs IH]; intros acc.
  - exists (rev acc). apply normalize_segments_plain, Hts.
  - simpl.
    destruct (String.eqb x EmptyString || String.eqb x "."); [apply IH|].
    destruct (String.eqb x ".."); [|apply IH].
    destruct acc as [|top acc']; [apply IH|].
    destruct (String.eqb top ".."); apply IH.
Qed.

Lemma join_app_cons (sep : string) (ys : list string) (t : string) (ts : list string) :
  exists pre, JS.join sep (ys ++ t :: ts) = pre +:+ JS.join sep (t :: ts).
Proof.
  induction ys as [|y ys IH].
  - exists EmptyString. reflexivity.
  - destruct IH as [pre IH]. exists (y +:+ sep +:+ pre).
    change ((y :: ys) ++ t :: ts) with (y :: (ys ++ t :: ts)).
    destruct (ys ++ t :: ts) as [|z zs] eqn:E.
    { destruct ys; discriminate. }
    change (JS.join sep (y :: z :: zs)) with (y +:+ sep +:+ JS.join sep (z :: zs)).
    rewrite IH, !append_assoc. reflexivity.
Qed.

(** Normalising a path whose last segments are plain keeps them at
    the end. *)
Lemma normalizeString_keeps_tail
    (isSep : ascii -> bool) (sep : string) (allow : bool)
    (path : string) (xs : list string) (t : string) (ts : list string) :
  segments isSep path = xs ++ t :: ts ->
  forallb plain (t :: ts) = true ->
  exists pre, normalizeString path allow sep isSep = pre +:+ JS.join sep (t :: ts).
Proof.
  intros Hseg Hplain. unfold normalizeString. rewrite Hseg.
  destruct (normalize_segments_app allow xs (t :: ts) [] Hplain) as [ys ->].
  apply join_app_cons.
Qed.

Lemma last_char_app (a : string) (c : ascii) (b : string) :
  last_char (a +:+ String c b) = last_char (String c b).
Proof.
  induction a as [|x a IH]; [reflexivity|].
  rewrite append_cons.
  change (last_char (String x (a +:+ String c b)))
    with (match a +:+ String c b with
          | EmptyString => Some x
          | String _ _ => last_char (a +:+ String c b) end).
  destruct (a +:+ String c b) eqn:E.
  - destruct a; discriminate.
  - exact IH.
Qed.

End PathFacts.

Section PosixJoin.

Import NodePath Reading.

Lemma join_cons_nonempty (sep t : string) (ts : list string) (pre : string) :
  t <> EmptyString -> pre +:+ JS.join sep (t :: ts) <> EmptyString.
Proof.
  intros Ht H. destruct t as [|c t]; [contradiction|].
  destruct pre; [|discriminate].
  rewrite append_nil_l in H. destruct ts; discriminate.
Qed.

Lemma plain_nonempty (t : string) : plain t = true -> t <> EmptyString.
Proof. intros H ->. discriminate. Qed.

Lemma posix_normalize_keeps_tail (path : string) (xs : list string)
    (t : string) (ts : list string) :
  segments isPosixPathSeparator path = xs ++ t :: ts ->
  forallb plain (t :: ts) = true ->
  char_is isPosixPathSeparator (last_char path) = false ->
  exists pre, posix_normalize path = pre +:+ JS.join "/" (t :: ts).
Proof.
  intros Hseg Hplain Hlast.
  destruct (normalizeString_keeps_tail _ "/"
              (negb (char_is isPosixPathSeparator (first_char path)))
              path xs t ts Hseg Hplain) as [pre Hpre].
  assert (Ht : t <> EmptyString).
  { apply plain_nonempty. simpl in Hplain. apply andb_true_iff in Hplain. tauto. }
  unfold posix_normalize.
  destruct (String.eqb path EmptyString) eqn:Hp.
  { apply String.eqb_eq in Hp. subst path. simpl in Hseg.
    destruct xs as [|x [|x' xs]]; simpl in Hseg; try discriminate.
    injection Hseg as <- _. contradiction. }
  cbv zeta. rewrite Hpre, Hlast.
  destruct (String.eqb (pre +:+ JS.join "/" (t :: ts)) EmptyString) eqn:He.
  { apply String.eqb_eq in He. exfalso. revert He. apply join_cons_nonempty, Ht. }
  destruct (char_is isPosixPathSeparator (first_char path)).
  - exists ("/" +:+ pre). rewrite append_assoc. reflexivity.
  - exists pre. reflexivity.
Qed.

(** Joining a root with trailing arguments that glue to [tailstr]. *)
Lemma posix_join_keeps_tail (root : string) (rest : list string)
    (c : ascii) (tl : string) (t : string) (ts : list string) :
  glue "/" rest = Some (String c tl) ->
  segments isPosixPathSeparator (String c tl) = t :: ts ->
  forallb plain (t :: ts) = true ->
  char_is isPosixPathSeparator (last_char (String c tl)) = false ->
  exists pre, posix_join (root :: rest) = pre +:+ JS.join "/" (t :: ts).
Proof.
  intros Hglue Hseg Hplain Hlast. unfold posix_join.
  change (glue "/" (root :: rest))
    with (match glue "/" rest with
          | None => if String.eqb root EmptyString then None else Some root
          | Some r => if String.eqb root EmptyString then Some r
                      else Some (root +:+ "/" +:+ r)
          end).
  rewrite Hglue. destruct (String.eqb root EmptyString).
  - apply (posix_normalize_keeps_tail _ []); assumption.
  - apply (posix_normalize_keeps_tail _ (segments isPosixPathSeparator root)).
    + change ("/" +:+ String c tl) with (String "/" (String c tl)).
      rewrite (segments_app isPosixPathSeparator "/" root (String c tl) eq_refl).
      rewrite Hseg. reflexivity.
    + exact Hplain.
    + change ("/" +:+ String c tl) with (String "/" (String c tl)).
      rewrite (last_char_app root "/" (String c tl)).
      exact Hlast.
Qed.

End PosixJoin.

Section Win32Join.

Import NodePath Reading.

Lemma good_segments (s : string) :
  good s -> exists xs, segments isPathSeparator s = xs ++ ["bin"; "javaw.exe"].
Proof.
  intros [->|[z ->]].
  - exists []. reflexivity.
  - exists (segments isPathSeparator z).
    rewrite (segments_app isPathSeparator "\" z exe_tail eq_refl). reflexivity.
Qed.

Lemma good_last_char (s : string) : good s -> last_char s = Some "e"%char.
Proof.
  intros [->|[z ->]]; [reflexivity|].
  rewrite last_char_app. reflexivity.
Qed.

Lemma good_nonempty (s : string) : good s -> String.eqb s EmptyString = false.
Proof.
  intros [->|[z ->]]; [reflexivity|].
  destruct z; reflexivity.
Qed.

Lemma good_normalizeString (allow : bool) (s : string) :
  good s ->
  exists pre, normalizeString s allow "\" isPathSeparator = pre +:+ exe_tail.
Proof.
  intros H. destruct (good_segments s H) as [xs Hxs].
  apply (normalizeString_keeps_tail isPathSeparator "\" allow s xs "bin" ["javaw.exe"] Hxs).
  reflexivity.
Qed.

Lemma app_exe_tail_nonempty (pre : string) :
  String.eqb (pre +:+ exe_tail) EmptyString = false.
Proof. destruct pre; reflexivity. Qed.

Lemma win32_assemble_good (path : string) (device : option string)
    (isAbsolute : bool) (afterRoot : string) :
  good afterRoot -> last_char path = Some "e"%char ->
  exists pre, win32_assemble path device isAbsolute afterRoot = pre +:+ exe_tail.
Proof.
  intros Hgood Hlast. unfold win32_assemble.
  rewrite (good_nonempty _ Hgood).
  destruct (good_normalizeString (negb isAbsolute) afterRoot Hgood) as [pre ->].
  rewrite app_exe_tail_nonempty. rewrite Hlast.
  change (char_is isPathSeparator (Some "e"%char)) with false.
  rewrite andb_false_r. cbv iota zeta. rewrite andb_false_l.
  destruct device as [d|], isAbsolute.
  - exists (d +:+ "\" +:+ pre). rewrite !append_assoc. reflexivity.
  - exists (d +:+ pre). rewrite !append_assoc. reflexivity.
  - exists ("\" +:+ pre). rewrite !append_assoc. reflexivity.
  - exists pre. reflexivity.
Qed.

Lemma span_eq (p : ascii -> bool) (a : ascii) (s : string) :
  span p (String a s) =
    if p a then let '(x, y) := span p s in (String a x, y)
    else (EmptyString, String a s).
Proof. reflexivity. Qed.

(** Skipping the characters before the first separator of a path that
    ends with [\bin\javaw.exe] leaves a path that still does. *)
Lemma span_notSep_ends (s : string) :
  ends_exe s -> ends_exe (snd (span notSep s)).
Proof.
  intros [z ->]. induction z as [|c z IH].
  - rewrite append_nil_l. exists EmptyString. reflexivity.
  - rewrite append_cons, span_eq. destruct (notSep c).
    + destruct (span notSep (z +:+ String "\" exe_tail)) as [x y]. exact IH.
    + exists (String c z). reflexivity.
Qed.

(** Skipping leading separators then leaves [bin\javaw.exe] or such a
    path. *)
Lemma span_sep_ends (s : string) :
  ends_exe s -> good (snd (span isPathSeparator s)).
Proof.
  intros [z ->]. induction z as [|c z IH].
  - rewrite append_nil_l. left. reflexivity.
  - rewrite append_cons, span_eq. destruct (isPathSeparator c).
    + destruct (span isPathSeparator (z +:+ String "\" exe_tail)) as [x y]. exact IH.
    + right. exists (String c z). reflexivity.
Qed.

Lemma span_app_snd (p : ascii -> bool) (s : string) :
  fst (span p s) +:+ snd (span p s) = s.
Proof.
  induction s as [|a s IH]; [reflexivity|].
  rewrite span_eq. destruct (p a); [|reflexivity].
  destruct (span p s) as [x y]. simpl in *. rewrite append_cons, IH. reflexivity.
Qed.

(** The UNC branch of the root detection on a path
    [sep sep rest1] where [rest1] ends with [\bin\javaw.exe]. *)
Lemma unc_branch (path firstPart r1 : string) :
  good path -> last_char path = Some "e"%char ->
  ends_exe r1 ->
  exists pre,
    match
      (if negb (String.eqb r1 EmptyString) && negb (String.eqb firstPart EmptyString) then
         let '(_, r2) := span isPathSeparator r1 in
         if negb (String.eqb r2 EmptyString) then
           let '(share, r3) := span notSep r2 in
           if String.eqb r3 EmptyString then
             UncRootOnly ("\\" +:+ firstPart +:+ "\" +:+ r2 +:+ "\")
           else
             Root (Some ("\\" +:+ firstPart +:+ "\" +:+ share)) true r3
         else Root None true path
       else Root None true path)
    with
    | UncRootOnly r => r
    | Root device isAbsolute afterRoot =>
        win32_assemble path device isAbsolute afterRoot
    end = pre +:+ exe_tail.
Proof.
  intros Hpath Hlast Hr1.
  destruct (negb (String.eqb r1 EmptyString) && negb (String.eqb firstPart EmptyString));
    [|apply win32_assemble_good; assumption].
  pose proof (span_sep_ends r1 Hr1) as Hr2.
  destruct (span isPathSeparator r1) as [seps r2]. simpl in Hr2.
  destruct (negb (String.eqb r2 EmptyString));
    [|apply win32_assemble_good; assumption].
  destruct Hr2 as [->|Hr2].
  - (* the share name is [bin] *)
    change (span notSep exe_tail) with ("bin", "\javaw.exe").
    cbv iota beta. change (String.eqb "\javaw.exe" EmptyString) with false.
    cbv iota. unfold win32_assemble. rewrite Hlast.
    exists ("\\" +:+ firstPart +:+ "\").
    change (normalizeString "\javaw.exe" (negb true) "\" isPathSeparator) with "javaw.exe".
    change (char_is isPathSeparator (Some "e"%char)) with false.
    cbn. rewrite !append_assoc. reflexivity.
  - pose proof (span_notSep_ends r2 Hr2) as Hr3.
    destruct (span notSep r2) as [share r3]. simpl in Hr3.
    assert (Hg : good r3) by (right; exact Hr3).
    rewrite (good_nonempty _ Hg).
    apply win32_assemble_good; assumption.
Qed.

Lemma isPathSeparator_cases (c : ascii) :
  isPathSeparator c = true -> c = "/"%char \/ c = "\"%char.
Proof.
  unfold isPathSeparator. intros H. apply orb_true_iff in H as [H|H];
    apply Ascii.eqb_eq in H; auto.
Qed.

(** [win32.normalize] keeps the executable at the end, except on the
    two texts it reads as a bare UNC root. *)
Lemma win32_normalize_good (p : string) :
  good p ->
  p <> "\\bin\javaw.exe" -> p <> "/\bin\javaw.exe" ->
  exists pre, win32_normalize p = pre +:+ exe_tail.
Proof.
  intros Hgood Hn1 Hn2.
  pose proof (good_last_char p Hgood) as Hlast.
  destruct Hgood as [->|[z Hz]].
  { exists EmptyString. reflexivity. }
  assert (Hgood : good p) by (right; exists z; exact Hz).
  destruct z as [|c0 z].
  { subst p. exists "\". reflexivity. }
  destruct z as [|c1 z].
  { (* one character before the tail *)
    rewrite append_cons, append_nil_l in Hz.
    destruct (isPathSeparator c0) eqn:Hc0.
    - exfalso. apply isPathSeparator_cases in Hc0 as [->| ->]; subst p;
        [apply Hn2|apply Hn1]; reflexivity.
    - subst p. unfold win32_normalize, win32_root. rewrite Hc0.
      change (Ascii.eqb "\" ":") with false. rewrite andb_false_r.
      apply win32_assemble_good; assumption. }
  rewrite !append_cons in Hz.
  unfold win32_normalize. rewrite Hz. rewrite <- Hz.
  unfold win32_root. rewrite Hz. rewrite <- Hz.
  destruct (isPathSeparator c0) eqn:Hc0.
  - destruct (isPathSeparator c1) eqn:Hc1.
    + (* two leading separators *)
      assert (Hends : ends_exe (z +:+ String "\" exe_tail)) by (exists z; reflexivity).
      pose proof (span_notSep_ends _ Hends) as Hr1.
      destruct (span notSep (z +:+ String "\" exe_tail)) as [firstPart r1].
      simpl in Hr1. apply unc_branch; assumption.
    + apply win32_assemble_good; [|assumption].
      right. exists (String c1 z). reflexivity.
  - destruct (isWindowsDeviceRoot c0 && Ascii.eqb c1 ":").
    + destruct z as [|c2 z].
      * rewrite append_nil_l.
        change (isPathSeparator "\") with true. cbv iota.
        apply win32_assemble_good; [left; reflexivity|assumption].
      * rewrite append_cons. destruct (isPathSeparator c2).
        -- apply win32_assemble_good; [|assumption]. right. exists z. reflexivity.
        -- apply win32_assemble_good; [|assumption]. right. exists (String c2 z).
           reflexivity.
    + apply win32_assemble_good; assumption.
Qed.

End Win32Join.

Section Win32JoinB.

Import NodePath Reading.

Lemma span_rest_head (p : ascii -> bool) (s : string) (c : ascii) (t : string) :
  snd (span p s) = String c t -> p c = false.
Proof.
  induction s as [|a s IH]; [discriminate|].
  rewrite span_eq. destruct (p a) eqn:Hpa.
  - destruct (span p s) as [x y]. exact IH.
  - simpl. intros H. injection H as <- _. exact Hpa.
Qed.

Lemma string_length_app (s t : string) :
  String.length (s +:+ t) = (String.length s + String.length t)%nat.
Proof. induction s as [|a s IH]; [reflexivity|]. rewrite append_cons. simpl. rewrite IH. reflexivity. Qed.

(** The Windows join of a root with [bin] and [javaw.exe] ends with
    [bin\javaw.exe]. *)
Lemma win32_join_exec (root : string) :
  exists pre, win32_join [root; "bin"; "javaw.exe"] = pre +:+ exe_tail.
Proof.
  destruct root as [|c0 r0].
  { exists EmptyString. reflexivity. }
  set (root := String c0 r0).
  set (joined := root +:+ String "\" exe_tail).
  assert (Hends : ends_exe joined) by (exists root; reflexivity).
  assert (Hgood : good joined) by (right; exact Hends).
  unfold win32_join.
  change (glue "\" [root; "bin"; "javaw.exe"]) with (Some joined).
  change (hd EmptyString (List.filter (fun a => negb (String.eqb a EmptyString))
                            [root; "bin"; "javaw.exe"])) with root.
  cbv beta iota zeta.
  match goal with
  | |- exists pre, win32_normalize (if ?b then _ else _) = _ =>
      destruct b eqn:Hneeds
  end.
  - (* the leading separators are counted on the joined text *)
    pose proof (span_sep_ends joined Hends) as Hrest.
    pose proof (span_rest_head isPathSeparator joined) as Hhead.
    pose proof (span_app_snd isPathSeparator joined) as Hsplit.
    destruct (span isPathSeparator joined) as [slashes rest].
    simpl in Hrest, Hhead, Hsplit.
    destruct (2 <=? String.length slashes)%nat eqn:Hcount.
    + apply win32_normalize_good.
      * destruct Hrest as [->|[z ->]].
        -- right. exists EmptyString. reflexivity.
        -- right. exists ("\" +:+ z). rewrite append_assoc. reflexivity.
      * intros Hbad. destruct rest as [|c t]; [discriminate|].
        specialize (Hhead c t eq_refl). injection Hbad as -> _. discriminate.
      * intros Hbad. destruct rest as [|c t]; [discriminate|].
        injection Hbad as Hc. discriminate.
    + apply Nat.leb_gt in Hcount.
      apply win32_normalize_good; [exact Hgood| |]; intros Hbad;
        rewrite Hbad in Hsplit;
        destruct slashes as [|s0 [|s1 slashes]]; simpl in Hcount; try lia.
      * rewrite append_nil_l in Hsplit. subst rest.
        specialize (Hhead _ _ eq_refl). discriminate.
      * rewrite append_cons, append_nil_l in Hsplit. injection Hsplit as _ ->.
        specialize (Hhead _ _ eq_refl). discriminate.
      * rewrite append_nil_l in Hsplit. subst rest.
        specialize (Hhead _ _ eq_refl). discriminate.
      * rewrite append_cons, append_nil_l in Hsplit. injection Hsplit as _ ->.
        specialize (Hhead _ _ eq_refl). discriminate.
  - (* a UNC-looking root is kept as it is: it has three characters at least *)
    apply win32_normalize_good; [exact Hgood| |]; intros Hbad;
      apply (f_equal String.length) in Hbad;
      unfold joined in Hbad; rewrite string_length_app in Hbad;
      subst root; destruct r0 as [|c1 [|c2 r3]]; try discriminate;
      simpl in Hbad; lia.
Qed.

End Win32JoinB.

(** C10: on each supported platform the executable path built from a
    root directory passes the suffix check of binary validation:
    [isJavaExecPath (javaExecFromRoot rootDir)] holds for every root
    directory string on win32, darwin and linux. *)
Theorem javaExecFromRoot_isJavaExecPath :
  (forall rootDir,
     JavaGuard.isJavaExecPath "win32" (JavaGuard.javaExecFromRoot "win32" rootDir) = true) /\
  (forall rootDir,
     JavaGuard.isJavaExecPath "darwin" (JavaGuard.javaExecFromRoot "darwin" rootDir) = true) /\
  (forall rootDir,
     JavaGuard.isJavaExecPath "linux" (JavaGuard.javaExecFromRoot "linux" rootDir) = true).
Proof.
  split; [|split]; intros rootDir.
  - change (JavaGuard.javaExecFromRoot "win32" rootDir)
      with (NodePath.win32_join [rootDir; "bin"; "javaw.exe"]).
    destruct (win32_join_exec rootDir) as [pre ->].
    apply endsWith_app_same.
  - change (JavaGuard.javaExecFromRoot "darwin" rootDir)
      with (NodePath.posix_join [rootDir; "Contents"; "Home"; "bin"; "java"]).
    destruct (posix_join_keeps_tail rootDir ["Contents"; "Home"; "bin"; "java"]
                "C" "ontents/Home/bin/java" "Contents" ["Home"; "bin"; "java"]
                eq_refl eq_refl eq_refl eq_refl) as [pre ->].
    apply endsWith_app. reflexivity.
  - change (JavaGuard.javaExecFromRoot "linux" rootDir)
      with (NodePath.posix_join [rootDir; "bin"; "java"]).
    destruct (posix_join_keeps_tail rootDir ["bin"; "java"]
                "b" "in/java" "bin" ["java"]
                eq_refl eq_refl eq_refl eq_refl) as [pre ->].
    apply endsWith_app. reflexivity.
Qed.

(** ** Ordering of the Java candidates *)

Section CandidateOrder.

Import JavaGuard Reading.

Lemma compare_java8 (ma ua : Z) (ba : jsnum) (pa : string)
    (mb ub : Z) (bb : jsnum) (pb : string) :
  compareCandidates (java8 ma ua ba pa) (java8 mb ub bb pb) =
    if ma =? mb then
      if ma <? 9 then
        if ua =? ub then
          if JS.num_eq ba bb then
            jre_priority (java8 ma ua ba pa) (java8 mb ub bb pb)
          else if JS.num_gt ba bb then -1 else 1
        else if ub <? ua then -1 else 1
      else jre_priority (java8 ma ua ba pa) (java8 mb ub bb pb)
    else if mb <? ma then -1 else 1.
Proof. reflexivity. Qed.

Lemma jre_priority_java8 (ma ua : Z) (ba : jsnum) (pa : string)
    (mb ub : Z) (bb : jsnum) (pb : string) :
  jre_priority (java8 ma ua ba pa) (java8 mb ub bb pb) =
    if mentions_jdk pa then if mentions_jdk pb then 0 else 1 else -1.
Proof. reflexivity. Qed.

Lemma num_gt_asym (x y : jsnum) :
  JS.num_gt x y = true ->
  JS.num_eq x y = false /\ JS.num_eq y x = false /\ JS.num_gt y x = false.
Proof.
  destruct x as [x|], y as [y|]; simpl; try discriminate.
  intros H. apply Z.ltb_lt in H.
  repeat split; [apply Z.eqb_neq|apply Z.eqb_neq|apply Z.ltb_ge]; lia.
Qed.

Lemma num_eq_sym (x y : jsnum) : JS.num_eq x y = true -> JS.num_eq y x = true.
Proof.
  destruct x as [x|], y as [y|]; simpl; try discriminate.
  rewrite !Z.eqb_eq. congruence.
Qed.

(** What the comparator says of a pair settles the sorted pair. *)
Lemma ranks_above_intro (a b : Candidate) :
  compareCandidates a b < 0 /\ compareCandidates b a > 0 ->
  ranks_above a b.
Proof.
  intros [Hab Hba]. unfold ranks_above, _sortValidJavaArray. simpl.
  destruct (Z.ltb_spec 0 (compareCandidates a b)); [lia|].
  destruct (Z.ltb_spec 0 (compareCandidates b a)); [|lia].
  auto.
Qed.

End CandidateOrder.

(** The check for a JDK ignores the letter case: a path spelled [JDK]
    does not contain the substring [jdk], yet the comparator
    lower-cases the path first and treats it as a JDK, so at equal
    version it does not rank above a path spelled [jdk]. *)
Lemma jdk_check_ignores_case :
  let a := Reading.java8 8 60 (Num 1) "C:\Java\JDK1.8.0_60\bin\javaw.exe" in
  let b := Reading.java8 8 60 (Num 1) "C:\Java\jdk1.8.0_60\bin\javaw.exe" in
  Reading.contains_jdk (JavaGuard.execPath a) = false /\
  Reading.contains_jdk (JavaGuard.execPath b) = true /\
  JavaGuard.compareCandidates a b = 0 /\
  ~ Reading.ranks_above a b.
Proof.
  split; [reflexivity|]. split; [reflexivity|]. split; [reflexivity|].
  intros [H _]. vm_compute in H. discriminate.
Qed.

(** X26: where the builds are numbers, the comparator of
    [_sortValidJavaArray] ranks the candidate with the higher version
    first (major, then, in the Java 8 scheme, update, then build); at
    numerically equal builds, a candidate whose lower-cased path does
    not contain [jdk] ranks above one whose lower-cased path does. *)
Theorem java_candidate_ordering
    (ma ua : Z) (ba : jsnum) (pa : string)
    (mb ub : Z) (bb : jsnum) (pb : string) :
  Reading.outranks ma ua ba pa mb ub bb pb ->
  Reading.ranks_above (Reading.java8 ma ua ba pa) (Reading.java8 mb ub bb pb).
Proof.
  intros H. apply ranks_above_intro. revert H.
  unfold Reading.outranks.
  rewrite !compare_java8, !jre_priority_java8. intros H.
  destruct H as [Hm|(Hm & H9 & [Hu|(Hu & [Hb|(Hb & Hja & Hjb)])])].
  - destruct (Z.eqb_spec ma mb), (Z.eqb_spec mb ma); try lia.
    destruct (Z.ltb_spec mb ma), (Z.ltb_spec ma mb); lia.
  - subst mb. rewrite Z.eqb_refl. destruct (Z.ltb_spec ma 9); [|lia].
    destruct (Z.eqb_spec ua ub), (Z.eqb_spec ub ua); try lia.
    destruct (Z.ltb_spec ub ua), (Z.ltb_spec ua ub); lia.
  - subst mb ub. rewrite !Z.eqb_refl. destruct (Z.ltb_spec ma 9); [|lia].
    destruct (num_gt_asym ba bb Hb) as (H1 & H2 & H3).
    rewrite H1, H2, H3, Hb. lia.
  - subst mb ub. rewrite !Z.eqb_refl. destruct (Z.ltb_spec ma 9); [|lia].
    rewrite Hb, (num_eq_sym ba bb Hb), Hja, Hjb. lia.
Qed.

(** The instances the specification names: build 1 above build 0 at
    update 60, update 60 above update 50 whatever the builds (even
    one that did not parse), and a JRE path above a JDK path at equal
    version. *)
Lemma java_candidate_ordering_witness :
  Reading.ranks_above
    (Reading.java8 8 60 (Num 1) "/usr/lib/jvm/jdk8/bin/java")
    (Reading.java8 8 60 (Num 0) "/usr/lib/jvm/jre8/bin/java") /\
  Reading.ranks_above
    (Reading.java8 8 60 NaN "/usr/lib/jvm/jdk8/bin/java")
    (Reading.java8 8 50 (Num 99) "/usr/lib/jvm/jre8/bin/java") /\
  Reading.ranks_above
    (Reading.java8 8 60 (Num 1) "/usr/lib/jvm/jre8/bin/java")
    (Reading.java8 8 60 (Num 1) "/usr/lib/jvm/JDK8/bin/java").
Proof.
  split; [|split]; apply java_candidate_ordering; unfold Reading.outranks.
  - right. split; [reflexivity|]. split; [lia|]. right.
    split; [reflexivity|]. left. reflexivity.
  - right. split; [reflexivity|]. split; [lia|]. left. lia.
  - right. split; [reflexivity|]. split; [lia|]. right.
    split; [reflexivity|]. right. split; [reflexivity|].
    split; reflexivity.
Defined.

(** C7: at equal version the comparator gives a JRE no priority over a
    JDK when the build of the version is not a number.  The runtime
    version of a packaged OpenJDK 8
    ([1.8.0_292-8u292-b10-0ubuntu1~20.04-b10]) is read as major 8,
    update 292 and build [NaN], and the property dump that carries it
    is accepted as valid.  For two installations of that runtime, one
    under a path without [jdk] and one under a path with it, the test
    [a.version.build === b.version.build] fails ([NaN] is not equal to
    itself) and so does [a.version.build > b.version.build]: the
    comparator answers 1 whichever of the two is its first argument,
    so the JRE does not rank above the JDK, against the priority the
    comment of [_sortValidJavaArray] promises for matching versions. *)
Theorem equal_versions_give_no_priority (looseEqualsOne : string -> bool) :
  looseEqualsOne "1" = true ->
  JavaGuard.parseJavaRuntimeVersion looseEqualsOne Reading.packaged_version_text
    = Some (JavaGuard.cVersion Reading.packaged_jre) /\
  (exists meta,
     JavaGuard._validateJVMProperties looseEqualsOne Reading.packaged_java8_dump
       = Some meta /\
     JavaGuard.valid meta = true /\
     JavaGuard.version meta = Some (JavaGuard.cVersion Reading.packaged_jre)) /\
  JavaGuard.cVersion Reading.packaged_jdk = JavaGuard.cVersion Reading.packaged_jre /\
  JavaGuard.build (JavaGuard.cVersion Reading.packaged_jre) = NaN /\
  Reading.contains_jdk (JavaGuard.execPath Reading.packaged_jre) = false /\
  Reading.contains_jdk (JavaGuard.execPath Reading.packaged_jdk) = true /\
  JavaGuard.compareCandidates Reading.packaged_jre Reading.packaged_jdk = 1 /\
  JavaGuard.compareCandidates Reading.packaged_jdk Reading.packaged_jre = 1 /\
  ~ Reading.ranks_above Reading.packaged_jre Reading.packaged_jdk.
Proof.
  intros H1.
  split.
  { vm_compute. destruct (looseEqualsOne "1"); [reflexivity|discriminate H1]. }
  split.
  { eexists. split.
    - vm_compute. destruct (looseEqualsOne "1"); [reflexivity|discriminate H1].
    - split; reflexivity. }
  repeat (split; [reflexivity|]).
  intros [H _]. vm_compute in H. discriminate.
Qed.

(** With the comparison of JavaScript on the text [1]. *)
Lemma equal_versions_give_no_priority_witness :
  JavaGuard.parseJavaRuntimeVersion (String.eqb "1") Reading.packaged_version_text
    = Some (JavaGuard.cVersion Reading.packaged_jre) /\
  JavaGuard.compareCandidates Reading.packaged_jre Reading.packaged_jdk = 1 /\
  JavaGuard.compareCandidates Reading.packaged_jdk Reading.packaged_jre = 1.
Proof.
  destruct (equal_versions_give_no_priority (String.eqb "1") eq_refl)
    as (Hparse & _ & _ & _ & _ & _ & Hab & Hba & _).
  split; [exact Hparse|]. split; [exact Hab|exact Hba].
Defined.

(** ** Validation of the property dump *)

Section PropertyDump.

Import JavaGuard Reading.

Variable looseEqualsOne : string -> bool.

Lemma passed_checks_nonneg (props : list string) :
  0 <= passed_checks looseEqualsOne props.
Proof.
  induction props as [|line rest IH]; simpl; [lia|].
  destruct (arch_ok line || version_ok looseEqualsOne line); lia.
Qed.

(** The counter of the loop is the number of lines that passed a
    check, capped at the goal. *)
Lemma properties_loop_counts (props : list string) :
  forall checksum meta checksum' meta',
  checksum < goal ->
  properties_loop looseEqualsOne props checksum meta = Some (checksum', meta') ->
  checksum' = Z.min goal (checksum + passed_checks looseEqualsOne props).
Proof.
  unfold goal.
  induction props as [|line rest IH]; intros c meta c' meta' Hc H.
  - simpl in H. injection H as <- _. simpl. lia.
  - pose proof (passed_checks_nonneg rest) as Hnn.
    simpl in H. simpl passed_checks. unfold arch_ok, version_ok.
    destruct (-1 <? JS.indexOf line "sun.arch.data.model") eqn:Harch; simpl.
    + destruct (property_value line) as [v|]; [|discriminate].
      destruct (JS.num_eq (JS.parseInt v) (Num 64)); simpl.
      * unfold goal in H. destruct (Z.eqb_spec (c + 1) 2) as [Heq|Hne].
        -- injection H as <- _. lia.
        -- apply IH in H; lia.
      * apply IH in H; lia.
    + destruct (-1 <? JS.indexOf line "java.runtime.version") eqn:Hver; simpl.
      * destruct (property_value line) as [v|]; [|discriminate].
        destruct (parseJavaRuntimeVersion looseEqualsOne v) as [verOb|];
          [|discriminate].
        destruct (JS.num_eq (major verOb) (Num 8) && gt (update verOb) (Some (Num 52))).
        -- unfold goal in H. destruct (Z.eqb_spec (c + 1) 2) as [Heq|Hne].
           ++ injection H as <- _. lia.
           ++ apply IH in H; lia.
        -- apply IH in H; lia.
      * destruct (-1 <? JS.lastIndexOf line "java.vendor ").
        -- destruct (property_value line) as [v|]; [|discriminate].
           apply IH in H; lia.
        -- apply IH in H; lia.
Qed.

(** What the validation computes when it does not throw: the dump is
    valid exactly when at least two of its lines passed a check.  On a
    dump where each property appears once this is the conjunction of
    the two checks; two lines passing the same check are accepted as
    well. *)
Lemma validateJVMProperties_valid_iff (stderr : string) (meta : Meta) :
  _validateJVMProperties looseEqualsOne stderr = Some meta ->
  valid meta = true <->
  2 <= passed_checks looseEqualsOne (JS.split (ascii_of_N 10) stderr).
Proof.
  unfold _validateJVMProperties.
  change (JS.split "010" stderr) with (JS.split (ascii_of_N 10) stderr).
  destruct (properties_loop _ _ 0 emptyMeta) as [[c m]|] eqn:Hloop; [|discriminate].
  intros H. injection H as <-. cbn [valid].
  apply properties_loop_counts in Hloop; [|reflexivity].
  unfold goal in *. rewrite Z.eqb_eq.
  set (n := passed_checks _ _) in *. lia.
Qed.

Lemma passed_checks_split (props : list string) :
  passed_checks looseEqualsOne props =
    Z.of_nat (List.length (List.filter arch_ok props))
    + Z.of_nat (List.length (List.filter (version_ok looseEqualsOne) props)).
Proof.
  induction props as [|line rest IH]; [reflexivity|].
  simpl. rewrite IH. unfold version_ok at 1 3, arch_ok at 1 3.
  destruct (-1 <? JS.indexOf line "sun.arch.data.model"); simpl.
  - destruct (match property_value line with
              | Some v => JS.num_eq (JS.parseInt v) (Num 64)
              | None => false end); simpl; lia.
  - match goal with
    | |- context [if ?b then 1 else 0] => destruct b
    end; simpl; lia.
Qed.

(** On a dump where each of the two checks passes on one line at
    most, the validation accepts exactly when both pass. *)
Lemma validateJVMProperties_without_repeats (stderr : string) (meta : Meta) :
  let props := JS.split (ascii_of_N 10) stderr in
  _validateJVMProperties looseEqualsOne stderr = Some meta ->
  (List.length (List.filter arch_ok props) <= 1)%nat ->
  (List.length (List.filter (version_ok looseEqualsOne) props) <= 1)%nat ->
  valid meta = true <->
  (exists line, In line props /\ arch_ok line = true) /\
  (exists line, In line props /\ version_ok looseEqualsOne line = true).
Proof.
  intros props Hmeta Harch Hver.
  rewrite (validateJVMProperties_valid_iff stderr meta Hmeta).
  fold props. rewrite passed_checks_split.
  assert (Hex : forall f : string -> bool,
             (exists line, In line props /\ f line = true) <->
             (1 <= List.length (List.filter f props))%nat).
  { intros f. split.
    - intros (line & Hin & Hf).
      assert (Hin' : In line (List.filter f props)) by (apply filter_In; auto).
      destruct (List.filter f props); [contradiction|simpl; lia].
    - intros Hlen. destruct (List.filter f props) as [|line l] eqn:E; [simpl in Hlen; lia|].
      assert (Hin : In line (List.filter f props)) by (rewrite E; left; reflexivity).
      apply filter_In in Hin. exists line. exact Hin. }
  rewrite !Hex. lia.
Qed.

End PropertyDump.

(** C8: the code accepts a property dump in which the version check
    never succeeds.  The counter of [_validateJVMProperties] reaches
    its goal on two lines that both mention [sun.arch.data.model]; the
    result is valid although the runtime is Java 7 and no version was
    recorded.  This holds whatever the loose comparison [major == 1]
    answers. *)
Theorem validateJVMProperties_counts_arch_twice
    (looseEqualsOne : string -> bool) :
  match JavaGuard._validateJVMProperties looseEqualsOne
          Reading.java7_with_tool_options with
  | Some meta =>
      JavaGuard.valid meta = true /\ JavaGuard.version meta = None /\
      JavaGuard.valid
        (JavaGuard._validateJavaBinary "linux" looseEqualsOne
           (fun _ => true) (fun _ => Reading.java7_with_tool_options)
           "/usr/lib/jvm/java-7-oracle/bin/java") = true
  | None => False
  end.
Proof.
  vm_compute. destruct (looseEqualsOne "1"); repeat split.
Qed.

(** ** The classpath *)

Section Classpath.

Import AssetGuard ProcessBuilder Reading.

Variables (platform arch : string).
Variable zipEntries : string -> option (list ZipEntry).

Lemma resolve_loop_fold (libPath_ temp : string) (libArr : list LibraryEntry) :
  forall libs0 written0 libs written,
  resolve_loop platform arch zipEntries libPath_ temp libArr libs0 written0
    = Some (libs, written) ->
  libs = fold_left set_pair (declared platform arch libPath_ libArr) libs0.
Proof.
  induction libArr as [|lib rest IH]; intros libs0 written0 libs written H.
  - simpl in H. injection H as <- _. reflexivity.
  - simpl in H. unfold declared. simpl. fold (declared platform arch libPath_ rest).
    rewrite fold_left_app.
    destruct (Library.validateRules platform (rules lib) (natives lib)).
    + destruct (natives lib) as [nat_|].
      * destruct (resolve_artifact platform arch lib) as [art|]; [|discriminate].
        destruct (zipEntries _); [|discriminate].
        apply IH in H. exact H.
      * destruct (resolve_artifact platform arch lib) as [art|]; [|discriminate].
        apply IH in H. exact H.
    + apply IH in H. exact H.
Qed.

Lemma dict_get_assign (k k' v : string) (d : Dict) :
  dict_get k (dict_assign k' v d) =
    if String.eqb k k' then Some v else dict_get k d.
Proof.
  induction d as [|[k0 v0] d IH]; [reflexivity|].
  simpl. destruct (String.eqb_spec k' k0) as [->|Hne]; simpl.
  - destruct (String.eqb k k0); reflexivity.
  - rewrite IH. destruct (String.eqb_spec k k0) as [->|]; [|reflexivity].
    destruct (String.eqb_spec k0 k'); [congruence|reflexivity].
Qed.

Lemma dict_get_set (k k' v : string) (d : Dict) :
  k <> "__proto__" ->
  dict_get k (dict_set k' v d) =
    if String.eqb k k' then Some v else dict_get k d.
Proof.
  intros Hk. unfold dict_set.
  destruct (String.eqb_spec k' "__proto__") as [->|_].
  - destruct (String.eqb_spec k "__proto__"); [contradiction|reflexivity].
  - apply dict_get_assign.
Qed.

Lemma dict_get_app (k : string) (d1 d2 : Dict) :
  dict_get k (d1 ++ d2) =
    match dict_get k d1 with Some v => Some v | None => dict_get k d2 end.
Proof.
  induction d1 as [|[k0 v0] d1 IH]; [reflexivity|].
  simpl. destruct (String.eqb k k0); [reflexivity|exact IH].
Qed.

Lemma dict_get_fold (k : string) (decls : list (string * string)) :
  k <> "__proto__" ->
  forall d0,
  dict_get k (fold_left set_pair decls d0) =
    match last_declared k decls with
    | Some v => Some v
    | None => dict_get k d0
    end.
Proof.
  intros Hk. unfold last_declared.
  induction decls as [|[k' v'] decls IH]; intros d0; [reflexivity|].
  simpl. rewrite IH, dict_get_app. unfold set_pair at 1. simpl.
  destruct (dict_get k (rev decls)); [reflexivity|].
  rewrite dict_get_set by exact Hk.
  destruct (String.eqb k k'); reflexivity.
Qed.

Lemma in_keys_assign (x k v : string) (d : Dict) :
  In x (map fst (dict_assign k v d)) <-> x = k \/ In x (map fst d).
Proof.
  induction d as [|[k0 v0] d IH]; simpl.
  - intuition.
  - destruct (String.eqb_spec k k0) as [->|Hne]; simpl.
    + intuition.
    + rewrite IH. intuition.
Qed.

Lemma NoDup_keys_assign (k v : string) (d : Dict) :
  NoDup (map fst d) -> NoDup (map fst (dict_assign k v d)).
Proof.
  induction d as [|[k0 v0] d IH]; simpl; intros H.
  - apply NoDup_cons. split; [apply not_elem_of_nil|apply NoDup_nil_2].
  - apply NoDup_cons in H as [Hk0 Hd].
    destruct (String.eqb_spec k k0) as [->|Hne]; simpl.
    + apply NoDup_cons. split; assumption.
    + apply NoDup_cons. split; [|apply IH, Hd].
      rewrite list_elem_of_In, in_keys_assign. rewrite list_elem_of_In in Hk0.
      intros [->|Hin]; [congruence|contradiction].
Qed.

Lemma NoDup_keys_fold (decls : list (string * string)) :
  forall d0, NoDup (map fst d0) -> NoDup (map fst (fold_left set_pair decls d0)).
Proof.
  induction decls as [|[k v] decls IH]; intros d0 H; [exact H|].
  simpl. apply IH. unfold set_pair, dict_set. simpl.
  destruct (String.eqb k "__proto__"); [exact H|].
  apply NoDup_keys_assign, H.
Qed.

Lemma insert_by_index_perm (e : Z * string) (l : list (Z * string)) :
  insert_by_index e l ≡ₚ e :: l.
Proof.
  induction l as [|e' l IH]; [reflexivity|].
  simpl. destruct (fst e <? fst e'); [reflexivity|].
  rewrite IH. apply Permutation_swap.
Qed.

(** [Object.values] lists every property once. *)
Lemma object_values_perm (d : Dict) : object_values d ≡ₚ map snd d.
Proof.
  unfold object_values. induction d as [|[k v] d IH]; [reflexivity|].
  simpl. destruct (array_index k) as [i|] eqn:Hi.
  - rewrite insert_by_index_perm. simpl. rewrite IH. reflexivity.
  - simpl. rewrite <- IH. symmetry. apply Permutation_middle.
Qed.


(** X27: the libraries of the version manifest are keyed by
    [versionIndependentId] of their name; for every key (other than
    the reserved property name [__proto__]) the dictionary holds one
    entry, the path of the last declaration of that key, and the
    classpath is the version jar followed by the values of that
    dictionary, each listed once and cut by [trim_to_jar]. *)
Theorem classpath_last_declaration_wins
    (b : Builder) (tempNativePath : string)
    (libs : Dict) (written : list (string * string)) :
  _resolveMojangLibraries platform arch zipEntries b tempNativePath
    = Some (libs, written) ->
  usingLiteLoader b = false ->
  NoDup (map fst libs) /\
  (forall key, key <> "__proto__" ->
     dict_get key libs =
       last_declared key
         (declared platform arch (libPath b) (vd_libraries (versionData b)))) /\
  object_values libs ≡ₚ map snd libs /\
  classpathArg platform arch zipEntries b tempNativePath =
    Some (map trim_to_jar
            (NodePath.join platform
               [commonDir b; "versions"; vd_id (versionData b);
                vd_id (versionData b) +:+ ".jar"]
             :: object_values libs)).
Proof.
  intros Hres Hll.
  pose proof (resolve_loop_fold _ _ _ _ _ _ _ Hres) as Hfold.
  split; [|split; [|split]].
  - rewrite Hfold. apply NoDup_keys_fold. apply NoDup_nil_2.
  - intros key Hkey. rewrite Hfold, dict_get_fold by exact Hkey.
    destruct (last_declared key _); reflexivity.
  - apply object_values_perm.
  - unfold classpathArg. rewrite Hres, Hll. reflexivity.
Qed.

End Classpath.

Lemma classpath_last_declaration_wins_witness :
  let b :=
    ProcessBuilder.new_ProcessBuilder "linux" "/home/u/.crystal/common"
      Reading.foo_twice_manifest in
  let foo2 := "/home/u/.crystal/common/libraries/com/example/foo/2.0/foo-2.0.jar" in
  ProcessBuilder.dict_get "com.example:foo" [("com.example:foo", foo2)] = Some foo2 /\
  ProcessBuilder.classpathArg "linux" "x64" (fun _ => None) b "/tmp/natives" =
    Some [ "/home/u/.crystal/common/versions/1.8.9/1.8.9.jar"; foo2 ].
Proof.
  intros b foo2.
  pose proof (classpath_last_declaration_wins "linux" "x64" (fun _ => None)
                b "/tmp/natives" [("com.example:foo", foo2)] []
                eq_refl eq_refl) as (_ & Hget & _ & Hcp).
  split.
  - rewrite (Hget "com.example:foo") by discriminate. reflexivity.
  - rewrite Hcp. reflexivity.
Defined.


(** ** Validation passes *)

Section ValidationPasses.

Import AssetGuard Reading.

Variables (platform arch : string) (digest : string -> string -> string).

Lemma lower_hex_digit (n : N) :
  (n < 16)%N -> JS.lower_char (hex_digit n) = hex_digit n.
Proof.
  intros H.
  assert (Hn : In n (map N.of_nat (seq 0 16))).
  { apply in_map_iff. exists (N.to_nat n). split; [lia|]. apply in_seq. lia. }
  simpl in Hn.
  repeat (destruct Hn as [<-|Hn]; [reflexivity|]). contradiction.
Qed.

(** A hexadecimal digest is already in lower case. *)
Lemma toLowerCase_hex (bytes : string) : JS.toLowerCase (hex bytes) = hex bytes.
Proof.
  induction bytes as [|c rest IH]; [reflexivity|].
  simpl. rewrite IH.
  rewrite !lower_hex_digit; [reflexivity| |].
  - apply N.mod_lt. discriminate.
  - apply N.Div0.div_lt_upper_bound. 
    pose proof (N_ascii_bounded c). lia.
Qed.

Lemma present_locally_valid (fs_ : FileSystem) (a : Asset) :
  present_with_hash digest fs_ a -> locally_valid digest fs_ a = true.
Proof.
  intros (buf & Hbuf & Hhash). unfold locally_valid, _validateLocal.
  rewrite Hbuf, Hhash. unfold _calculateHash.
  rewrite toLowerCase_hex. apply String.eqb_refl.
Qed.

(** Everything the asset iteration adds to the queue failed the
    local validation. *)
Lemma validateAssets_loop_invalid (fs_ : FileSystem) (cp : string) (total : Z)
    (objects : list (string * IndexObject)) :
  forall acc q sz ev,
  Forall (fun a => locally_valid digest fs_ a = false) q ->
  Forall (fun a => locally_valid digest fs_ a = false)
    (fst (fst (validateAssets_loop platform digest fs_ cp total objects acc q sz ev))).
Proof.
  induction objects as [|[key value] rest IH]; intros acc q sz ev Hq; [exact Hq|].
  simpl.
  destruct (_validateLocal digest fs_ _ "sha1" _) eqn:Hv; simpl.
  - apply IH, Hq.
  - apply IH. apply Forall_app. split; [exact Hq|].
    apply Forall_cons. split; [exact Hv|apply Forall_nil_2].
Qed.

Lemma validateLibraries_loop_invalid (fs_ : FileSystem) (libPath : string)
    (libArr : list LibraryEntry) :
  forall q sz q' sz',
  validateLibraries_loop platform arch digest fs_ libPath libArr q sz = Some (q', sz') ->
  Forall (fun a => locally_valid digest fs_ a = false) q ->
  Forall (fun a => locally_valid digest fs_ a = false) q'.
Proof.
  induction libArr as [|lib rest IH]; intros q sz q' sz' H Hq.
  - simpl in H. injection H as <- _. exact Hq.
  - simpl in H.
    destruct (Library.validateRules platform (rules lib) (natives lib));
      [|eapply IH; eassumption].
    destruct (resolve_artifact platform arch lib) as [art|]; [|discriminate].
    destruct (_validateLocal digest fs_ _ "sha1" _) eqn:Hv; simpl in H.
    + eapply IH; eassumption.
    + eapply IH; [exact H|]. apply Forall_app. split; [exact Hq|].
      apply Forall_cons. split; [exact Hv|apply Forall_nil_2].
Qed.

(** A pass reads the files and leaves them as they are; its queue
    holds only artifacts that failed the local validation. *)
Lemma run_pass_queue (p : ValidationPass) (w w' : World) :
  run_pass platform arch digest p w = Some w' ->
  fs w' = fs w /\
  commonPath (guard w') = commonPath (guard w) /\
  Forall (fun a => locally_valid digest (fs w) a = false) (pass_queue p (guard w')).
Proof.
  destruct p as [objects|versionData]; simpl; intros H.
  - injection H as <-. unfold _assetChainValidateAssets.
    pose proof (validateAssets_loop_invalid (fs w) (commonPath (guard w))
                  (Z.of_nat (List.length objects)) objects 0 [] 0 []
                  (Forall_nil_2 _)) as Hinv.
    destruct (validateAssets_loop _ _ _ _ _ _ _ _ _ _) as [[q sz] ev].
    simpl in *. auto.
  - unfold validateLibraries in H.
    destruct (validateLibraries_loop _ _ _ _ _ _ _ _) as [[q sz]|] eqn:Hloop;
      [|discriminate].
    injection H as <-. simpl. split; [reflexivity|]. split; [reflexivity|].
    eapply validateLibraries_loop_invalid; [exact Hloop|apply Forall_nil_2].
Qed.

Lemma run_passes_queue (p : ValidationPass) (n : nat) :
  forall w w',
  run_passes platform arch digest (S n) p w = Some w' ->
  fs w' = fs w /\
  Forall (fun a => locally_valid digest (fs w) a = false) (pass_queue p (guard w')).
Proof.
  induction n as [|n IH]; intros w w' H.
  - simpl in H. destruct (run_pass platform arch digest p w) as [w1|] eqn:H1;
      [|discriminate].
    injection H as <-. apply run_pass_queue in H1. tauto.
  - change (run_passes platform arch digest (S (S n)) p w)
      with (match run_pass platform arch digest p w with
            | Some w1 => run_passes platform arch digest (S n) p w1
            | None => None end) in H.
    destruct (run_pass platform arch digest p w) as [w1|] eqn:H1; [|discriminate].
    apply run_pass_queue in H1 as (Hfs & _ & _).
    apply IH in H as [Hfs' Hq]. rewrite Hfs in *. tauto.
Qed.

(** C2: an asset or library entry whose destination exists with the
    expected hash is not in the queue a validation pass builds,
    however many passes are run. *)
Theorem valid_artifact_never_enqueued
    (p : ValidationPass) (n : nat) (w w' : World) (a : Asset) :
  In a (pass_artifacts platform arch p (commonPath (guard w))) ->
  present_with_hash digest (fs w) a ->
  run_passes platform arch digest (S n) p w = Some w' ->
  ~ In a (pass_queue p (guard w')).
Proof.
  intros _ Hpresent Hrun Hin.
  apply run_passes_queue in Hrun as [_ Hq].
  rewrite Forall_forall in Hq. specialize (Hq a).
  rewrite list_elem_of_In in Hq. specialize (Hq Hin).
  rewrite (present_locally_valid _ _ Hpresent) in Hq. discriminate.
Qed.

(** The asset pass always completes; the library pass completes when
    every entry that passes its rules resolves to an artifact. *)
Lemma asset_passes_return (objects : list (string * IndexObject)) (n : nat) :
  forall w, is_Some (run_passes platform arch digest n (AssetPass objects) w).
Proof.
  induction n as [|n IH]; intros w; simpl; [eexists; reflexivity|apply IH].
Qed.

Lemma validateLibraries_loop_returns (fs_ : FileSystem) (libPath : string)
    (libArr : list LibraryEntry) :
  Forall (fun lib =>
            Library.validateRules platform (rules lib) (natives lib) = true ->
            is_Some (resolve_artifact platform arch lib)) libArr ->
  forall q sz,
  is_Some (validateLibraries_loop platform arch digest fs_ libPath libArr q sz).
Proof.
  induction 1 as [|lib rest Hlib _ IH]; intros q sz; simpl; [eexists; reflexivity|].
  destruct (Library.validateRules platform (rules lib) (natives lib)); [|apply IH].
  destruct (Hlib eq_refl) as [art ->].
  destruct (negb _); apply IH.
Qed.

(** C3: for an artifact without an expected hash, local validation
    answers by the existence of the destination file alone, whatever
    its content; such an artifact, when its file exists, is enqueued
    by none of the validation passes (asset and library passes,
    however often they run, and the client and log configuration
    checks of the miscellaneous pass). *)
Theorem null_hash_trusts_local_copy :
  (forall (fs_ : FileSystem) (filePath algo : string),
     _validateLocal digest fs_ filePath algo None = true <->
     is_Some (fs_ !! filePath)) /\
  (forall (p : ValidationPass) (n : nat) (w w' : World) (a : Asset),
     In a (pass_artifacts platform arch p (commonPath (guard w))) ->
     hash a = None ->
     is_Some (fs w !! to a) ->
     run_passes platform arch digest (S n) p w = Some w' ->
     ~ In a (pass_queue p (guard w'))) /\
  (forall (versionData : VersionData) (w : World),
     c_sha1 (vd_client versionData) = None ->
     is_Some (fs w !! NodePath.join platform
                        [NodePath.join platform
                           [commonPath (guard w); "versions"; vd_id versionData];
                         vd_id versionData +:+ ".jar"]) ->
     validateClient platform digest versionData false w = w) /\
  (forall (versionData : VersionData) (w : World),
     f_sha1 (vd_logging versionData) = None ->
     is_Some (fs w !! NodePath.join platform
                        [NodePath.join platform
                           [commonPath (guard w); "assets"; "log_configs"];
                         f_id (vd_logging versionData)]) ->
     validateLogConfig platform digest versionData w = w).
Proof.
  split; [|split; [|split]].
  - intros fs_ filePath algo. unfold _validateLocal.
    destruct (fs_ !! filePath) as [buf|]; split; intros H; try reflexivity.
    + eexists; reflexivity.
    + discriminate.
    + destruct H as [x H]. discriminate.
  - intros p n w w' a _ Hhash [buf Hbuf] Hrun Hin.
    apply run_passes_queue in Hrun as [_ Hq].
    rewrite Forall_forall in Hq. specialize (Hq a).
    rewrite list_elem_of_In in Hq. specialize (Hq Hin).
    unfold locally_valid, _validateLocal in Hq. rewrite Hbuf, Hhash in Hq.
    discriminate.
  - intros versionData w Hhash [buf Hbuf]. unfold validateClient, _validateLocal.
    simpl. rewrite Hbuf, Hhash. reflexivity.
  - intros versionData w Hhash [buf Hbuf]. unfold validateLogConfig, _validateLocal.
    simpl. rewrite Hbuf, Hhash. reflexivity.
Qed.

End ValidationPasses.

Lemma valid_artifact_never_enqueued_witness :
  exists w',
    Reading.run_passes "linux" "x64" Reading.sample_digest 2 (Reading.AssetPass Reading.sample_index) Reading.sample_world
      = Some w' /\
    ~ In (AssetGuard.index_asset "linux" "/c" "icons/icon_16x16.png"
            {| AssetGuard.io_hash := "616263"; AssetGuard.io_size := 3 |})
         (AssetGuard.dlqueue (AssetGuard.assets (AssetGuard.guard w'))).
Proof.
  eexists. split; [vm_compute; reflexivity|].
  apply (valid_artifact_never_enqueued "linux" "x64" Reading.sample_digest
           (Reading.AssetPass Reading.sample_index) 1 Reading.sample_world).
  - left. reflexivity.
  - exists "abc". split; reflexivity.
  - vm_compute. reflexivity.
Defined.


Lemma null_hash_trusts_local_copy_witness :
  AssetGuard._validateLocal Reading.sample_digest
    (AssetGuard.fs Reading.sample_world)
    "/c/libraries/com/example/foo/1.0/foo-1.0.jar" "sha1" None = true /\
  (exists w',
     Reading.run_passes "linux" "x64" Reading.sample_digest 2
       (Reading.LibraryPass Reading.unhashed_manifest) Reading.sample_world
       = Some w' /\
     forall a,
       In a (Reading.pass_artifacts "linux" "x64"
               (Reading.LibraryPass Reading.unhashed_manifest) "/c") ->
       ~ In a (AssetGuard.dlqueue (AssetGuard.libraries (AssetGuard.guard w')))) /\
  AssetGuard.validateMiscellaneous "linux" Reading.sample_digest
    Reading.unhashed_manifest Reading.sample_world = Reading.sample_world.
Proof.
  destruct (null_hash_trusts_local_copy "linux" "x64" Reading.sample_digest)
    as (Hlocal & Hpass & Hclient & Hlog).
  split; [|split].
  - apply Hlocal. eexists. reflexivity.
  - eexists. split; [vm_compute; reflexivity|].
    intros a Ha.
    apply (Hpass (Reading.LibraryPass Reading.unhashed_manifest) 1%nat
             Reading.sample_world _ a Ha).
    + destruct Ha as [<-|[]]. reflexivity.
    + destruct Ha as [<-|[]]. eexists. reflexivity.
    + vm_compute. reflexivity.
  - unfold AssetGuard.validateMiscellaneous.
    rewrite (Hclient Reading.unhashed_manifest Reading.sample_world eq_refl);
      [|eexists; reflexivity].
    apply Hlog; [reflexivity|eexists; reflexivity].
Defined.

(** ** The download orchestrator *)

Section Downloads.

Import AssetGuard Reading.

Variables (platform arch : string) (digest : string -> string -> string).
Variable fetch : string -> FetchResult.

Lemma receive_chunks_fs (chunks : list string) :
  forall w, fs (fold_left receive_chunk chunks w) = fs w.
Proof.
  induction chunks as [|c rest IH]; intros w; [reflexivity|].
  simpl. rewrite IH. reflexivity.
Qed.

Lemma receive_chunks_trace (chunks : list string) :
  forall w,
  trace (fold_left receive_chunk chunks w) =
    trace w ++ progress_events (progress (guard w)) (totaldlsize (guard w)) chunks.
Proof.
  induction chunks as [|c rest IH]; intros w.
  - simpl. rewrite app_nil_r. reflexivity.
  - simpl. rewrite IH. simpl. rewrite <- app_assoc. reflexivity.
Qed.

Lemma receive_chunks_guard (chunks : list string) :
  forall w,
  guard (fold_left receive_chunk chunks w) =
    set_totals (totaldlsize (guard w))
      (progress (guard w) + total_length chunks) (guard w).
Proof.
  induction chunks as [|c rest IH]; intros w.
  - simpl. rewrite Z.add_0_r. destruct (guard w); reflexivity.
  - simpl. rewrite IH. simpl. unfold set_totals. simpl.
    f_equal. lia.
Qed.

(** The files and the events after the body of the promise of one
    asset that was answered with status 200. *)
Lemma complete_download_spec
    (dlTracker : DLTracker) (asset : Asset)
    (contentLength : jsnum) (chunks : list string) (w : World) :
  let content := String.concat EmptyString chunks in
  let sizes_agree := JS.num_eq contentLength (Num (size asset)) in
  let total :=
    if sizes_agree then totaldlsize (guard w)
    else adjusted_total (totaldlsize (guard w)) asset contentLength in
  let w' := complete_download digest dlTracker asset contentLength chunks w in
  fs w' = <[to asset := content]> (fs w) /\
  trace w' =
    trace w
    ++ (if sizes_agree then []
        else [ConsoleLog (WarnSize contentLength (id asset) (size asset))])
    ++ progress_events (progress (guard w)) total chunks
    ++ callback_events dlTracker asset
    ++ (if sizes_agree then []
        else if hash_agrees digest asset content
             then [ConsoleLog (HashesMatch (id asset))]
             else [ConsoleError (HashesDoNotMatch (id asset))]).
Proof.
  intros content sizes_agree total w'. unfold w'.
  unfold complete_download. fold sizes_agree. fold content.
  assert (Hlookup : forall w0 : World,
             _validateLocal digest (<[to asset := content]> (fs w0)) (to asset)
               (match type asset with Some _ => "md5" | None => "sha1" end)
               (hash asset) = hash_agrees digest asset content).
  { intros w0. unfold _validateLocal, hash_agrees. rewrite lookup_insert_eq.
    reflexivity. }
  unfold total, adjusted_total, callback_events.
  destruct sizes_agree; simpl negb; cbv iota.
  - destruct (callback dlTracker) as [cb|]; simpl;
      rewrite receive_chunks_fs, receive_chunks_trace; simpl;
      rewrite ?app_nil_r, <- ?app_assoc; auto.
  - destruct (callback dlTracker) as [cb|]; simpl;
      rewrite receive_chunks_fs; simpl; rewrite Hlookup;
      destruct (hash_agrees digest asset content); simpl;
      rewrite receive_chunks_fs, receive_chunks_trace; simpl;
      rewrite <- ?app_assoc; auto.
Qed.


Lemma count_complete_app (l1 l2 : list Event) :
  count_complete (l1 ++ l2) = (count_complete l1 + count_complete l2)%nat.
Proof. unfold count_complete. rewrite List.filter_app, length_app. reflexivity. Qed.

Lemma count_complete_progress (prog : Z) (total : jsnum) (chunks : list string) :
  count_complete (progress_events prog total chunks) = 0%nat.
Proof.
  revert prog. induction chunks as [|c rest IH]; intros prog; [reflexivity|].
  simpl. unfold count_complete in *. simpl. apply IH.
Qed.

Lemma count_complete_completion (q : list string) (jx : string) :
  count_complete (completion q jx) = 1%nat.
Proof. destruct q; reflexivity. Qed.

Lemma tracker_set_same (i : Identifier) (t : DLTracker) (g : Guard) :
  tracker i (set_tracker i t g) = t.
Proof. destruct i; reflexivity. Qed.

Lemma tracker_set_other (i j : Identifier) (t : DLTracker) (g : Guard) :
  i <> j -> tracker j (set_tracker i t g) = tracker j g.
Proof. intros H. destruct i, j; try reflexivity; contradiction. Qed.

(** The state after one served artifact. *)
Lemma complete_download_state
    (dlTracker : DLTracker) (asset : Asset) (chunks : list string)
    (w : World) (T : Z) :
  totaldlsize (guard w) = Num T ->
  let w' := complete_download digest dlTracker asset
              (Num (total_length chunks)) chunks w in
  guard w' =
    set_totals (Num (T - size asset + total_length chunks))
      (progress (guard w) + total_length chunks) (guard w) /\
  exists evs, trace w' = trace w ++ evs /\ count_complete evs = 0%nat.
Proof.
  intros HT.
  destruct (complete_download_spec dlTracker asset (Num (total_length chunks))
              chunks w) as (_ & Htrace).
  split.
  - unfold complete_download. unfold JS.num_eq.
    destruct (Z.eqb_spec (total_length chunks) (size asset)) as [Heq|Hne];
      simpl negb; cbv iota.
    + destruct (callback dlTracker); simpl; rewrite receive_chunks_guard; simpl;
        rewrite HT; unfold set_totals; simpl; repeat f_equal; lia.
    + destruct (callback dlTracker); simpl;
        match goal with
        | |- context [if ?b then _ else _] => destruct b
        end; simpl; rewrite receive_chunks_guard; simpl;
        rewrite HT; unfold set_totals; simpl; reflexivity.
  - eexists. split; [exact Htrace|].
    rewrite !count_complete_app, count_complete_progress.
    unfold callback_events.
    destruct (callback dlTracker);
      repeat match goal with
             | |- context [if ?b then _ else _] => destruct b
             end; reflexivity.
Qed.

(** A queue whose members are all served is processed to its end,
    and the distance between the expected total and the byte counter
    shrinks by the sizes of the members. *)
Lemma download_loop_served (dlTracker : DLTracker) (q : list Asset) :
  Forall (served fetch) q ->
  forall (w : World) (err : bool) (T : Z),
  totaldlsize (guard w) = Num T ->
  exists w' T',
    download_loop digest fetch dlTracker q err w = (w', err, true) /\
    totaldlsize (guard w') = Num T' /\
    T' - progress (guard w') = T - progress (guard w) - sum_sizes q /\
    (forall i, tracker i (guard w') = tracker i (guard w)) /\
    extractQueue (guard w') = extractQueue (guard w) /\
    javaexec (guard w') = javaexec (guard w) /\
    exists evs, trace w' = trace w ++ evs /\ count_complete evs = 0%nat.
Proof.
  induction 1 as [|a rest [chunks Ha] _ IH]; intros w err T HT.
  - exists w. exists T. simpl.
    split; [reflexivity|]. split; [exact HT|]. split; [lia|].
    split; [reflexivity|]. split; [reflexivity|]. split; [reflexivity|].
    exists (@nil Event). rewrite app_nil_r. split; reflexivity.
  - simpl. unfold download_asset. rewrite Ha. simpl (200 =? 200). cbv iota.
    destruct (complete_download_state dlTracker a chunks w T HT)
      as (Hguard & evs1 & Htrace1 & Hcount1).
    set (w1 := complete_download digest dlTracker a (Num (total_length chunks)) chunks w) in *.
    assert (HT1 : totaldlsize (guard w1) = Num (T - size a + total_length chunks)).
    { rewrite Hguard. reflexivity. }
    destruct (IH w1 err _ HT1)
      as (w' & T' & Hloop & HT' & Hdist & Htr & Hex & Hjx & evs2 & Htrace2 & Hcount2).
    exists w'. exists T'. rewrite Hloop. rewrite Hguard in Hdist, Htr, Hex, Hjx.
    simpl in Hdist, Hex, Hjx.
    split; [reflexivity|]. split; [exact HT'|]. split; [lia|].
    split; [intros i; rewrite Htr; destruct i; reflexivity|].
    split; [exact Hex|]. split; [exact Hjx|].
    exists (evs1 ++ evs2). rewrite Htrace2, Htrace1, <- app_assoc.
    split; [reflexivity|]. rewrite count_complete_app, Hcount1, Hcount2. reflexivity.
Qed.


Lemma startAsyncProcess_empty (i : Identifier) (w : World) :
  dlqueue (tracker i (guard w)) = [] ->
  startAsyncProcess digest fetch i w = (w, Returned false).
Proof. intros H. unfold startAsyncProcess. rewrite H. reflexivity. Qed.

(** A non-empty category whose members are all served: the queue is
    reset, the other trackers are untouched, and the aggregate signal
    (after the unpacking of the backlog) is emitted exactly when the
    byte counter has reached the expected total. *)
Lemma startAsyncProcess_served (i : Identifier) (w : World) (T : Z) :
  dlqueue (tracker i (guard w)) <> [] ->
  Forall (served fetch) (dlqueue (tracker i (guard w))) ->
  totaldlsize (guard w) = Num T ->
  exists w' T',
    startAsyncProcess digest fetch i w = (w', Returned true) /\
    totaldlsize (guard w') = Num T' /\
    T' - progress (guard w') =
      T - progress (guard w) - sum_sizes (dlqueue (tracker i (guard w))) /\
    dlqueue (tracker i (guard w')) = [] /\
    (forall j, i <> j -> tracker j (guard w') = tracker j (guard w)) /\
    javaexec (guard w') = javaexec (guard w) /\
    exists body, count_complete body = 0%nat /\
      if (T' <=? progress (guard w')) then
        trace w' = (trace w ++ body
                    ++ completion (extractQueue (guard w)) (javaexec (guard w))) /\
        extractQueue (guard w') = []
      else
        trace w' = (trace w ++ body) /\
        extractQueue (guard w') = extractQueue (guard w).
Proof.
  intros Hne Hserved HT. unfold startAsyncProcess.
  set (t := tracker i (guard w)) in *. set (q := dlqueue t) in *.
  assert (Hlen : (0 <? Z.of_nat (List.length q)) = true).
  { destruct q; [contradiction|]. reflexivity. }
  rewrite Hlen.
  destruct (download_loop_served t q Hserved
              (emit (ConsoleLog (DLQueueDump q)) w) false T HT)
    as (w1 & T1 & Hloop & HT1 & Hdist & Htr & Hex & Hjx & evs & Htrace & Hcount).
  rewrite Hloop. simpl in Hdist, Htr, Hex, Hjx, Htrace.
  set (w3 := with_guard _ _).
  assert (Hg3 : guard w3 =
                  set_tracker i (new_DLTracker [] 0) (guard w1)) by reflexivity.
  assert (Htrace3 : trace w3 =
            trace w ++ ([ConsoleLog (DLQueueDump q)] ++ evs
                        ++ [ConsoleLog (AllProcessed (identifier_name i))])).
  { unfold w3. simpl. rewrite Htrace, <- !app_assoc. reflexivity. }
  assert (Hbody : count_complete
                    ([ConsoleLog (DLQueueDump q)] ++ evs
                     ++ [ConsoleLog (AllProcessed (identifier_name i))]) = 0%nat).
  { rewrite !count_complete_app, Hcount. reflexivity. }
  assert (Hgate : JS.num_ge (Num (progress (guard w3))) (totaldlsize (guard w3))
                  = (T1 <=? progress (guard w1))).
  { rewrite Hg3. simpl. rewrite HT1. reflexivity. }
  unfold finish_downloads. rewrite Hgate.
  destruct (T1 <=? progress (guard w1)) eqn:Hle.
  - assert (Hq3 : extractQueue (guard w3) = extractQueue (guard w)).
    { rewrite Hg3. simpl. exact Hex. }
    assert (Hj3 : javaexec (guard w3) = javaexec (guard w)).
    { rewrite Hg3. simpl. exact Hjx. }
    rewrite Hq3, Hj3.
    destruct (extractQueue (guard w)) as [|x xs] eqn:Hxq.
    + exists (emit (EmitComplete "download") w3). exists T1.
      split; [reflexivity|]. simpl. rewrite HT1.
      split; [reflexivity|]. split; [exact Hdist|].
      split; [destruct i; reflexivity|].
      split; [intros j Hj; rewrite <- (Htr j); destruct i, j; try reflexivity; contradiction|].
      split; [exact Hjx|].
      eexists. split; [exact Hbody|]. rewrite Hle.
      split; [|exact Hex].
      rewrite Htrace, <- !app_assoc. reflexivity.
    + eexists. exists T1.
      split; [reflexivity|]. simpl. rewrite HT1.
      split; [reflexivity|]. split; [exact Hdist|].
      split; [destruct i; reflexivity|].
      split; [intros j Hj; rewrite <- (Htr j); destruct i, j; try reflexivity; contradiction|].
      split; [exact Hjx|].
      eexists. split; [exact Hbody|]. rewrite Hle.
      split; [|reflexivity].
      rewrite Htrace, <- !app_assoc. reflexivity.
  - exists w3. exists T1.
    split; [reflexivity|]. rewrite Hg3. simpl. rewrite HT1.
    split; [reflexivity|]. split; [exact Hdist|].
    split; [destruct i; reflexivity|].
    split; [intros j Hj; rewrite <- (Htr j); destruct i, j; try reflexivity; contradiction|].
    split; [exact Hjx|].
    eexists. split; [exact Hbody|]. rewrite Hle.
    split; [exact Htrace3|exact Hex].
Qed.


Lemma sum_dlsize_fold (identifiers : list Iden) (g : Guard) :
  forall z,
  fold_left
    (fun total iden => JS.num_add total (Num (dlsize (tracker (iden_id iden) g))))
    identifiers (Num z)
  = Num (z + sum_remaining identifiers g).
Proof.
  induction identifiers as [|iden rest IH]; intros z; simpl.
  - rewrite Z.add_0_r. reflexivity.
  - rewrite IH. f_equal. lia.
Qed.

(** The expected total is the sum of the sizes of the requested
    trackers. *)
Lemma sum_dlsize_eq (identifiers : list Iden) (g : Guard) :
  sum_dlsize identifiers g = Num (sum_remaining identifiers g).
Proof. unfold sum_dlsize. rewrite sum_dlsize_fold. reflexivity. Qed.

Lemma sum_sizes_positive (q : list Asset) :
  Forall (fun a => 0 < size a /\ served fetch a) q ->
  0 <= sum_sizes q /\ (q <> [] -> 0 < sum_sizes q).
Proof.
  induction 1 as [|a rest [Ha _] _ [IH _]]; simpl.
  - split; [lia|congruence].
  - split; [lia|]. intros _. lia.
Qed.

Lemma sum_remaining_positive (identifiers : list Iden) (g : Guard) :
  Forall (fun iden => queue_ok fetch (tracker (iden_id iden) g)) identifiers ->
  0 <= sum_remaining identifiers g /\
  (all_empty identifiers g = true -> sum_remaining identifiers g = 0) /\
  (all_empty identifiers g = false -> 0 < sum_remaining identifiers g).
Proof.
  induction 1 as [|iden rest [Hsum Hq] _ (IH0 & IH1 & IH2)]; simpl.
  - split; [lia|]. split; [reflexivity|discriminate].
  - destruct (sum_sizes_positive _ Hq) as [Hnn Hpos]. rewrite Hsum.
    unfold queue_is_empty.
    destruct (dlqueue (tracker (iden_id iden) g)) as [|a q]; simpl.
    + split; [lia|]. split; intros H; [rewrite IH1 by exact H; reflexivity|].
      specialize (IH2 H). simpl in Hnn. lia.
    + specialize (Hpos ltac:(discriminate)). simpl in Hpos.
      split; [lia|]. split; [discriminate|]. intros _. lia.
Qed.

(** Trackers outside the category that was processed stay as they
    were, so what holds of the remaining categories still holds. *)
Lemma remaining_unchanged (rest : list Iden) (i : Identifier) (g g' : Guard) :
  ~ In i (map iden_id rest) ->
  (forall j, i <> j -> tracker j g' = tracker j g) ->
  Forall (fun iden => tracker (iden_id iden) g' = tracker (iden_id iden) g) rest.
Proof.
  intros Hnotin Hother. apply Forall_forall. intros iden Hin.
  apply Hother. intros ->. apply Hnotin, in_map, list_elem_of_In, Hin.
Qed.

Lemma all_empty_ext (rest : list Iden) (g g' : Guard) :
  Forall (fun iden => tracker (iden_id iden) g' = tracker (iden_id iden) g) rest ->
  all_empty rest g' = all_empty rest g /\
  sum_remaining rest g' = sum_remaining rest g /\
  (Forall (fun iden => queue_ok fetch (tracker (iden_id iden) g)) rest ->
   Forall (fun iden => queue_ok fetch (tracker (iden_id iden) g')) rest).
Proof.
  induction 1 as [|iden rest Hiden _ (IH1 & IH2 & IH3)]; simpl.
  - repeat split. intros _. apply Forall_nil_2.
  - rewrite Hiden, IH1, IH2. repeat split.
    intros Hall. apply Forall_cons in Hall as [H1 H2].
    apply Forall_cons. split; [rewrite Hiden; exact H1|apply IH3, H2].
Qed.

(** The loop over the requested categories, when everything queued
    is served. *)
Lemma process_loop_served (identifiers : list Iden) :
  NoDup (map iden_id identifiers) ->
  forall (w : World) (shouldFire : bool) (T : Z),
  Forall (fun iden => queue_ok fetch (tracker (iden_id iden) (guard w))) identifiers ->
  totaldlsize (guard w) = Num T ->
  T - progress (guard w) = sum_remaining identifiers (guard w) ->
  exists w',
    process_loop digest fetch identifiers shouldFire w =
      (w', if all_empty identifiers (guard w) then shouldFire else false,
       Returned true) /\
    Forall (fun iden => dlqueue (tracker (iden_id iden) (guard w')) = [])
      identifiers /\
    (forall j, ~ In j (map iden_id identifiers) ->
               tracker j (guard w') = tracker j (guard w)) /\
    if all_empty identifiers (guard w) then w' = w
    else exists body,
        count_complete body = 0%nat /\
        trace w' = trace w ++ body
                   ++ completion (extractQueue (guard w)) (javaexec (guard w)).
Proof.
  induction identifiers as [|iden rest IH]; intros Hnodup w shouldFire T Hok HT Hdist.
  - exists w. simpl. split; [reflexivity|]. split; [apply Forall_nil_2|].
    split; reflexivity.
  - simpl in Hnodup. apply NoDup_cons in Hnodup as [Hnotin Hnodup].
    rewrite list_elem_of_In in Hnotin.
    apply Forall_cons in Hok as [[Hsum Hq] Hok].
    set (i := iden_id iden) in *.
    simpl. unfold queue_is_empty. fold i.
    destruct (dlqueue (tracker i (guard w))) as [|a q] eqn:Hqueue.
    + (* nothing queued in this category *)
      rewrite (startAsyncProcess_empty i w Hqueue). simpl.
      assert (Hdist' : T - progress (guard w) = sum_remaining rest (guard w)).
      { simpl in Hdist. fold i in Hdist. rewrite Hsum in Hdist.
        simpl in Hdist. lia. }
      destruct (IH Hnodup w shouldFire T Hok HT Hdist')
        as (w' & Hloop & Hempty & Hother & Hevents).
      exists w'. split; [exact Hloop|].
      split; [|split; [|exact Hevents]].
      * apply Forall_cons. split; [|exact Hempty].
        fold i. rewrite (Hother i Hnotin). exact Hqueue.
      * intros j Hj. apply Hother. intros Hin. apply Hj. right. exact Hin.
    + (* the category is drained *)
      assert (Hne : dlqueue (tracker i (guard w)) <> []) by (rewrite Hqueue; discriminate).
      assert (Hserved : Forall (served fetch) (dlqueue (tracker i (guard w)))).
      { rewrite Hqueue. eapply Forall_impl; [exact Hq|]. intros x [_ Hx]. exact Hx. }
      destruct (startAsyncProcess_served i w T Hne Hserved HT)
        as (w1 & T1 & Hstart & HT1 & Hdist1 & Hreset & Hothers & Hjx & body & Hbody & Hgate).
      rewrite Hstart. cbv iota.
      pose proof (remaining_unchanged rest i (guard w) (guard w1) Hnotin Hothers) as Hsame.
      destruct (all_empty_ext rest (guard w) (guard w1) Hsame) as (Hae & Hsr & Hokext).
      specialize (Hokext Hok).
      assert (Hdist1' : T1 - progress (guard w1) = sum_remaining rest (guard w1)).
      { rewrite Hdist1, Hsr, Hqueue. simpl in Hdist. fold i in Hdist.
        rewrite Hsum in Hdist. lia. }
      destruct (IH Hnodup w1 false T1 Hokext HT1 Hdist1')
        as (w' & Hloop & Hempty & Hother & Hevents).
      exists w'. rewrite Hloop.
      split; [destruct (all_empty rest (guard w1)); reflexivity|].
      split; [|split].
      * apply Forall_cons. split; [|exact Hempty].
        fold i. rewrite (Hother i Hnotin). exact Hreset.
      * intros j Hj. rewrite Hother by (intros Hin; apply Hj; right; exact Hin).
        apply Hothers. intros ->. apply Hj. left. reflexivity.
      * destruct (sum_remaining_positive rest (guard w1) Hokext) as (_ & Hzero & Hpos).
        rewrite Hae in *.
        destruct (all_empty rest (guard w)) eqn:Hall.
        -- (* last category with something queued: the signal *)
           subst w'. rewrite Hzero in Hdist1' by reflexivity.
           assert (Hle : (T1 <=? progress (guard w1)) = true) by (apply Z.leb_le; lia).
           rewrite Hle in Hgate. destruct Hgate as [Htrace _].
           exists body. split; [exact Hbody|exact Htrace].
        -- specialize (Hpos eq_refl).
           assert (Hle : (T1 <=? progress (guard w1)) = false) by (apply Z.leb_gt; lia).
           rewrite Hle in Hgate. destruct Hgate as [Htrace Hxq].
           destruct Hevents as (body' & Hbody' & Htrace').
           exists (body ++ body'). rewrite count_complete_app, Hbody, Hbody'.
           split; [reflexivity|].
           rewrite Htrace', Htrace, Hxq, Hjx, <- !app_assoc. reflexivity.
Qed.


(** The regular run.  The expected total is the sum of the sizes of
    the requested trackers.  For distinct category identifiers whose
    trackers carry the sum of their members' sizes, with every queued
    artifact of positive size and every fetch answered with status
    200 and as many bytes as its content length announces, the run
    returns, every processed queue ends empty, and exactly one
    aggregate download-complete signal is recorded, as the last of
    the recorded events: after the last non-empty category, behind
    the unpacking of the backlog when one is queued, or at once when
    none of the categories has anything queued. *)
Theorem processDlQueues_completes_once (identifiers : list Iden) (w : World) :
  NoDup (map iden_id identifiers) ->
  Forall (fun iden => queue_ok fetch (tracker (iden_id iden) (guard w)))
    identifiers ->
  sum_dlsize identifiers (guard w) = Num (sum_remaining identifiers (guard w)) /\
  exists w' events,
    processDlQueues digest fetch identifiers w = (w', Returned true) /\
    Forall (fun iden => dlqueue (tracker (iden_id iden) (guard w')) = [])
      identifiers /\
    trace w' = trace w ++ events /\
    count_complete events = 1%nat /\
    exists body,
      count_complete body = 0%nat /\
      events =
        body ++
        (if all_empty identifiers (guard w) then [EmitComplete "download"]
         else completion (extractQueue (guard w)) (javaexec (guard w))).
Proof.
  intros Hnodup Hok. split; [apply sum_dlsize_eq|].
  unfold processDlQueues.
  set (w0 := with_guard _ w).
  assert (Hsame : Forall (fun iden => tracker (iden_id iden) (guard w0)
                                      = tracker (iden_id iden) (guard w)) identifiers).
  { apply Forall_forall. intros iden _. destruct (iden_id iden); reflexivity. }
  destruct (all_empty_ext identifiers (guard w) (guard w0) Hsame) as (Hae & Hsr & Hokext).
  assert (HT : totaldlsize (guard w0) = Num (sum_remaining identifiers (guard w))).
  { unfold w0. simpl. apply sum_dlsize_eq. }
  assert (Hdist : sum_remaining identifiers (guard w) - progress (guard w0)
                  = sum_remaining identifiers (guard w0)).
  { rewrite Hsr. unfold w0. simpl. lia. }
  destruct (process_loop_served identifiers Hnodup w0 true _ (Hokext Hok) HT Hdist)
    as (w1 & Hloop & Hempty & _ & Hevents).
  rewrite Hloop, Hae in *.
  destruct (all_empty identifiers (guard w)).
  - subst w1. eexists. exists [EmitComplete "download"].
    split; [reflexivity|]. split; [exact Hempty|]. split; [reflexivity|].
    split; [reflexivity|]. exists (@nil Event). split; reflexivity.
  - destruct Hevents as (body & Hbody & Htrace).
    exists w1. eexists. split; [reflexivity|]. split; [exact Hempty|].
    split; [exact Htrace|].
    split; [rewrite count_complete_app, Hbody, count_complete_completion; reflexivity|].
    exists body. split; [exact Hbody|reflexivity].
Qed.

(** The flag [err] is set only together with a rejection: a loop that
    runs to its end leaves it as it was, so the branch of
    [startAsyncProcess] that logs a failed item is never taken. *)
Lemma download_loop_err_flag (dlTracker : DLTracker) (q : list Asset) :
  forall (w w' : World) (err err' : bool),
  download_loop digest fetch dlTracker q err w = (w', err', true) -> err' = err.
Proof.
  induction q as [|a rest IH]; intros w w' err err' H.
  - simpl in H. injection H as _ <-. reflexivity.
  - simpl in H. unfold download_asset in H.
    destruct (fetch (from a)) as [|status contentLength chunks]; [discriminate|].
    destruct (status =? 200); [|discriminate].
    apply IH in H. exact H.
Qed.

(** A rejected fetch on the first queued asset ends the category at
    once, whatever follows in the queue: the guard is left as it was
    and the only events are the dump of the queue and the error. *)
Lemma first_failure_ends_category
    (i : Identifier) (w : World) (a : Asset) (rest : list Asset) :
  dlqueue (tracker i (guard w)) = a :: rest ->
  fetch (from a) = FetchFailed ->
  startAsyncProcess digest fetch i w =
    (emit (EmitError "download") (emit (ConsoleLog (DLQueueDump (a :: rest))) w),
     Thrown).
Proof.
  intros Hq Hfetch. unfold startAsyncProcess. rewrite Hq. simpl.
  unfold download_asset. rewrite Hfetch. reflexivity.
Qed.

End Downloads.


Section DownloadRuns.

Import AssetGuard Reading.

(** Scenario D: 100 bytes of assets and 50 bytes of libraries give an
    expected total of 150 and one aggregate signal. *)
Lemma processDlQueues_completes_once_witness :
  sum_dlsize assets_then_libraries (guard scenario_d) = Num 150 /\
  exists w' events,
    processDlQueues (fun _ buf => buf) scenario_d_fetch assets_then_libraries
      scenario_d = (w', Returned true) /\
    dlqueue (assets (guard w')) = [] /\ dlqueue (libraries (guard w')) = [] /\
    trace w' = events /\ count_complete events = 1%nat.
Proof.
  assert (Hnodup : NoDup (map iden_id assets_then_libraries)).
  { simpl. apply NoDup_cons. split.
    - rewrite list_elem_of_In. simpl. intuition discriminate.
    - apply NoDup_cons. split; [apply not_elem_of_nil|apply NoDup_nil_2]. }
  assert (Hok : Forall
                  (fun iden => queue_ok scenario_d_fetch
                                 (tracker (iden_id iden) (guard scenario_d)))
                  assets_then_libraries).
  { apply Forall_cons. split; [|apply Forall_cons; split; [|apply Forall_nil_2]].
    - split; [reflexivity|]. apply Forall_cons. split; [|apply Forall_nil_2].
      split; [reflexivity|]. exists [filler 60; filler 40]. reflexivity.
    - split; [reflexivity|]. apply Forall_cons. split; [|apply Forall_nil_2].
      split; [reflexivity|]. exists [filler 50]. reflexivity. }
  destruct (processDlQueues_completes_once (fun _ buf => buf) scenario_d_fetch
              assets_then_libraries scenario_d Hnodup Hok)
    as (Hsum & w' & events & Hrun & Hempty & Htrace & Hcount & _).
  split; [exact Hsum|]. exists w'. exists events.
  split; [exact Hrun|].
  apply Forall_cons in Hempty as [H1 Hempty].
  apply Forall_cons in Hempty as [H2 _].
  auto.
Defined.

(** C6: the aggregate signal follows the byte counter, not the end of
    the downloads.  It is emitted when a category ends with the byte
    counter at or above the expected total.

    - A response with status 200 and no [content-length] header turns
      the expected total into [NaN]: the artifact is downloaded and
      written, its queue is reset, the body of [processDlQueues] runs
      to its end, and no aggregate signal is emitted at any point (the
      promise of [processDlQueues], which only that signal resolves,
      stays pending).
    - When the byte counter reaches the expected total before the last
      category, the signal is emitted at the end of that category and
      again at the end of every later one that has something queued:
      with three bytes of assets and an empty file among the
      libraries it is emitted twice, the first time before the library
      is fetched. *)
Theorem completion_signal_depends_on_byte_counter :
  let a := sample_asset "a" 3 in
  let e := sample_asset "empty" 0 in
  (let '(w', outcome) :=
     processDlQueues (fun _ buf => buf) headerless_fetch
       assets_then_libraries headerless_run in
   outcome = Returned true /\
   fs w' !! to a = Some "abc" /\
   dlqueue (assets (guard w')) = [] /\
   progress (guard w') = 3 /\
   totaldlsize (guard w') = NaN /\
   trace w' =
     [ ConsoleLog (DLQueueDump [a]);
       ConsoleLog (WarnSize NaN "a" 3);
       EmitProgress "download" 3 NaN;
       ConsoleLog (HashesMatch "a");
       ConsoleLog (AllProcessed "assets") ] /\
   count_complete (trace w') = 0%nat) /\
  (let '(w', outcome) :=
     processDlQueues (fun _ buf => buf) empty_library_fetch
       assets_then_libraries empty_library_run in
   outcome = Returned true /\
   trace w' =
     [ ConsoleLog (DLQueueDump [a]);
       EmitProgress "download" 3 (Num 3);
       ConsoleLog (AllProcessed "assets");
       EmitComplete "download";
       ConsoleLog (DLQueueDump [e]);
       ConsoleLog (AllProcessed "libraries");
       EmitComplete "download" ] /\
   count_complete (trace w') = 2%nat).
Proof. split; vm_compute; repeat split; reflexivity. Qed.

(** C5: the code stops at the first failed fetch.  With two assets
    queued and the first fetch failing, the category throws: the
    second asset is never fetched nor written, the queue is not reset,
    and no aggregate signal follows (the run of [processDlQueues]
    throws as well).  The only events are the dump of the queue and
    the error signal. *)
Theorem fetch_failure_aborts_category :
  let a := sample_asset "a" 3 in
  let b := sample_asset "b" 3 in
  (let '(w', outcome) :=
     startAsyncProcess (fun _ buf => buf) failing_fetch Assets failing_run in
   outcome = Thrown /\
   trace w' = [ConsoleLog (DLQueueDump [a; b]); EmitError "download"] /\
   dlqueue (assets (guard w')) = [a; b] /\
   fs w' !! to b = None) /\
  (let '(w', outcome) :=
     processDlQueues (fun _ buf => buf) failing_fetch assets_then_libraries
       failing_run in
   outcome = Thrown /\ count_complete (trace w') = 0%nat /\
   dlqueue (assets (guard w')) = [a; b]).
Proof. split; vm_compute; repeat split; reflexivity. Qed.


End DownloadRuns.

(* ================================================================== *)
(** * Part IV.  Further properties                                      *)
(* ================================================================== *)

(** ** Version comparison *)

Section VersionComparison.

Import Util Terms.

Lemma num_ge_spec (a d : jsnum) :
  JS.num_ge a d = true <-> exists x y, d = Num x /\ a = Num y /\ x <= y.
Proof.
  destruct a as [y|], d as [x|]; simpl; split.
  - intros H. exists x, y. repeat split. lia.
  - intros (x' & y' & [= <-] & [= <-] & H). lia.
  - discriminate.
  - intros (x' & y' & [=] & _).
  - discriminate.
  - intros (x' & y' & _ & [=] & _).
  - discriminate.
  - intros (x' & y' & [=] & _).
Qed.

Lemma mcVersionAtLeast_loop_spec (des act : list string) (n : nat) :
  forall i,
  mcVersionAtLeast_loop des act i n = true <->
  forall j, (i <= j < i + n)%nat ->
    JS.num_ge (JS.parseInt_opt (JS.at_index act j))
      (JS.parseInt_opt (JS.at_index des j)) = true.
Proof.
  induction n as [|n IH]; intros i; simpl.
  - split; [intros _ j Hj; lia|reflexivity].
  - destruct (JS.num_ge _ _) eqn:Hge; simpl.
    + rewrite IH. split; intros H j Hj.
      * destruct (Nat.eq_dec j i) as [->|Hne]; [exact Hge|apply H; lia].
      * apply H. lia.
    + split; [discriminate|]. intros H.
      rewrite H in Hge; [discriminate|lia].
Qed.

Lemma component_numeric (v : string) (i : nat) (x : Z) :
  component v i = Num x -> (i < components v)%nat.
Proof.
  unfold component, components, JS.at_index. intros H.
  destruct (nth_error (JS.split "." v) i) eqn:Hn; [|discriminate].
  apply nth_error_Some. congruence.
Qed.

Lemma mcVersionAtLeast_ge (desired actual : string) :
  mcVersionAtLeast desired actual = true <->
  forall i, (i < components desired)%nat ->
    JS.num_ge (component actual i) (component desired i) = true.
Proof.
  unfold mcVersionAtLeast. rewrite mcVersionAtLeast_loop_spec.
  unfold components, component.
  split; intros H i Hi; apply H; lia.
Qed.

(** X1: [mcVersionAtLeast] compares component by component, not in
    the order of versions: it answers [true] exactly when every dotted
    component of the desired version is a number and the component of
    the actual version at the same place is a number that is at least
    as large. *)
Theorem mcVersionAtLeast_componentwise (desired actual : string) :
  mcVersionAtLeast desired actual = true <->
  forall i, (i < components desired)%nat ->
    exists d a, component desired i = Num d /\ component actual i = Num a /\ d <= a.
Proof.
  rewrite mcVersionAtLeast_ge.
  split; intros H i Hi; apply num_ge_spec, H, Hi.
Qed.

(** X2: [mcVersionAtLeast] is transitive: when [b] is at least [a]
    and [c] is at least [b], then [c] is at least [a]. *)
Theorem mcVersionAtLeast_trans (a b c : string) :
  mcVersionAtLeast a b = true ->
  mcVersionAtLeast b c = true ->
  mcVersionAtLeast a c = true.
Proof.
  rewrite !mcVersionAtLeast_ge. intros Hab Hbc i Hi.
  destruct (proj1 (num_ge_spec _ _) (Hab i Hi)) as (x & y & Hx & Hy & Hxy).
  destruct (proj1 (num_ge_spec _ _) (Hbc i (component_numeric _ _ _ Hy)))
    as (y' & z & Hy' & Hz & Hyz).
  apply num_ge_spec. exists x, z. repeat split; [exact Hx|exact Hz|].
  rewrite Hy in Hy'. injection Hy' as <-. lia.
Qed.

(** X3: an actual version with fewer dotted components than the
    desired one is never at least the desired one (so [1.8] is not at
    least [1.8.0]). *)
Theorem mcVersionAtLeast_shorter_actual (desired actual : string) :
  (components actual < components desired)%nat ->
  mcVersionAtLeast desired actual = false.
Proof.
  intros Hlt. apply not_true_is_false. rewrite mcVersionAtLeast_ge. intros H.
  destruct (proj1 (num_ge_spec _ _) (H (components actual) Hlt))
    as (d & a & _ & Ha & _).
  apply component_numeric in Ha. lia.
Qed.

End VersionComparison.

Lemma mcVersionAtLeast_trans_witness :
  Util.mcVersionAtLeast "1.8" "1.9.9" = true.
Proof.
  apply (mcVersionAtLeast_trans "1.8" "1.8.9" "1.9.9"); reflexivity.
Defined.

Lemma mcVersionAtLeast_shorter_actual_witness :
  Util.mcVersionAtLeast "1.8.0" "1.8" = false.
Proof.
  apply (mcVersionAtLeast_shorter_actual "1.8.0" "1.8"). vm_compute. lia.
Defined.

(** ** Version texts *)

Section VersionTexts.

Import JavaGuard Terms.


Lemma free_of_app (c : ascii) (s t : string) :
  free_of c (s +:+ t) = free_of c s && free_of c t.
Proof.
  induction s as [|a s IH]; [reflexivity|].
  rewrite append_cons. simpl. rewrite IH. apply andb_assoc.
Qed.


Lemma split_free (c : ascii) (s : string) :
  free_of c s = true -> JS.split c s = [s].
Proof.
  induction s as [|a s IH]; [reflexivity|]. simpl.
  intros [Ha Hs]%andb_true_iff. apply negb_true_iff in Ha. rewrite Ha, (IH Hs).
  reflexivity.
Qed.


Lemma take_all (s : string) : JS.take (String.length s) s = s.
Proof. induction s as [|a s IH]; [reflexivity|]. simpl. rewrite IH. reflexivity. Qed.







Variable looseEqualsOne : string -> bool.







End VersionTexts.



(** ** Reading a property dump *)

Section DumpReading.

Import JavaGuard Reading Terms.

Variable looseEqualsOne : string -> bool.

Lemma split_append (c : ascii) (s t : string) :
  JS.split c (s +:+ String c t) = JS.split c s ++ JS.split c t.
Proof.
  induction s as [|a s IH].
  - rewrite append_nil_l. simpl. rewrite Ascii.eqb_refl. reflexivity.
  - rewrite append_cons. simpl. rewrite IH.
    destruct (Ascii.eqb a c); [reflexivity|].
    destruct (JS.split c s) as [|h l] eqn:E; [|reflexivity].
    destruct s; simpl in E; [discriminate|].
    destruct (Ascii.eqb _ c); [discriminate|].
    destruct (JS.split c s); discriminate.
Qed.

(** Once the counter has reached the goal the loop has left: what
    follows is not read. *)
Lemma properties_loop_break (props1 props2 : list string) :
  forall c m m',
  c < goal ->
  properties_loop looseEqualsOne props1 c m = Some (goal, m') ->
  properties_loop looseEqualsOne (props1 ++ props2) c m = Some (goal, m').
Proof.
  unfold goal.
  induction props1 as [|line rest IH]; intros c m m' Hc H.
  - simpl in H. injection H as Hc' _. lia.
  - simpl in H. simpl.
    destruct (-1 <? JS.indexOf line "sun.arch.data.model").
    + destruct (property_value line) as [v|]; [|discriminate].
      destruct (JS.num_eq (JS.parseInt v) (Num 64)).
      * unfold goal in *. destruct (Z.eqb_spec (c + 1) 2) as [Heq|Hne];
          [exact H|apply IH; [lia|exact H]].
      * apply IH; assumption.
    + destruct (-1 <? JS.indexOf line "java.runtime.version").
      * destruct (property_value line) as [v|]; [|discriminate].
        destruct (parseJavaRuntimeVersion looseEqualsOne v) as [verOb|];
          [|discriminate].
        destruct (JS.num_eq (major verOb) (Num 8) && gt (update verOb) (Some (Num 52))).
        -- unfold goal in *. destruct (Z.eqb_spec (c + 1) 2) as [Heq|Hne];
             [exact H|apply IH; [lia|exact H]].
        -- apply IH; assumption.
      * destruct (-1 <? JS.lastIndexOf line "java.vendor ").
        -- destruct (property_value line) as [v|]; [|discriminate].
           apply IH; assumption.
        -- apply IH; assumption.
Qed.

(** A valid result was produced by leaving the loop at the goal. *)
Lemma valid_result_broke (stderr : string) (meta : Meta) :
  _validateJVMProperties looseEqualsOne stderr = Some meta ->
  valid meta = true ->
  exists m,
    properties_loop looseEqualsOne (JS.split "010" stderr) 0 emptyMeta
      = Some (goal, m) /\
    meta = {| arch := arch m; version := version m; vendor := vendor m;
              valid := true; metaExecPath := metaExecPath m |}.
Proof.
  unfold _validateJVMProperties.
  destruct (properties_loop _ _ 0 emptyMeta) as [[c m]|]; [|discriminate].
  intros H Hv. injection H as <-. cbn [valid] in Hv.
  apply Z.eqb_eq in Hv. subst c. exists m. split; reflexivity.
Qed.

(** X7: once two checks have passed, [_validateJVMProperties] reads
    no further: a valid result stays the same whatever lines are
    appended to the output, also lines that could not be read. *)
Theorem validateJVMProperties_ignores_rest (stderr tail : string) (meta : Meta) :
  _validateJVMProperties looseEqualsOne stderr = Some meta ->
  valid meta = true ->
  _validateJVMProperties looseEqualsOne (stderr +:+ newline +:+ tail) = Some meta.
Proof.
  intros H Hv. destruct (valid_result_broke stderr meta H Hv) as (m & Hloop & ->).
  unfold _validateJVMProperties.
  change (stderr +:+ newline +:+ tail) with (stderr +:+ String "010" tail).
  rewrite split_append.
  rewrite (properties_loop_break _ _ 0 emptyMeta m eq_refl Hloop).
  unfold goal. reflexivity.
Qed.



(** Readable lines are read without an exception; the counter grows
    by the number of lines that pass a check. *)
Lemma properties_loop_readable (pre rest : list string) :
  Forall (fun line => readable looseEqualsOne line = true) pre ->
  forall c m,
  c + passed_checks looseEqualsOne pre < goal ->
  exists m',
    properties_loop looseEqualsOne (pre ++ rest) c m
      = properties_loop looseEqualsOne rest
          (c + passed_checks looseEqualsOne pre) m'.
Proof.
  unfold goal.
  induction 1 as [|line pre Hline _ IH]; intros c m Hc.
  - exists m. simpl. rewrite Z.add_0_r. reflexivity.
  - pose proof (passed_checks_nonneg looseEqualsOne pre) as Hnn.
    unfold readable, mentions in Hline.
    simpl passed_checks in *. unfold arch_ok, version_ok in *.
    simpl app. simpl properties_loop.
    destruct (-1 <? JS.indexOf line "sun.arch.data.model").
    + destruct (property_value line) as [v|]; [|discriminate].
      simpl in Hc |- *.
      destruct (JS.num_eq (JS.parseInt v) (Num 64)); simpl in Hc |- *.
      * unfold goal. destruct (Z.eqb_spec (c + 1) 2) as [Heq|Hne]; [lia|].
        destruct (IH (c + 1) {| arch := Some (JS.parseInt v); version := version m;
                                vendor := vendor m; valid := valid m;
                                metaExecPath := metaExecPath m |}) as [m' Hm'];
          [lia|].
        exists m'. rewrite Hm'. f_equal. lia.
      * destruct (IH c m) as [m' Hm']; [lia|]. exists m'. rewrite Hm'. reflexivity.
    + destruct (-1 <? JS.indexOf line "java.runtime.version").
      * destruct (property_value line) as [v|]; [|discriminate].
        destruct (parseJavaRuntimeVersion looseEqualsOne v) as [verOb|];
          [|discriminate].
        simpl in Hc |- *.
        destruct (JS.num_eq (major verOb) (Num 8) && gt (update verOb) (Some (Num 52)));
          simpl in Hc |- *.
        -- unfold goal. destruct (Z.eqb_spec (c + 1) 2) as [Heq|Hne]; [lia|].
           destruct (IH (c + 1) {| arch := arch m; version := Some verOb;
                                   vendor := vendor m; valid := valid m;
                                   metaExecPath := metaExecPath m |}) as [m' Hm'];
             [lia|].
           exists m'. rewrite Hm'. f_equal. lia.
        -- destruct (IH c m) as [m' Hm']; [lia|]. exists m'. rewrite Hm'. reflexivity.
      * simpl in Hc |- *.
        destruct (-1 <? JS.lastIndexOf line "java.vendor ").
        -- destruct (property_value line) as [v|]; [|discriminate].
           destruct (IH c {| arch := arch m; version := version m;
                             vendor := Some v; valid := valid m;
                             metaExecPath := metaExecPath m |}) as [m' Hm']; [lia|].
           exists m'. rewrite Hm'. reflexivity.
        -- destruct (IH c m) as [m' Hm']; [lia|]. exists m'. rewrite Hm'. reflexivity.
Qed.

(** X8: a Java 8 version text without a build suffix (no dash, as in
    [1.8.0_292]) makes the version parser throw; when its line is
    reached before two checks have passed, [_validateJVMProperties]
    throws and [_validateJavaBinary] reports the runtime as invalid,
    whatever its architecture and update. *)
Theorem version_without_build_is_rejected
    (stderr : string) (pre post : list string) (verline v : string) :
  JS.split "010" stderr = pre ++ verline :: post ->
  Forall (fun line => readable looseEqualsOne line = true) pre ->
  passed_checks looseEqualsOne pre < 2 ->
  mentions verline "sun.arch.data.model" = false ->
  mentions verline "java.runtime.version" = true ->
  property_value verline = Some v ->
  looseEqualsOne (hd EmptyString (JS.split "." v)) = true ->
  free_of "-" v = true ->
  _validateJVMProperties looseEqualsOne stderr = None /\
  forall (platform : string) (existsSync : string -> bool) (pth : string),
    valid (_validateJavaBinary platform looseEqualsOne existsSync
             (fun _ => stderr) pth) = false.
Proof.
  intros Hsplit Hpre Hpassed Hnoarch Hver Hval H1 Hfree.
  assert (Hnone : _validateJVMProperties looseEqualsOne stderr = None).
  { unfold _validateJVMProperties. rewrite Hsplit.
    destruct (properties_loop_readable pre (verline :: post) Hpre 0 emptyMeta)
      as [m' ->]; [unfold goal; lia|].
    unfold mentions in Hnoarch, Hver.
    simpl. rewrite Hnoarch, Hver, Hval.
    unfold parseJavaRuntimeVersion. rewrite H1.
    unfold _parseJavaRuntimeVersion_8. rewrite (split_free "-" v Hfree).
    reflexivity. }
  split; [exact Hnone|].
  intros platform existsSync pth. unfold _validateJavaBinary.
  destruct (negb (isJavaExecPath platform pth)); [reflexivity|].
  destruct (existsSync pth); [|reflexivity].
  rewrite Hnone. reflexivity.
Qed.

End DumpReading.

Lemma validateJVMProperties_ignores_rest_witness :
  exists meta,
    JavaGuard._validateJVMProperties (String.eqb "1") Terms.java8_dump = Some meta /\
    JavaGuard._validateJVMProperties (String.eqb "1")
      (Terms.java8_dump +:+ Reading.newline +:+ "sun.arch.data.model") = Some meta.
Proof.
  eexists. split; [vm_compute; reflexivity|].
  apply (validateJVMProperties_ignores_rest (String.eqb "1") Terms.java8_dump
           "sun.arch.data.model"); vm_compute; reflexivity.
Defined.


Lemma version_without_build_is_rejected_witness :
  JavaGuard._validateJVMProperties (String.eqb "1") Terms.java8_dump_without_build
    = None /\
  forall (platform : string) (existsSync : string -> bool) (pth : string),
    JavaGuard.valid
      (JavaGuard._validateJavaBinary platform (String.eqb "1") existsSync
         (fun _ => Terms.java8_dump_without_build) pth) = false.
Proof.
  apply (version_without_build_is_rejected (String.eqb "1")
           Terms.java8_dump_without_build
           ["Property settings:"] ["    sun.arch.data.model = 64"]
           "    java.runtime.version = 1.8.0_292" "1.8.0_292");
    repeat (match goal with |- Forall _ _ => constructor end);
    vm_compute; reflexivity.
Defined.

(** ** Runtime discovery *)

Section Discovery.

Import JavaGuard Terms.

Variable platform : string.
Variable looseEqualsOne : string -> bool.
Variable existsSync : string -> bool.
Variable exec_stderr : string -> string.
Variable JAVA_HOME : option string.
Variable readdir : string -> option (list string).
Variable registryRoots : list string.

Lemma validateJavaBinary_valid (pth : string) :
  valid (_validateJavaBinary platform looseEqualsOne existsSync exec_stderr pth) = true ->
  accepted platform looseEqualsOne existsSync exec_stderr pth.
Proof.
  unfold _validateJavaBinary, accepted, properties_command.
  destruct (isJavaExecPath platform pth); [|discriminate].
  destruct (existsSync pth); [|discriminate]. simpl.
  destruct (_validateJVMProperties _ _) as [meta|]; [|discriminate].
  intros Hv. repeat split. exists meta. split; [reflexivity|exact Hv].
Qed.

Lemma validateJavaRootSet_members (rootArr : list string) (m : Meta) :
  In m (_validateJavaRootSet platform looseEqualsOne existsSync exec_stderr rootArr) ->
  exists root,
    In root rootArr /\
    metaExecPath m = Some (javaExecFromRoot platform root) /\
    accepted platform looseEqualsOne existsSync exec_stderr
      (javaExecFromRoot platform root).
Proof.
  induction rootArr as [|root rest IH]; [intros []|].
  simpl.
  destruct (valid (_validateJavaBinary _ _ _ _ (javaExecFromRoot platform root)))
    eqn:Hv.
  - intros [<-|Hin].
    + exists root. split; [left; reflexivity|]. split; [reflexivity|].
      apply validateJavaBinary_valid, Hv.
    + destruct (IH Hin) as (r & Hr & Hrest). exists r. split; [right; exact Hr|exact Hrest].
  - intros Hin. destruct (IH Hin) as (r & Hr & Hrest).
    exists r. split; [right; exact Hr|exact Hrest].
Qed.

Lemma sort_insert_perm (compare : Candidate -> Candidate -> Z)
    (x : Candidate) (sorted : list Candidate) :
  sort_insert compare x sorted ≡ₚ x :: sorted.
Proof.
  induction sorted as [|y rest IH]; [reflexivity|]. simpl.
  destruct (0 <? compare y x); [reflexivity|].
  rewrite IH. apply Permutation_swap.
Qed.

Lemma sort_fold_perm (compare : Candidate -> Candidate -> Z) (l : list Candidate) :
  forall acc,
  fold_left (fun sorted x => sort_insert compare x sorted) l acc ≡ₚ acc ++ l.
Proof.
  induction l as [|x l IH]; intros acc; simpl.
  - rewrite app_nil_r. reflexivity.
  - rewrite IH, sort_insert_perm. apply Permutation_middle.
Qed.

Lemma sortValidJavaArray_perm (validArr : list Candidate) :
  _sortValidJavaArray validArr ≡ₚ validArr.
Proof. unfold _sortValidJavaArray. apply (sort_fold_perm compareCandidates validArr []). Qed.

Lemma as_candidates_members (validArr : list Meta) (cs : list Candidate) (c : Candidate) :
  as_candidates validArr = Some cs -> In c cs ->
  exists m, In m validArr /\ metaExecPath m = Some (execPath c).
Proof.
  revert cs. induction validArr as [|m rest IH]; intros cs H Hin.
  - injection H as <-. destruct Hin.
  - simpl in H. destruct (as_candidate m) as [c'|] eqn:Hc; [|discriminate].
    destruct (as_candidates rest) as [cs'|]; [|discriminate].
    injection H as <-. destruct Hin as [<-|Hin].
    + exists m. split; [left; reflexivity|].
      unfold as_candidate in Hc.
      destruct (version m); [|discriminate].
      destruct (metaExecPath m); [|discriminate].
      injection Hc as <-. reflexivity.
    + destruct (IH cs' eq_refl Hin) as (m' & Hm' & Hp).
      exists m'. split; [right; exact Hm'|exact Hp].
Qed.

Lemma first_sorted_member (pathArr : list Meta) (pth : string) :
  first_sorted pathArr = Some (Some pth) ->
  exists m, In m pathArr /\ metaExecPath m = Some pth.
Proof.
  unfold first_sorted.
  destruct pathArr as [|m [|m2 rest]]; [discriminate| |].
  - intros [= H]. exists m. split; [left; reflexivity|exact H].
  - destruct (as_candidates (m :: m2 :: rest)) as [cs|] eqn:Hcs; [|discriminate].
    destruct (_sortValidJavaArray cs) as [|c sorted] eqn:Hsort; [discriminate|].
    intros [= <-].
    apply (as_candidates_members _ cs c Hcs).
    apply (Permutation_in c (sortValidJavaArray_perm cs)).
    rewrite Hsort. left. reflexivity.
Qed.

Lemma best_of_accepted (uberSet : list string) (pth : string) :
  best_of platform looseEqualsOne existsSync exec_stderr uberSet = Some (Some pth) ->
  exists root,
    pth = javaExecFromRoot platform root /\
    accepted platform looseEqualsOne existsSync exec_stderr pth.
Proof.
  unfold best_of. intros H.
  destruct (first_sorted_member _ _ H) as (m & Hm & Hp).
  destruct (validateJavaRootSet_members _ _ Hm) as (root & _ & Hp' & Hacc).
  rewrite Hp in Hp'. injection Hp' as ->. exists root. split; [reflexivity|exact Hacc].
Qed.

(** X9: whatever [validateJava] resolves to, other than [null], is
    the executable of some installation root, has the form
    [isJavaExecPath] accepts, exists on disk, and ran with a property
    output that [_validateJVMProperties] found valid. *)
Theorem validateJava_sound (dataDir pth : string) :
  validateJava platform looseEqualsOne existsSync exec_stderr JAVA_HOME
    readdir registryRoots dataDir = Some (Some pth) ->
  exists root,
    pth = javaExecFromRoot platform root /\
    isJavaExecPath platform pth = true /\
    existsSync pth = true /\
    exists meta,
      _validateJVMProperties looseEqualsOne (exec_stderr (properties_command pth))
        = Some meta /\
      valid meta = true.
Proof.
  unfold validateJava, _win32JavaValidate, _darwinJavaValidate, _linuxJavaValidate.
  intros H.
  assert (Hbest : exists uberSet,
             best_of platform looseEqualsOne existsSync exec_stderr uberSet
               = Some (Some pth)).
  { repeat match type of H with
           | (if ?b then _ else _) = _ => destruct b
           | match ?x with _ => _ end = _ => destruct x
           | None = Some _ => discriminate H
           | best_of _ _ _ _ ?u = _ => exists u; exact H
           end. }
  destruct Hbest as (uberSet & Hbest).
  destruct (best_of_accepted uberSet pth Hbest) as (root & Hroot & Hacc).
  exists root. split; [exact Hroot|exact Hacc].
Qed.

(** X11: on macOS, with a [JAVA_HOME] that points to an existing
    path, [validateJava] is rejected: [_darwinJavaValidate] calls
    [contains] on the string, which is no method of strings, and
    throws, whatever runtimes are installed. *)
Theorem validateJava_darwin_java_home (dataDir jHome : string) :
  platform = "darwin" ->
  JAVA_HOME = Some jHome ->
  existsSync jHome = true ->
  validateJava platform looseEqualsOne existsSync exec_stderr JAVA_HOME
    readdir registryRoots dataDir = None.
Proof.
  intros -> HJ He. unfold validateJava, _darwinJavaValidate, _scanJavaHome.
  rewrite HJ, He. simpl.
  destruct (_scanFileSystem _ _ _ _); [|reflexivity].
  destruct (_scanFileSystem _ _ _ _); reflexivity.
Qed.

End Discovery.

Section CandidateSorting.

Import JavaGuard Terms.

Lemma key_le_trans (k1 k2 k3 : Z * Z * Z) :
  key_le k1 k2 -> key_le k2 k3 -> key_le k1 k3.
Proof.
  destruct k1 as [[m1 u1] b1], k2 as [[m2 u2] b2], k3 as [[m3 u3] b3].
  unfold key_le. lia.
Qed.

Lemma not_older_trans (a b c : Candidate) :
  not_older a b -> not_older b c -> not_older a c.
Proof.
  intros (ka & kb & Ha & Hb & Hab) (kb' & kc & Hb' & Hc & Hbc).
  rewrite Hb in Hb'. injection Hb' as <-.
  exists ka, kc. repeat split; [exact Ha|exact Hc|].
  eapply key_le_trans; eassumption.
Qed.

(** What the sign of the comparator says about two candidates with
    numeric versions. *)
Lemma compare_sign (y x : Candidate) (ky kx : Z * Z * Z) :
  version_key y = Some ky -> version_key x = Some kx ->
  (0 < compareCandidates y x -> key_le ky kx) /\
  (compareCandidates y x <= 0 -> key_le kx ky).
Proof.
  unfold version_key, compareCandidates.
  destruct (major (cVersion y)) as [my|]; [|discriminate].
  destruct (major (cVersion x)) as [mx|]; [|discriminate].
  cbn [JS.num_eq JS.num_gt].
  destruct (Z.ltb_spec my 9) as [Hy9|Hy9]; destruct (Z.ltb_spec mx 9) as [Hx9|Hx9].
  - destruct (update (cVersion y)) as [[uy|]|]; try discriminate.
    destruct (build (cVersion y)) as [by_|]; try discriminate.
    destruct (update (cVersion x)) as [[ux|]|]; try discriminate.
    destruct (build (cVersion x)) as [bx|]; try discriminate.
    intros [= <-] [= <-]. cbn [strict_eq gt JS.num_eq JS.num_gt].
    unfold jre_priority, key_le.
    destruct (Z.eqb_spec my mx); [|destruct (Z.ltb_spec mx my); lia].
    destruct (Z.eqb_spec uy ux); [|destruct (Z.ltb_spec ux uy); lia].
    destruct (Z.eqb_spec by_ bx); [|destruct (Z.ltb_spec bx by_); lia].
    destruct (mentions_jdk (execPath y)); [destruct (mentions_jdk (execPath x))|]; lia.
  - destruct (update (cVersion y)) as [[uy|]|]; try discriminate.
    destruct (build (cVersion y)) as [by_|]; try discriminate.
    destruct (minor (cVersion x)) as [[ux|]|]; try discriminate.
    destruct (revision (cVersion x)) as [[bx|]|]; try discriminate.
    intros [= <-] [= <-]. unfold key_le.
    destruct (Z.eqb_spec my mx); [lia|destruct (Z.ltb_spec mx my); lia].
  - destruct (minor (cVersion y)) as [[uy|]|]; try discriminate.
    destruct (revision (cVersion y)) as [[by_|]|]; try discriminate.
    destruct (update (cVersion x)) as [[ux|]|]; try discriminate.
    destruct (build (cVersion x)) as [bx|]; try discriminate.
    intros [= <-] [= <-]. unfold key_le.
    destruct (Z.eqb_spec my mx); [lia|destruct (Z.ltb_spec mx my); lia].
  - destruct (minor (cVersion y)) as [[uy|]|]; try discriminate.
    destruct (revision (cVersion y)) as [[by_|]|]; try discriminate.
    destruct (minor (cVersion x)) as [[ux|]|]; try discriminate.
    destruct (revision (cVersion x)) as [[bx|]|]; try discriminate.
    intros [= <-] [= <-]. cbn [strict_eq gt JS.num_eq JS.num_gt].
    unfold jre_priority, key_le.
    destruct (Z.eqb_spec my mx); [|destruct (Z.ltb_spec mx my); lia].
    destruct (Z.eqb_spec uy ux); [|destruct (Z.ltb_spec ux uy); lia].
    destruct (Z.eqb_spec by_ bx); [|destruct (Z.ltb_spec bx by_); lia].
    destruct (mentions_jdk (execPath y)); [destruct (mentions_jdk (execPath x))|]; lia.
Qed.

Lemma sort_insert_sorted (x : Candidate) (sorted : list Candidate) :
  is_Some (version_key x) ->
  Forall (fun c => is_Some (version_key c)) sorted ->
  StronglySorted not_older sorted ->
  StronglySorted not_older (sort_insert compareCandidates x sorted).
Proof.
  intros [kx Hkx] Hnum Hsorted.
  induction Hsorted as [|y rest Hrest IH Hy]; simpl.
  - constructor; constructor.
  - apply Forall_cons in Hnum as [[ky Hky] Hnum].
    destruct (compare_sign y x ky kx Hky Hkx) as [Hpos Hneg].
    destruct (Z.ltb_spec 0 (compareCandidates y x)) as [Hlt|Hge].
    + assert (Hxy : not_older x y) by (exists kx, ky; auto).
      constructor; [constructor; assumption|].
      constructor; [exact Hxy|].
      eapply List.Forall_impl; [|exact Hy].
      intros z Hz. eapply not_older_trans; eassumption.
    + assert (Hyx : not_older y x) by (exists ky, kx; auto).
      constructor; [apply IH; exact Hnum|].
      rewrite sort_insert_perm. constructor; assumption.
Qed.

Lemma sort_fold_sorted (l : list Candidate) :
  forall acc,
  Forall (fun c => is_Some (version_key c)) l ->
  Forall (fun c => is_Some (version_key c)) acc ->
  StronglySorted not_older acc ->
  StronglySorted not_older
    (fold_left (fun sorted x => sort_insert compareCandidates x sorted) l acc).
Proof.
  induction l as [|x l IH]; intros acc Hl Hacc Hs; [exact Hs|].
  apply Forall_cons in Hl as [Hx Hl]. simpl. apply IH; [exact Hl| |].
  - rewrite sort_insert_perm. constructor; assumption.
  - apply sort_insert_sorted; assumption.
Qed.

(** X10: [_sortValidJavaArray] on candidates whose version fields
    are numbers returns the same candidates, none lost and none
    repeated, with versions that never increase along the array: every
    candidate is at least as recent as all that follow it. *)
Theorem sortValidJavaArray_sorted (validArr : list Candidate) :
  Forall (fun c => is_Some (version_key c)) validArr ->
  _sortValidJavaArray validArr ≡ₚ validArr /\
  StronglySorted not_older (_sortValidJavaArray validArr).
Proof.
  intros Hnum. split; [apply sortValidJavaArray_perm|].
  unfold _sortValidJavaArray.
  apply sort_fold_sorted; [exact Hnum|constructor|constructor].
Qed.

End CandidateSorting.

Lemma validateJava_sound_witness :
  JavaGuard.validateJava "linux" (String.eqb "1") Terms.sample_exists
    (fun _ => Terms.java8_dump) (Some "/opt/jdk8") (fun _ => Some [])
    [] "/data" = Some (Some "/opt/jdk8/bin/java") /\
  exists root,
    "/opt/jdk8/bin/java" = JavaGuard.javaExecFromRoot "linux" root /\
    JavaGuard.isJavaExecPath "linux" "/opt/jdk8/bin/java" = true /\
    Terms.sample_exists "/opt/jdk8/bin/java" = true /\
    exists meta,
      JavaGuard._validateJVMProperties (String.eqb "1")
        ((fun _ => Terms.java8_dump)
           (Terms.properties_command "/opt/jdk8/bin/java")) = Some meta /\
      JavaGuard.valid meta = true.
Proof.
  split; [vm_compute; reflexivity|].
  apply (validateJava_sound "linux" (String.eqb "1") Terms.sample_exists
           (fun _ => Terms.java8_dump) (Some "/opt/jdk8") (fun _ => Some [])
           [] "/data" "/opt/jdk8/bin/java").
  vm_compute. reflexivity.
Defined.

Lemma validateJava_darwin_java_home_witness :
  JavaGuard.validateJava "darwin" (String.eqb "1") Terms.sample_exists
    (fun _ => Terms.java8_dump) (Some "/opt/jdk8") (fun _ => Some [])
    [] "/data" = None.
Proof.
  apply (validateJava_darwin_java_home "darwin" (String.eqb "1")
           Terms.sample_exists (fun _ => Terms.java8_dump) (Some "/opt/jdk8")
           (fun _ => Some []) [] "/data" "/opt/jdk8"); reflexivity.
Defined.

Lemma sortValidJavaArray_sorted_witness :
  JavaGuard._sortValidJavaArray [Terms.older_runtime; Terms.newer_runtime]
    ≡ₚ [Terms.older_runtime; Terms.newer_runtime] /\
  StronglySorted Terms.not_older
    (JavaGuard._sortValidJavaArray [Terms.older_runtime; Terms.newer_runtime]).
Proof.
  apply (sortValidJavaArray_sorted [Terms.older_runtime; Terms.newer_runtime]).
  repeat constructor; eexists; reflexivity.
Defined.

(** ** The runtime download *)

Section RuntimeDownload.

Import JavaGuard Terms.

Lemma startsWith_nil (s : string) : JS.startsWith s EmptyString = true.
Proof. destruct s; reflexivity. Qed.

Lemma find_last_free (c : ascii) (s : string) :
  free_of c s = true ->
  forall i, JS.find_last_from i s (String c EmptyString) = None.
Proof.
  induction s as [|a s IH]; intros H i; [reflexivity|].
  simpl in H. apply andb_true_iff in H as [Ha Hs]. apply negb_true_iff in Ha.
  simpl. rewrite (IH Hs), Ha. reflexivity.
Qed.

Lemma find_last_app (c : ascii) (p rest : string) :
  free_of c rest = true ->
  forall i,
  JS.find_last_from i (p +:+ String c rest) (String c EmptyString)
    = Some (i + JS.length p).
Proof.
  intros Hrest. induction p as [|a p IH]; intros i.
  - rewrite append_nil_l. simpl. rewrite (find_last_free c rest Hrest).
    rewrite Ascii.eqb_refl, startsWith_nil. simpl. f_equal.
    unfold JS.length. simpl. lia.
  - rewrite append_cons. simpl. rewrite IH. f_equal.
    unfold JS.length. cbn [String.length]. lia.
Qed.

Lemma length_app (s t : string) :
  String.length (s +:+ t) = (String.length s + String.length t)%nat.
Proof.
  induction s as [|a s IH]; [reflexivity|].
  rewrite append_cons. simpl. rewrite IH. reflexivity.
Qed.

Lemma drop_app (p t : string) : JS.drop (String.length p) (p +:+ t) = t.
Proof.
  induction p as [|a p IH]; [reflexivity|]. rewrite append_cons. exact IH.
Qed.

Lemma substring_from_app (p : string) (c : ascii) (rest : string) :
  JS.substring_from (p +:+ String c rest) (JS.length p + 1) = rest.
Proof.
  unfold JS.substring_from, JS.substring, JS.length.
  rewrite length_app. cbn [String.length].
  match goal with
  | |- JS.take (Z.to_nat ?a) (JS.drop (Z.to_nat ?b) _) = _ =>
      replace (Z.to_nat a) with (String.length rest) by lia;
      replace (Z.to_nat b) with (String.length (p +:+ String c EmptyString))
        by (rewrite length_app; simpl; lia)
  end.
  replace (p +:+ String c rest) with ((p +:+ String c EmptyString) +:+ rest)
    by (rewrite append_assoc; reflexivity).
  rewrite drop_app. apply take_all.
Qed.

Lemma endsWith_last_char (s suf : string) (a : ascii) :
  JS.endsWith s (String a suf) = true ->
  NodePath.last_char s = NodePath.last_char (String a suf).
Proof.
  induction s as [|c s IH]; [discriminate|].
  change (JS.endsWith (String c s) (String a suf))
    with (if String.eqb (String c s) (String a suf) then true
          else JS.endsWith s (String a suf)).
  destruct (String.eqb_spec (String c s) (String a suf)) as [->|_]; [reflexivity|].
  intros H. rewrite <- (IH H).
  destruct s; [discriminate H|reflexivity].
Qed.

Variable axios_head : string -> HeadResult.
Variable axios_get : string -> GetResult.

(** X12: on macOS [_latestOpenJDK] asks for the Corretto archive of
    the requested major version; what it resolves to, if anything, has
    the archive address as its [uri] and the last segment of that
    address, [amazon-corretto-{major}-x64-macos-jdk.tar.gz], as its
    name, which does not end in [zip]. *)
Theorem latestOpenJDK_macos (major_ : string) (data : OpenJDKData) :
  free_of "/" major_ = true ->
  _latestOpenJDK "darwin" axios_head axios_get major_ = Some data ->
  uri data = "https://corretto.aws/downloads/latest/" +:+ corretto_macos_name major_ /\
  od_name data = corretto_macos_name major_ /\
  JS.endsWith (od_name data) "zip" = false.
Proof.
  intros Hfree. unfold _latestOpenJDK, _latestCorretto, corretto_url.
  cbn [String.eqb Ascii.eqb Bool.eqb].
  set (rest := corretto_macos_name major_).
  assert (Hurl : "https://corretto.aws/downloads/latest/amazon-corretto-" +:+ major_
                 +:+ "-x64-" +:+ "macos" +:+ "-jdk." +:+ "tar.gz"
                 = "https://corretto.aws/downloads/latest" +:+ String "/" rest).
  { unfold rest, corretto_macos_name.
    repeat first [rewrite append_assoc | rewrite append_cons | rewrite append_nil_l].
    reflexivity. }
  rewrite Hurl.
  assert (Hrest : free_of "/" rest = true).
  { unfold rest, corretto_macos_name.
    repeat (rewrite ?free_of_app; cbn [free_of]). rewrite Hfree. reflexivity. }
  destruct (axios_head _) as [|status header]; [discriminate|].
  destruct (status =? 200); [|discriminate].
  intros [= <-]. cbn [uri od_name].
  unfold JS.lastIndexOf. rewrite (find_last_app "/" _ rest Hrest 0).
  rewrite Z.add_0_l, substring_from_app.
  split; [reflexivity|]. split; [reflexivity|].
  apply not_true_is_false. intros Hends.
  apply endsWith_last_char in Hends.
  unfold rest, corretto_macos_name in Hends.
  replace ("amazon-corretto-" +:+ major_ +:+ "-x64-macos-jdk.tar.gz")
    with (("amazon-corretto-" +:+ major_) +:+ String "-" "x64-macos-jdk.tar.gz")
    in Hends by (rewrite append_assoc; reflexivity).
  rewrite last_char_app in Hends. discriminate Hends.
Qed.

End RuntimeDownload.

Lemma latestOpenJDK_macos_witness :
  JavaGuard.uri
    {| JavaGuard.uri :=
         "https://corretto.aws/downloads/latest/amazon-corretto-8-x64-macos-jdk.tar.gz";
       JavaGuard.od_size := Num 100;
       JavaGuard.od_name := "amazon-corretto-8-x64-macos-jdk.tar.gz" |}
    = "https://corretto.aws/downloads/latest/" +:+ Terms.corretto_macos_name "8" /\
  JavaGuard.od_name
    {| JavaGuard.uri :=
         "https://corretto.aws/downloads/latest/amazon-corretto-8-x64-macos-jdk.tar.gz";
       JavaGuard.od_size := Num 100;
       JavaGuard.od_name := "amazon-corretto-8-x64-macos-jdk.tar.gz" |}
    = Terms.corretto_macos_name "8" /\
  JS.endsWith
    (JavaGuard.od_name
       {| JavaGuard.uri :=
            "https://corretto.aws/downloads/latest/amazon-corretto-8-x64-macos-jdk.tar.gz";
          JavaGuard.od_size := Num 100;
          JavaGuard.od_name := "amazon-corretto-8-x64-macos-jdk.tar.gz" |})
    "zip" = false.
Proof.
  apply (latestOpenJDK_macos
           (fun _ => JavaGuard.HeadResponse 200 (Some "100"))
           (fun _ => JavaGuard.GetFailed) "8");
    vm_compute; reflexivity.
Defined.

(** ** Validation passes, continued *)

Section ValidationQueues.

Import AssetGuard Reading Terms.

Variables (platform arch : string) (digest : string -> string -> string).

Lemma sum_sizes_app (q1 q2 : list Asset) :
  sum_sizes (q1 ++ q2) = sum_sizes q1 + sum_sizes q2.
Proof.
  unfold sum_sizes. induction q1 as [|a q1 IH]; simpl; [reflexivity|].
  rewrite IH. lia.
Qed.

(** The asset iteration: what it adds to the queue are the entries
    that fail the local validation, in the order of the index, and the
    size grows by their sizes. *)
Lemma validateAssets_loop_queue (fs_ : FileSystem) (cp : string) (total : Z)
    (objects : list (string * IndexObject)) :
  forall acc q sz ev,
  fst (fst (validateAssets_loop platform digest fs_ cp total objects acc q sz ev))
    = q ++ List.filter (locally_invalid digest fs_)
             (map (fun kv => index_asset platform cp (fst kv) (snd kv)) objects) /\
  snd (fst (validateAssets_loop platform digest fs_ cp total objects acc q sz ev))
    = sz + sum_sizes
             (List.filter (locally_invalid digest fs_)
                (map (fun kv => index_asset platform cp (fst kv) (snd kv)) objects)).
Proof.
  induction objects as [|[key value] rest IH]; intros acc q sz ev.
  - cbn [validateAssets_loop map List.filter fst snd]. rewrite app_nil_r.
    split; [reflexivity|]. unfold sum_sizes. simpl. lia.
  - cbn [validateAssets_loop map List.filter fst snd].
    set (ast := index_asset platform cp key value).
    change (locally_invalid digest fs_ ast)
      with (negb (_validateLocal digest fs_ (to ast) "sha1" (hash ast))).
    destruct (_validateLocal digest fs_ (to ast) "sha1" (hash ast)); cbn [negb].
    + apply IH.
    + destruct (IH (acc + 1) (q ++ [ast]) (sz + size ast)
                  (ev ++ [EmitProgress "assets" (acc + 1) (Num total)]))
        as [-> ->].
      rewrite <- app_assoc. split; [reflexivity|].
      unfold sum_sizes. cbn [fold_right]. lia.
Qed.

Lemma validateLibraries_loop_queue (fs_ : FileSystem) (libPath : string)
    (libArr : list LibraryEntry) :
  forall q sz q' sz',
  validateLibraries_loop platform arch digest fs_ libPath libArr q sz = Some (q', sz') ->
  q' = q ++ List.filter (locally_invalid digest fs_)
         (flat_map
            (fun lib =>
               if Library.validateRules platform (rules lib) (natives lib) then
                 match resolve_artifact platform arch lib with
                 | Some art => [library_asset platform libPath lib art]
                 | None => []
                 end
               else []) libArr) /\
  sz' = sz + sum_sizes
         (List.filter (locally_invalid digest fs_)
            (flat_map
               (fun lib =>
                  if Library.validateRules platform (rules lib) (natives lib) then
                    match resolve_artifact platform arch lib with
                    | Some art => [library_asset platform libPath lib art]
                    | None => []
                    end
                  else []) libArr)).
Proof.
  induction libArr as [|lib rest IH]; intros q sz q' sz' H.
  - cbn in H. injection H as <- <-. cbn [flat_map List.filter]. rewrite app_nil_r.
    split; [reflexivity|]. unfold sum_sizes. simpl. lia.
  - cbn [validateLibraries_loop] in H. cbn [flat_map].
    destruct (Library.validateRules platform (rules lib) (natives lib));
      [|apply IH; exact H].
    destruct (resolve_artifact platform arch lib) as [art|]; [|discriminate].
    cbn [app List.filter].
    set (libItm := library_asset platform libPath lib art) in *.
    change (locally_invalid digest fs_ libItm)
      with (negb (_validateLocal digest fs_ (to libItm) "sha1" (hash libItm))).
    destruct (_validateLocal digest fs_ (to libItm) "sha1" (hash libItm));
      cbn [negb] in *.
    + apply IH; exact H.
    + apply IH in H as [-> ->]. rewrite <- app_assoc.
      split; [reflexivity|]. unfold sum_sizes. cbn [fold_right]. lia.
Qed.

(** The tracker a pass installs. *)
Lemma run_pass_tracker (p : ValidationPass) (w w' : World) :
  run_pass platform arch digest p w = Some w' ->
  let added :=
    List.filter (locally_invalid digest (fs w))
      (pass_artifacts platform arch p (commonPath (guard w))) in
  guard w' =
    set_tracker (pass_identifier p) (new_DLTracker added (sum_sizes added)) (guard w) /\
  fs w' = fs w.
Proof.
  destruct p as [objects|versionData]; simpl; intros H.
  - injection H as <-. unfold _assetChainValidateAssets.
    pose proof (validateAssets_loop_queue (fs w) (commonPath (guard w))
                  (Z.of_nat (List.length objects)) objects 0 [] 0 []) as Hq.
    destruct (validateAssets_loop _ _ _ _ _ _ _ _ _ _) as [[q sz] ev].
    cbn [fst snd app] in Hq. destruct Hq as [-> ->]. split; reflexivity.
  - unfold validateLibraries in H.
    destruct (validateLibraries_loop _ _ _ _ _ _ _ _) as [[q sz]|] eqn:Hloop;
      [|discriminate].
    injection H as <-. apply validateLibraries_loop_queue in Hloop as [-> ->].
    split; reflexivity.
Qed.

(** X14: the queue a validation pass builds is exactly the list of
    the artifacts it looks at that fail the local validation (missing
    file or other hash), in the order of the index or manifest, one
    entry per declaration. *)
Theorem pass_queue_is_the_invalid_artifacts
    (p : ValidationPass) (w w' : World) :
  run_pass platform arch digest p w = Some w' ->
  pass_queue p (guard w') =
    List.filter (locally_invalid digest (fs w))
      (pass_artifacts platform arch p (commonPath (guard w))).
Proof.
  intros H. apply run_pass_tracker in H as [-> _].
  destruct p; reflexivity.
Qed.

Lemma set_tracker_twice (i : Identifier) (t t' : DLTracker) (g : Guard) :
  set_tracker i t (set_tracker i t' g) = set_tracker i t g.
Proof. destruct i; reflexivity. Qed.

Lemma commonPath_set_tracker (i : Identifier) (t : DLTracker) (g : Guard) :
  commonPath (set_tracker i t g) = commonPath g.
Proof. reflexivity. Qed.

Lemma run_pass_returns_again (p : ValidationPass) (w w' : World) :
  run_pass platform arch digest p w = Some w' ->
  is_Some (run_pass platform arch digest p w').
Proof.
  intros H. pose proof (run_pass_tracker p w w' H) as [Hg Hfs].
  destruct p as [objects|versionData]; simpl in *; [eexists; reflexivity|].
  unfold validateLibraries in *.
  rewrite Hg, Hfs. simpl.
  destruct (validateLibraries_loop _ _ _ _ _ _ _ _) as [[q sz]|]; [|discriminate].
  eexists. reflexivity.
Qed.

(** X15: a validation pass replaces its queue instead of adding to
    it: run again on its own result it completes and leaves the guard
    (queue and size included) and the files as they are. *)
Theorem run_pass_idempotent (p : ValidationPass) (w w' : World) :
  run_pass platform arch digest p w = Some w' ->
  exists w'',
    run_pass platform arch digest p w' = Some w'' /\
    guard w'' = guard w' /\ fs w'' = fs w'.
Proof.
  intros H. destruct (run_pass_returns_again p w w' H) as [w'' H'].
  exists w''. split; [exact H'|].
  apply run_pass_tracker in H as [Hg Hfs].
  apply run_pass_tracker in H' as [Hg' Hfs'].
  split; [|exact Hfs'].
  rewrite Hg', Hfs, Hg, commonPath_set_tracker. apply set_tracker_twice.
Qed.

Lemma validateClient_step (versionData : VersionData) (w : World) :
  validateClient platform digest versionData false w =
    if locally_invalid digest (fs w)
         (client_asset platform (commonPath (guard w)) versionData)
    then with_guard
           (enqueue_file (client_asset platform (commonPath (guard w)) versionData)
              (guard w)) w
    else w.
Proof.
  unfold validateClient, locally_invalid, locally_valid, client_asset.
  cbn [to hash new_Asset]. rewrite orb_false_r. reflexivity.
Qed.

Lemma validateLogConfig_step (versionData : VersionData) (w : World) :
  validateLogConfig platform digest versionData w =
    if locally_invalid digest (fs w)
         (log_config_asset platform (commonPath (guard w)) versionData)
    then with_guard
           (enqueue_file (log_config_asset platform (commonPath (guard w)) versionData)
              (guard w)) w
    else w.
Proof. reflexivity. Qed.

Lemma enqueue_file_twice (a b : Asset) (g : Guard) :
  enqueue_file b (enqueue_file a g) =
    set_tracker Files
      {| dlqueue := dlqueue (files g) ++ [a; b];
         dlsize := dlsize (files g) + sum_sizes [a; b];
         callback := callback (files g) |} g.
Proof.
  destruct g as [tot prog ass libs [q sz cb] forg jav ex cp jx].
  unfold enqueue_file, set_tracker, sum_sizes. cbn.
  f_equal. f_equal; [rewrite <- app_assoc; reflexivity|lia].
Qed.

Lemma enqueue_file_once (a : Asset) (g : Guard) :
  enqueue_file a g =
    set_tracker Files
      {| dlqueue := dlqueue (files g) ++ [a];
         dlsize := dlsize (files g) + sum_sizes [a];
         callback := callback (files g) |} g.
Proof.
  destruct g as [tot prog ass libs [q sz cb] forg jav ex cp jx].
  unfold enqueue_file, set_tracker, sum_sizes. cbn.
  f_equal. f_equal. lia.
Qed.

Lemma enqueue_nothing (g : Guard) :
  g = set_tracker Files
        {| dlqueue := dlqueue (files g) ++ [];
           dlsize := dlsize (files g) + sum_sizes [];
           callback := callback (files g) |} g.
Proof.
  destruct g as [tot prog ass libs [q sz cb] forg jav ex cp jx].
  unfold set_tracker, sum_sizes. cbn. rewrite app_nil_r, Z.add_0_r. reflexivity.
Qed.

Lemma validateMiscellaneous_files (versionData : VersionData) (w : World) :
  guard (validateMiscellaneous platform digest versionData w) =
    set_tracker Files
      {| dlqueue :=
           dlqueue (files (guard w))
           ++ List.filter (locally_invalid digest (fs w))
                [client_asset platform (commonPath (guard w)) versionData;
                 log_config_asset platform (commonPath (guard w)) versionData];
         dlsize :=
           dlsize (files (guard w))
           + sum_sizes
               (List.filter (locally_invalid digest (fs w))
                  [client_asset platform (commonPath (guard w)) versionData;
                   log_config_asset platform (commonPath (guard w)) versionData]);
         callback := callback (files (guard w)) |} (guard w) /\
  fs (validateMiscellaneous platform digest versionData w) = fs w /\
  trace (validateMiscellaneous platform digest versionData w) = trace w.
Proof.
  unfold validateMiscellaneous. rewrite validateClient_step.
  cbn [List.filter].
  destruct (locally_invalid digest (fs w) (client_asset _ _ _)) eqn:Hc;
    rewrite validateLogConfig_step; cbn [with_guard fs guard trace];
    change (commonPath (enqueue_file ?a ?g)) with (commonPath g);
    destruct (locally_invalid digest (fs w) (log_config_asset _ _ _)) eqn:Hl;
    cbn [with_guard fs guard trace]; (split; [|split; reflexivity]).
  - apply enqueue_file_twice.
  - apply enqueue_file_once.
  - apply enqueue_file_once.
  - apply enqueue_nothing.
Qed.

(** X13: the validation sequence of [validateEverything] (assets,
    libraries, then the miscellaneous files) leaves each of the three
    trackers with a size that is the sum of the sizes of its queue,
    provided the [files] tracker, which the miscellaneous pass does not
    reset, had that property before. *)
Theorem validation_keeps_sizes_consistent
    (objects : list (string * IndexObject)) (versionData : VersionData)
    (w w1 : World) :
  size_consistent (files (guard w)) ->
  validateLibraries platform arch digest versionData
    (_assetChainValidateAssets platform digest objects w) = Some w1 ->
  let w2 := validateMiscellaneous platform digest versionData w1 in
  size_consistent (assets (guard w2)) /\
  size_consistent (libraries (guard w2)) /\
  size_consistent (files (guard w2)).
Proof.
  intros Hfiles Hlib w2.
  pose proof (run_pass_tracker (AssetPass objects) w _ eq_refl) as [Ha Hfs0].
  pose proof (run_pass_tracker (LibraryPass versionData) _ w1 Hlib) as [Hl Hfs1].
  destruct (validateMiscellaneous_files versionData w1) as (Hm & _ & _).
  unfold w2. rewrite Hm, Hl, Ha. unfold size_consistent in *. simpl.
  split; [reflexivity|]. split; [reflexivity|].
  rewrite sum_sizes_app, Hfiles. reflexivity.
Qed.

Lemma repeated_validateMiscellaneous (versionData : VersionData) (n : nat) :
  forall w,
  dlqueue (files (guard (repeated n (validateMiscellaneous platform digest versionData) w)))
    = dlqueue (files (guard w))
      ++ copies n
           (List.filter (locally_invalid digest (fs w))
              [client_asset platform (commonPath (guard w)) versionData;
               log_config_asset platform (commonPath (guard w)) versionData]) /\
  dlsize (files (guard (repeated n (validateMiscellaneous platform digest versionData) w)))
    = dlsize (files (guard w))
      + Z.of_nat n
        * sum_sizes
            (List.filter (locally_invalid digest (fs w))
               [client_asset platform (commonPath (guard w)) versionData;
                log_config_asset platform (commonPath (guard w)) versionData]).
Proof.
  induction n as [|n IH]; intros w.
  - cbn [repeated copies]. rewrite app_nil_r. split; [reflexivity|lia].
  - cbn [repeated copies].
    destruct (validateMiscellaneous_files versionData w) as (Hg & Hfs & _).
    destruct (IH (validateMiscellaneous platform digest versionData w)) as (Hq & Hsz).
    rewrite Hq, Hsz, Hfs, Hg.
    cbn [commonPath set_tracker files dlqueue dlsize].
    rewrite <- app_assoc. split; [reflexivity|lia].
Qed.

(** X16: the miscellaneous pass adds to the [files] queue and never
    resets it: after [n] runs without a download in between, the queue
    holds [n] copies of the client jar and log configuration that fail
    the local validation, behind what it held before, and the size has
    grown by [n] times their sizes. *)
Theorem validateMiscellaneous_accumulates
    (versionData : VersionData) (n : nat) (w : World) :
  let added :=
    List.filter (locally_invalid digest (fs w))
      [client_asset platform (commonPath (guard w)) versionData;
       log_config_asset platform (commonPath (guard w)) versionData] in
  let w' := repeated n (validateMiscellaneous platform digest versionData) w in
  dlqueue (files (guard w')) = dlqueue (files (guard w)) ++ copies n added /\
  dlsize (files (guard w')) = dlsize (files (guard w)) + Z.of_nat n * sum_sizes added.
Proof.
  intros added w'. apply repeated_validateMiscellaneous.
Qed.

End ValidationQueues.

Lemma pass_queue_is_the_invalid_artifacts_witness :
  exists w',
    Reading.run_pass "linux" "x64" Reading.sample_digest
      (Reading.AssetPass Reading.sample_index) (Reading.sample_guard [] []) = Some w' /\
    AssetGuard.dlqueue (AssetGuard.assets (AssetGuard.guard w')) =
      List.filter (Terms.locally_invalid Reading.sample_digest ∅)
        (Reading.pass_artifacts "linux" "x64"
           (Reading.AssetPass Reading.sample_index) "/c").
Proof.
  eexists. split; [reflexivity|].
  apply (pass_queue_is_the_invalid_artifacts "linux" "x64" Reading.sample_digest
           (Reading.AssetPass Reading.sample_index) (Reading.sample_guard [] [])).
  reflexivity.
Defined.

Lemma run_pass_idempotent_witness :
  exists w' w'',
    Reading.run_pass "linux" "x64" Reading.sample_digest
      (Reading.LibraryPass Reading.foo_manifest) (Reading.sample_guard [] []) = Some w' /\
    Reading.run_pass "linux" "x64" Reading.sample_digest
      (Reading.LibraryPass Reading.foo_manifest) w' = Some w'' /\
    AssetGuard.guard w'' = AssetGuard.guard w' /\
    AssetGuard.fs w'' = AssetGuard.fs w'.
Proof.
  eexists.
  destruct (run_pass_idempotent "linux" "x64" Reading.sample_digest
              (Reading.LibraryPass Reading.foo_manifest)
              (Reading.sample_guard [] []) _ eq_refl) as (w'' & H).
  exists w''. split; [reflexivity|exact H].
Defined.

Lemma validation_keeps_sizes_consistent_witness :
  exists w1,
    AssetGuard.validateLibraries "linux" "x64" Reading.sample_digest
      Reading.foo_manifest
      (AssetGuard._assetChainValidateAssets "linux" Reading.sample_digest
         Reading.sample_index (Reading.sample_guard [] [])) = Some w1 /\
    Terms.size_consistent
      (AssetGuard.assets
         (AssetGuard.guard
            (AssetGuard.validateMiscellaneous "linux" Reading.sample_digest
               Reading.foo_manifest w1))) /\
    Terms.size_consistent
      (AssetGuard.libraries
         (AssetGuard.guard
            (AssetGuard.validateMiscellaneous "linux" Reading.sample_digest
               Reading.foo_manifest w1))) /\
    Terms.size_consistent
      (AssetGuard.files
         (AssetGuard.guard
            (AssetGuard.validateMiscellaneous "linux" Reading.sample_digest
               Reading.foo_manifest w1))).
Proof.
  eexists. split; [reflexivity|].
  apply (validation_keeps_sizes_consistent "linux" "x64" Reading.sample_digest
           Reading.sample_index Reading.foo_manifest (Reading.sample_guard [] [])).
  - reflexivity.
  - reflexivity.
Defined.

(** ** Downloaded files *)

Section DownloadedFiles.

Import AssetGuard Reading Terms.

Variables (platform arch : string) (digest : string -> string -> string).
Variable fetch : string -> FetchResult.

Lemma set_totals_twice (t t' : jsnum) (p p' : Z) (g : Guard) :
  set_totals t p (set_totals t' p' g) = set_totals t p g.
Proof. reflexivity. Qed.

(** The guard after the body of one answered fetch: the byte counter
    has grown by the length of the body; only the two totals changed. *)
Lemma complete_download_guard
    (dlTracker : DLTracker) (asset : Asset)
    (contentLength : jsnum) (chunks : list string) (w : World) :
  exists total',
    guard (complete_download digest dlTracker asset contentLength chunks w) =
      set_totals total' (progress (guard w) + total_length chunks) (guard w).
Proof.
  unfold complete_download.
  destruct (negb (JS.num_eq contentLength (Num (size asset)))).
  - destruct (callback dlTracker);
      match goal with
      | |- context [if ?b then _ else _] => destruct b
      end; simpl; rewrite receive_chunks_guard; simpl; eexists; reflexivity.
  - destruct (callback dlTracker); simpl; rewrite receive_chunks_guard;
      eexists; reflexivity.
Qed.

Lemma written_cons (a : Asset) (q : list Asset) (fs_ : FileSystem) :
  written fetch (a :: q) fs_ = written fetch q (<[to a := body fetch a]> fs_).
Proof. reflexivity. Qed.

(** A queue whose fetches are all answered is processed to its end:
    every body is written to its destination and counted. *)
Lemma download_loop_answered (dlTracker : DLTracker) (q : list Asset) :
  Forall (answered fetch) q ->
  forall (w : World) (err : bool),
  exists w' total',
    download_loop digest fetch dlTracker q err w = (w', err, true) /\
    fs w' = written fetch q (fs w) /\
    guard w' =
      set_totals total' (progress (guard w) + received fetch q) (guard w) /\
    exists evs, trace w' = trace w ++ evs.
Proof.
  induction 1 as [|a rest (cl & chunks & Ha) _ IH]; intros w err.
  - exists w, (totaldlsize (guard w)). simpl. rewrite Z.add_0_r.
    split; [reflexivity|]. split; [reflexivity|].
    split; [destruct (guard w); reflexivity|].
    exists (@nil Event). rewrite app_nil_r. reflexivity.
  - cbn [download_loop]. unfold download_asset. rewrite Ha.
    change (200 =? 200) with true. cbv iota.
    destruct (complete_download_spec digest dlTracker a cl chunks w) as (Hfs & Htr).
    destruct (complete_download_guard dlTracker a cl chunks w) as (t1 & Hg).
    set (w1 := complete_download digest dlTracker a cl chunks w) in *.
    destruct (IH w1 err) as (w' & t2 & Hloop & Hfs' & Hg' & evs & Htr').
    exists w', t2. rewrite Hloop. split; [reflexivity|].
    split.
    { rewrite Hfs', Hfs, written_cons. unfold body. rewrite Ha. reflexivity. }
    split.
    { rewrite Hg', Hg. cbn [progress set_totals]. cbn [received fold_right].
      unfold body_length at 1. rewrite Ha.
      unfold set_totals. cbn. f_equal. fold (received fetch rest). lia. }
    eexists. rewrite Htr', Htr, <- app_assoc. reflexivity.
Qed.

Lemma finish_downloads_state (w : World) :
  fs (finish_downloads w) = fs w /\
  progress (guard (finish_downloads w)) = progress (guard w) /\
  commonPath (guard (finish_downloads w)) = commonPath (guard w) /\
  (forall i, tracker i (guard (finish_downloads w)) = tracker i (guard w)) /\
  exists evs, trace (finish_downloads w) = trace w ++ evs.
Proof.
  unfold finish_downloads.
  destruct (JS.num_ge _ _); [destruct (extractQueue (guard w))|];
    (split; [reflexivity|]); (split; [reflexivity|]); (split; [reflexivity|]);
    (split; [intros i; destruct i; reflexivity|]).
  - eexists. reflexivity.
  - eexists. cbn [trace emit with_guard]. rewrite <- !app_assoc. reflexivity.
  - exists (@nil Event). rewrite app_nil_r. reflexivity.
Qed.

(** The state after a category whose fetches are all answered. *)
Lemma startAsyncProcess_answered (i : Identifier) (w : World) :
  dlqueue (tracker i (guard w)) <> [] ->
  Forall (answered fetch) (dlqueue (tracker i (guard w))) ->
  exists w',
    startAsyncProcess digest fetch i w = (w', Returned true) /\
    fs w' = written fetch (dlqueue (tracker i (guard w))) (fs w) /\
    progress (guard w') =
      progress (guard w) + received fetch (dlqueue (tracker i (guard w))) /\
    commonPath (guard w') = commonPath (guard w) /\
    tracker i (guard w') = new_DLTracker [] 0 /\
    (forall j, i <> j -> tracker j (guard w') = tracker j (guard w)) /\
    In (ConsoleLog (AllProcessed (identifier_name i))) (trace w').
Proof.
  intros Hne Hans. unfold startAsyncProcess.
  set (t := tracker i (guard w)) in *. set (q := dlqueue t) in *.
  assert (Hlen : (0 <? Z.of_nat (List.length q)) = true).
  { destruct q; [contradiction|]. reflexivity. }
  rewrite Hlen.
  destruct (download_loop_answered t q Hans
              (emit (ConsoleLog (DLQueueDump q)) w) false)
    as (w1 & t1 & Hloop & Hfs & Hg & evs & Htr).
  rewrite Hloop.
  set (w3 := with_guard _ _).
  destruct (finish_downloads_state w3) as (Hfs3 & Hp3 & Hc3 & Ht3 & evs3 & Htr3).
  eexists. split; [reflexivity|].
  split; [rewrite Hfs3; exact Hfs|].
  split; [rewrite Hp3; unfold w3; simpl; rewrite Hg; reflexivity|].
  split; [rewrite Hc3; unfold w3; simpl; rewrite Hg; reflexivity|].
  split; [rewrite Ht3; unfold w3; simpl; apply tracker_set_same|].
  split.
  - intros j Hj. rewrite Ht3. unfold w3. simpl.
    rewrite (tracker_set_other i j _ _ Hj), Hg. destruct j; reflexivity.
  - rewrite Htr3. apply in_or_app. left. unfold w3. simpl.
    apply in_or_app. right. left. reflexivity.
Qed.

Lemma written_untouched (q : list Asset) (p : string) :
  (forall b, In b q -> to b <> p) ->
  forall fs_, written fetch q fs_ !! p = fs_ !! p.
Proof.
  induction q as [|a q IH]; intros Hq fs_; [reflexivity|].
  rewrite written_cons, IH by (intros b Hb; apply Hq; right; exact Hb).
  apply lookup_insert_ne. apply Hq. left. reflexivity.
Qed.

Lemma written_last (q : list Asset) (p : string) :
  (exists b, In b q /\ to b = p) ->
  forall fs_,
  exists b, In b q /\ to b = p /\ written fetch q fs_ !! p = Some (body fetch b).
Proof.
  induction q as [|a q IH]; intros (b & Hb & Hp) fs_; [destruct Hb|].
  rewrite written_cons.
  destruct (decide (Exists (fun b => to b = p) q)) as [Hex|Hnone].
  - apply Exists_exists in Hex.
    assert (Hex' : exists b0, In b0 q /\ to b0 = p).
    { destruct Hex as (b0 & Hb0 & Hp0). exists b0. split; [|exact Hp0].
      apply list_elem_of_In. exact Hb0. }
    destruct (IH Hex' (<[to a := body fetch a]> fs_)) as (b' & Hb' & Hp' & Hl).
    exists b'. split; [right; exact Hb'|]. split; assumption.
  - assert (Hq : forall b0, In b0 q -> to b0 <> p).
    { intros b0 Hb0 Hp0. apply Hnone. apply Exists_exists. exists b0.
      split; [apply list_elem_of_In; exact Hb0|exact Hp0]. }
    destruct Hb as [<-|Hb]; [|destruct (Hq b Hb Hp)].
    exists a. split; [left; reflexivity|]. split; [exact Hp|].
    rewrite (written_untouched q p Hq). subst p. apply lookup_insert_eq.
Qed.


Lemma pass_artifacts_type (p : ValidationPass) (cp : string) (a : Asset) :
  In a (pass_artifacts platform arch p cp) -> type a = None.
Proof.
  destruct p as [objects|versionData]; simpl.
  - intros Hin. apply in_map_iff in Hin as (kv & <- & _). reflexivity.
  - intros Hin. apply in_flat_map in Hin as (lib & _ & Hin).
    destruct (Library.validateRules platform (rules lib) (natives lib)); [|destruct Hin].
    destruct (resolve_artifact platform arch lib); [|destruct Hin].
    destruct Hin as [<-|[]]. reflexivity.
Qed.

Lemma validateLibraries_loop_returns_again
    (fs1 fs2 : FileSystem) (libPath : string) (libArr : list LibraryEntry) :
  forall q1 s1 q2 s2,
  is_Some (validateLibraries_loop platform arch digest fs1 libPath libArr q1 s1) ->
  is_Some (validateLibraries_loop platform arch digest fs2 libPath libArr q2 s2).
Proof.
  induction libArr as [|lib rest IH]; intros q1 s1 q2 s2 H; [eexists; reflexivity|].
  cbn [validateLibraries_loop] in *.
  destruct (Library.validateRules platform (rules lib) (natives lib));
    [|eapply IH; exact H].
  destruct (resolve_artifact platform arch lib) as [art|];
    [|destruct H; discriminate].
  destruct (negb (_validateLocal digest fs1 _ _ _));
    destruct (negb (_validateLocal digest fs2 _ _ _)); eapply IH; exact H.
Qed.

Lemma run_pass_returns_elsewhere (p : ValidationPass) (w w1 w2 : World) :
  run_pass platform arch digest p w = Some w1 ->
  commonPath (guard w2) = commonPath (guard w) ->
  is_Some (run_pass platform arch digest p w2).
Proof.
  destruct p as [objects|versionData]; simpl; intros H Hcp; [eexists; reflexivity|].
  unfold validateLibraries in *. rewrite Hcp.
  destruct (validateLibraries_loop platform arch digest (fs w) _ _ [] 0)
    as [r|] eqn:Hloop; [|discriminate].
  destruct (validateLibraries_loop_returns_again (fs w) (fs w2)
              (NodePath.join platform [commonPath (guard w); "libraries"])
              (vd_libraries versionData) [] 0 [] 0)
    as [[q sz] ->]; [rewrite Hloop; eexists; reflexivity|].
  eexists. reflexivity.
Qed.

Lemma locally_valid_lookup (fs1 fs2 : FileSystem) (a : Asset) :
  fs2 !! to a = fs1 !! to a ->
  locally_valid digest fs2 a = locally_valid digest fs1 a.
Proof. unfold locally_valid, _validateLocal. intros ->. reflexivity. Qed.

Lemma filter_nil_all {A} (f : A -> bool) (l : list A) :
  (forall x, In x l -> f x = false) -> List.filter f l = [].
Proof.
  induction l as [|x l IH]; intros H; [reflexivity|]. simpl.
  rewrite (H x (or_introl eq_refl)). apply IH. intros y Hy. apply H. right. exact Hy.
Qed.


(** X18: downloading what a validation pass queued leaves nothing to
    download.  When every queued artifact is answered with status 200
    and a body that has its expected hash (artifacts that share a
    destination expecting the same hash), then after
    [startAsyncProcess] on the category of the pass, the same pass run
    again builds an empty queue. *)
Theorem downloaded_queue_validates (p : ValidationPass) (w w1 : World) :
  run_pass platform arch digest p w = Some w1 ->
  Forall (answered fetch) (pass_queue p (guard w1)) ->
  Forall (fun a => hash_agrees digest a (body fetch a) = true)
    (pass_queue p (guard w1)) ->
  (forall a b,
     In a (pass_artifacts platform arch p (commonPath (guard w))) ->
     In b (pass_artifacts platform arch p (commonPath (guard w))) ->
     to a = to b -> hash a = hash b) ->
  exists w2 r w3,
    startAsyncProcess digest fetch (pass_identifier p) w1 = (w2, Returned r) /\
    run_pass platform arch digest p w2 = Some w3 /\
    pass_queue p (guard w3) = [].
Proof.
  intros Hpass Hans Hhash Hsame.
  pose proof (run_pass_tracker platform arch digest p w w1 Hpass) as [Hg1 Hfs1].
  set (arts := pass_artifacts platform arch p (commonPath (guard w))) in *.
  set (q1 := List.filter (locally_invalid digest (fs w)) arts) in *.
  assert (Hq1 : pass_queue p (guard w1) = q1).
  { rewrite Hg1. destruct p; reflexivity. }
  assert (Ht1 : dlqueue (tracker (pass_identifier p) (guard w1)) = q1).
  { rewrite <- Hq1. destruct p; reflexivity. }
  assert (Hcp1 : commonPath (guard w1) = commonPath (guard w)).
  { rewrite Hg1. reflexivity. }
  rewrite Hq1 in Hans, Hhash.
  (* the state after the download *)
  assert (Hrun : exists w2 r,
             startAsyncProcess digest fetch (pass_identifier p) w1 = (w2, Returned r) /\
             fs w2 = written fetch q1 (fs w) /\
             commonPath (guard w2) = commonPath (guard w)).
  { destruct q1 as [|a0 q0] eqn:Eq.
    - exists w1, false. split; [|split; [exact Hfs1|exact Hcp1]].
      apply startAsyncProcess_empty. exact Ht1.
    - destruct (startAsyncProcess_answered (pass_identifier p) w1)
        as (w2 & Hrun & Hfs2 & _ & Hcp2 & _); [rewrite Ht1; discriminate| |].
      + rewrite Ht1. exact Hans.
      + exists w2, true. split; [exact Hrun|].
        rewrite Hfs2, Ht1, Hfs1, Hcp2. split; [reflexivity|exact Hcp1]. }
  destruct Hrun as (w2 & r & Hrun & Hfs2 & Hcp2).
  destruct (run_pass_returns_elsewhere p w w1 w2 Hpass Hcp2) as [w3 Hpass3].
  exists w2, r, w3. split; [exact Hrun|]. split; [exact Hpass3|].
  pose proof (run_pass_tracker platform arch digest p w2 w3 Hpass3) as [Hg3 _].
  assert (Hq3 : pass_queue p (guard w3) =
                List.filter (locally_invalid digest (fs w2)) arts).
  { rewrite Hg3, Hcp2. destruct p; reflexivity. }
  rewrite Hq3. apply filter_nil_all. intros a Ha.
  unfold locally_invalid. apply negb_false_iff.
  destruct (decide (Exists (fun b => to b = to a) q1)) as [Hex|Hnone].
  - (* the destination was written: by an artifact with the same hash *)
    apply Exists_exists in Hex.
    assert (Hex' : exists b, In b q1 /\ to b = to a).
    { destruct Hex as (b & Hb & Hp). exists b. split; [|exact Hp].
      apply list_elem_of_In. exact Hb. }
    destruct (written_last q1 (to a) Hex' (fs w)) as (b & Hb & Hp & Hl).
    assert (Hb_art : In b arts) by (apply filter_In in Hb; tauto).
    rewrite Forall_forall in Hhash. specialize (Hhash b).
    rewrite list_elem_of_In in Hhash. specialize (Hhash Hb).
    unfold hash_agrees in Hhash.
    rewrite (pass_artifacts_type p _ b Hb_art) in Hhash.
    unfold locally_valid, _validateLocal. rewrite Hfs2, Hl.
    rewrite <- (Hsame b a Hb_art Ha Hp). exact Hhash.
  - (* the destination was not written and was valid before *)
    assert (Hq : forall b, In b q1 -> to b <> to a).
    { intros b Hb Hp. apply Hnone. apply Exists_exists. exists b.
      split; [apply list_elem_of_In; exact Hb|exact Hp]. }
    rewrite (locally_valid_lookup (fs w) (fs w2) a)
      by (rewrite Hfs2; apply written_untouched; exact Hq).
    destruct (locally_valid digest (fs w) a) eqn:Hv; [reflexivity|].
    exfalso. apply (Hq a); [|reflexivity].
    apply filter_In. split; [exact Ha|]. unfold locally_invalid. rewrite Hv. reflexivity.
Qed.

End DownloadedFiles.


Lemma downloaded_queue_validates_witness :
  exists w1 w2 r w3,
    Reading.run_pass "linux" "x64" Reading.sample_digest
      (Reading.AssetPass Reading.sample_index) (Reading.sample_guard [] []) = Some w1 /\
    AssetGuard.dlqueue (AssetGuard.assets (AssetGuard.guard w1)) <> [] /\
    AssetGuard.startAsyncProcess Reading.sample_digest
      (fun _ => AssetGuard.Response 200 (Num 3) ["abc"]) AssetGuard.Assets w1
      = (w2, AssetGuard.Returned r) /\
    Reading.run_pass "linux" "x64" Reading.sample_digest
      (Reading.AssetPass Reading.sample_index) w2 = Some w3 /\
    AssetGuard.dlqueue (AssetGuard.assets (AssetGuard.guard w3)) = [].
Proof.
  eexists.
  destruct (downloaded_queue_validates "linux" "x64" Reading.sample_digest
              (fun _ => AssetGuard.Response 200 (Num 3) ["abc"])
              (Reading.AssetPass Reading.sample_index)
              (Reading.sample_guard [] []) _ eq_refl)
    as (w2 & r & w3 & H).
  - repeat constructor. eexists. eexists. reflexivity.
  - repeat constructor.
  - intros a b [<-|[]] [<-|[]] _. reflexivity.
  - exists w2, r, w3. split; [reflexivity|]. split; [discriminate|exact H].
Defined.

(** ** Classpath entries *)

Section ClasspathEntries.

Import ProcessBuilder Terms.

Lemma startsWith_split (s sub : string) :
  JS.startsWith s sub = true -> exists post, s = sub +:+ post.
Proof.
  revert sub. induction s as [|a s IH]; intros sub H.
  - destruct sub; [exists EmptyString; reflexivity|discriminate].
  - destruct sub as [|b sub]; [exists (String a s); reflexivity|].
    simpl in H. apply andb_true_iff in H as [Hab H].
    apply Ascii.eqb_eq in Hab as ->.
    destruct (IH sub H) as [post ->]. exists post. rewrite append_cons. reflexivity.
Qed.

Lemma startsWith_app (sub post : string) : JS.startsWith (sub +:+ post) sub = true.
Proof.
  induction sub as [|b sub IH]; [destruct post; reflexivity|].
  rewrite append_cons. simpl. rewrite Ascii.eqb_refl. exact IH.
Qed.

Lemma startsWith_app_l (x y sub : string) :
  JS.startsWith x sub = true -> JS.startsWith (x +:+ y) sub = true.
Proof.
  intros H. destruct (startsWith_split x sub H) as [post ->].
  rewrite append_assoc. apply startsWith_app.
Qed.

(** The first occurrence: the text is cut in what is before it, the
    pattern and the rest, and the occurrence is already the first one
    of the text without the rest. *)
Lemma find_from_split (sub s : string) :
  forall i j,
  JS.find_from i s sub = Some j ->
  exists pre post,
    s = pre +:+ sub +:+ post /\ j = i + JS.length pre /\
    JS.find_from i (pre +:+ sub) sub = Some j.
Proof.
  induction s as [|a s IH]; intros i j H.
  - cbn [JS.find_from] in H.
    destruct (JS.startsWith EmptyString sub) eqn:Hs; [|discriminate].
    injection H as <-. destruct (startsWith_split _ _ Hs) as [post Hpost].
    exists EmptyString, post. rewrite !append_nil_l.
    split; [exact Hpost|]. split; [unfold JS.length; simpl; lia|].
    destruct sub; [reflexivity|]. rewrite append_cons in Hpost. discriminate.
  - cbn [JS.find_from] in H.
    destruct (JS.startsWith (String a s) sub) eqn:Hs.
    + injection H as <-. destruct (startsWith_split _ _ Hs) as [post Hpost].
      exists EmptyString, post. rewrite !append_nil_l.
      split; [exact Hpost|]. split; [unfold JS.length; simpl; lia|].
      destruct sub as [|b sub]; [reflexivity|].
      cbn [JS.find_from]. 
      replace (JS.startsWith (String b sub) (String b sub)) with true; [reflexivity|].
      symmetry. rewrite <- (append_nil_r (String b sub)) at 1. apply startsWith_app.
    + destruct (IH (i + 1) j H) as (pre & post & -> & -> & Hfirst).
      exists (String a pre), post. rewrite !append_cons.
      split; [reflexivity|].
      split; [unfold JS.length; cbn [String.length]; lia|].
      cbn [JS.find_from].
      destruct (JS.startsWith (String a (pre +:+ sub)) sub) eqn:Hs'; [|exact Hfirst].
      apply (startsWith_app_l _ post) in Hs'.
      rewrite append_cons, append_assoc in Hs'. congruence.
Qed.

Lemma take_app (p t : string) : JS.take (String.length p) (p +:+ t) = p.
Proof.
  induction p as [|a p IH]; [destruct t; reflexivity|].
  rewrite append_cons. simpl. rewrite IH. reflexivity.
Qed.

Lemma substring_prefix (p t : string) :
  JS.substring (p +:+ t) 0 (JS.length p) = p.
Proof.
  unfold JS.substring, JS.length. rewrite length_app.
  match goal with
  | |- JS.take (Z.to_nat ?a) (JS.drop (Z.to_nat ?b) _) = _ =>
      replace (Z.to_nat a) with (String.length p) by lia;
      replace (Z.to_nat b) with 0%nat by lia
  end.
  simpl. apply take_app.
Qed.

(** What [trim_to_jar] does to an entry that holds the extension. *)
Lemma trim_to_jar_found (entry : string) (j : Z) :
  JS.find_from 0 entry ".jar" = Some j ->
  exists pre post,
    entry = pre +:+ ".jar" +:+ post /\
    JS.indexOf entry ".jar" = JS.length pre /\
    trim_to_jar entry = pre +:+ ".jar" /\
    JS.find_from 0 (pre +:+ ".jar") ".jar" = Some (JS.length pre).
Proof.
  intros H. destruct (find_from_split ".jar" entry 0 j H)
    as (pre & post & -> & -> & Hfirst).
  exists pre, post. split; [reflexivity|].
  unfold trim_to_jar, JS.indexOf. rewrite H. rewrite Z.add_0_l in *.
  split; [reflexivity|]. split; [|exact Hfirst].
  assert (Hnn : (-1 <? JS.length pre) = true).
  { apply Z.ltb_lt. unfold JS.length. lia. }
  rewrite Hnn. cbn [andb].
  destruct (JS.length pre =? JS.length (pre +:+ ".jar" +:+ post) - JS.length ".jar")
    eqn:Hend; cbn [negb].
  - apply Z.eqb_eq in Hend. unfold JS.length in Hend.
    rewrite !length_app in Hend. simpl in Hend.
    assert (Hpost : String.length post = 0%nat) by lia.
    destruct post; [|discriminate]. reflexivity.
  - replace (JS.length pre + JS.length ".jar") with (JS.length (pre +:+ ".jar")).
    + rewrite <- append_assoc. apply substring_prefix.
    + unfold JS.length. rewrite length_app. simpl. lia.
Qed.

Lemma trim_to_jar_absent (entry : string) :
  JS.find_from 0 entry ".jar" = None -> trim_to_jar entry = entry.
Proof. intros H. unfold trim_to_jar, JS.indexOf. rewrite H. reflexivity. Qed.

Lemma trim_to_jar_at_end (pre : string) :
  JS.find_from 0 (pre +:+ ".jar") ".jar" = Some (JS.length pre) ->
  trim_to_jar (pre +:+ ".jar") = pre +:+ ".jar".
Proof.
  intros H. unfold trim_to_jar, JS.indexOf. rewrite H.
  replace (JS.length pre =? JS.length (pre +:+ ".jar") - JS.length ".jar") with true.
  - rewrite andb_false_r. reflexivity.
  - symmetry. apply Z.eqb_eq. unfold JS.length. rewrite length_app. simpl. lia.
Qed.

(** X19: [_processClassPathList] keeps the number and order of the
    entries and changes each on its own: an entry without [.jar] is
    kept as it is; an entry that holds [.jar] is cut right behind the
    first occurrence, so that it ends with the extension, whatever
    followed (also a further [.jar] later in the path). *)
Theorem processClassPathList_entries (l : list string) :
  Forall2
    (fun entry cut =>
       (JS.indexOf entry ".jar" = -1 /\ cut = entry) \/
       (exists pre post,
          entry = pre +:+ ".jar" +:+ post /\
          JS.indexOf entry ".jar" = JS.length pre /\
          cut = pre +:+ ".jar"))
    l (_processClassPathList l).
Proof.
  induction l as [|entry l IH]; [constructor|].
  cbn [_processClassPathList map]. constructor; [|exact IH].
  destruct (JS.find_from 0 entry ".jar") as [j|] eqn:Hfind.
  - right. destruct (trim_to_jar_found entry j Hfind) as (pre & post & He & Hi & Hc & _).
    exists pre, post. auto.
  - left. split; [unfold JS.indexOf; rewrite Hfind; reflexivity|].
    apply trim_to_jar_absent, Hfind.
Qed.

(** X20: [_processClassPathList] is idempotent: entries that were
    cut once are left as they are by a second pass. *)
Theorem processClassPathList_idempotent (l : list string) :
  _processClassPathList (_processClassPathList l) = _processClassPathList l.
Proof.
  unfold _processClassPathList. rewrite map_map. apply map_ext. intros entry.
  destruct (JS.find_from 0 entry ".jar") as [j|] eqn:Hfind.
  - destruct (trim_to_jar_found entry j Hfind) as (pre & post & _ & _ & -> & Hfirst).
    apply trim_to_jar_at_end, Hfirst.
  - rewrite (trim_to_jar_absent entry Hfind). apply trim_to_jar_absent, Hfind.
Qed.

End ClasspathEntries.

(** ** The command line *)

Section CommandLine.

Import AssetGuard ProcessBuilder Terms.

Variable platform : string.
Variable config : ConfigManager.Config.

Lemma argDiscovery_skip (pre s : string) :
  free_of "$" pre = true -> argDiscovery (pre +:+ s) = argDiscovery s.
Proof.
  induction pre as [|a pre IH]; intros H; [reflexivity|].
  simpl in H. apply andb_true_iff in H as [Ha H]. apply negb_true_iff in Ha.
  rewrite append_cons. cbn [argDiscovery]. rewrite Ha. apply IH, H.
Qed.

Lemma up_to_last_brace_free (s : string) :
  free_of "}" s = true -> up_to_last_brace s = None.
Proof.
  induction s as [|a s IH]; intros H; [reflexivity|].
  simpl in H. apply andb_true_iff in H as [Ha H]. apply negb_true_iff in Ha.
  cbn [up_to_last_brace]. rewrite (IH H), Ha. reflexivity.
Qed.

Lemma up_to_last_brace_app (s rest : string) :
  free_of "}" rest = true ->
  up_to_last_brace (s +:+ String "}" rest) = Some s.
Proof.
  intros H. induction s as [|a s IH].
  - rewrite append_nil_l. cbn [up_to_last_brace].
    rewrite (up_to_last_brace_free rest H). reflexivity.
  - rewrite append_cons. cbn [up_to_last_brace]. rewrite IH. reflexivity.
Qed.

Lemma line_of_free (c : ascii) (s : string) :
  free_of c s = true -> free_of c (line_of s) = true.
Proof.
  induction s as [|a s IH]; intros H; [reflexivity|].
  simpl in H. apply andb_true_iff in H as [Ha H].
  cbn [line_of]. destruct (is_line_terminator a); [reflexivity|].
  simpl. rewrite Ha, (IH H). reflexivity.
Qed.

Lemma line_of_app (s t : string) :
  line_of s = s -> line_of (s +:+ t) = s +:+ line_of t.
Proof.
  induction s as [|a s IH]; intros H; [reflexivity|].
  rewrite !append_cons. cbn [line_of] in *.
  destruct (is_line_terminator a); [discriminate|].
  injection H as H. rewrite (IH H). reflexivity.
Qed.

Lemma skip_braces_app (s t : string) :
  s <> EmptyString -> skip_braces s = s -> skip_braces (s +:+ t) = s +:+ t.
Proof.
  destruct s as [|a s]; [contradiction|]. intros _ H.
  rewrite append_cons.
  destruct (Ascii.eqb_spec a "{") as [->|Hne].
  - exfalso. cbn [skip_braces] in H.
    assert (Hlen : forall x, (String.length (skip_braces x) <= String.length x)%nat).
    { induction x as [|c x IHx]; [simpl; lia|].
      destruct (Ascii.eqb_spec c "{") as [->|Hc].
      - cbn [skip_braces String.length]. lia.
      - replace (skip_braces (String c x)) with (String c x); [lia|].
        destruct c as [[] [] [] [] [] [] [] []]; try reflexivity. contradiction. }
    specialize (Hlen s). rewrite H in Hlen. simpl in Hlen. lia.
  - destruct a as [[] [] [] [] [] [] [] []]; try reflexivity. contradiction.
Qed.

(** What the regular expression finds in a word that holds a
    variable. *)
Lemma argDiscovery_variable (pre identifier post : string) :
  free_of "$" pre = true ->
  identifier <> EmptyString ->
  line_of identifier = identifier ->
  skip_braces identifier = identifier ->
  free_of "}" post = true ->
  argDiscovery (word_with_variable pre identifier post) = Some identifier.
Proof.
  intros Hpre Hne Hline Hbrace Hpost. unfold word_with_variable.
  rewrite (argDiscovery_skip pre _ Hpre).
  change ("${" +:+ identifier +:+ "}" +:+ post)
    with (String "$" (String "{" (identifier +:+ String "}" post))).
  cbn [argDiscovery Ascii.eqb Bool.eqb].
  change (line_of (String "{" (identifier +:+ String "}" post)))
    with (String "{" (line_of (identifier +:+ String "}" post))).
  cbn [skip_braces].
  rewrite (line_of_app identifier _ Hline).
  change (line_of (String "}" post)) with (String "}" (line_of post)).
  rewrite (skip_braces_app identifier _ Hne Hbrace).
  rewrite (up_to_last_brace_app identifier _ (line_of_free "}" post Hpost)).
  reflexivity.
Qed.

(** X21: [_resolveMcArgs] replaces a word, not the variable in it.
    A word that holds a variable [${name}] between any two texts (no
    dollar sign before, no closing brace behind) becomes the value of
    the variable alone when the name is one of the six the builder
    knows (the texts around it are dropped) and is left as it is for
    every other name. *)
Theorem resolve_word_replaces_whole_word
    (l : Launcher) (pre identifier post : string) :
  free_of "$" pre = true ->
  identifier <> EmptyString ->
  line_of identifier = identifier ->
  skip_braces identifier = identifier ->
  free_of "}" post = true ->
  resolve_word platform l (word_with_variable pre identifier post) =
    match placeholder_value platform l identifier with
    | Some val => val
    | None => word_with_variable pre identifier post
    end.
Proof.
  intros Hpre Hne Hline Hbrace Hpost. unfold resolve_word.
  rewrite (argDiscovery_variable pre identifier post Hpre Hne Hline Hbrace Hpost).
  reflexivity.
Qed.

(** The word is looked up under the name the regular expression
    finds in it. *)
Lemma resolve_word_found (l : Launcher) (word : string) :
  resolve_word platform l word =
    match argDiscovery word with
    | Some identifier =>
        match placeholder_value platform l identifier with
        | Some val => val
        | None => word
        end
    | None => word
    end.
Proof. reflexivity. Qed.

(** X22: for the argument template of the launcher, [_resolveMcArgs]
    fills in the version name, the game directory, the assets root,
    the asset index name and the user properties; the four variables
    of the account ([auth_player_name], [auth_uuid],
    [auth_access_token], [user_type]) are none of its cases and reach
    the command line as they are written; the window size follows as
    numbers, or the full-screen switch with the boolean [true]. *)
Theorem resolveMcArgs_launcher_template (l : Launcher) :
  mcArgs l = launcher_template ->
  _resolveMcArgs platform config l =
    map ArgString
      [ "--username"; "${auth_player_name}";
        "--version"; "Crystal Client";
        "--gameDir"; gameDir l;
        "--assetsDir"; NodePath.join platform [commonDir (builder l); "assets"];
        "--assetIndex"; vd_assets (versionData (builder l));
        "--uuid"; "${auth_uuid}";
        "--accessToken"; "${auth_access_token}";
        "--userProperties"; "{}";
        "--userType"; "${user_type}" ]
    ++ (if ConfigManager.getFullscreen config then
          [ArgString "--fullscreen"; ArgBool true]
        else
          [ArgString "--width"; ArgNumber (ConfigManager.getGameWidth config);
           ArgString "--height"; ArgNumber (ConfigManager.getGameHeight config)]).
Proof.
  intros H. unfold _resolveMcArgs. rewrite H.
  replace (JS.split " " launcher_template) with
    [ "--username"; "${auth_player_name}"; "--version"; "${version_name}";
      "--gameDir"; "${game_directory}"; "--assetsDir"; "${assets_root}";
      "--assetIndex"; "${assets_index_name}"; "--uuid"; "${auth_uuid}";
      "--accessToken"; "${auth_access_token}";
      "--userProperties"; "${user_properties}"; "--userType"; "${user_type}" ]
    by (vm_compute; reflexivity).
  cbn [map].
  repeat rewrite resolve_word_found.
  reflexivity.
Qed.

End CommandLine.

Lemma resolve_word_replaces_whole_word_witness :
  ProcessBuilder.resolve_word "linux" (Terms.sample_launcher EmptyString)
    "--gameDir=${game_directory}/saves"
  = "/home/steve/Application Support/minecraft".
Proof.
  apply (resolve_word_replaces_whole_word "linux" (Terms.sample_launcher EmptyString)
           "--gameDir=" "game_directory" "/saves");
    try reflexivity.
  discriminate.
Defined.

Lemma resolveMcArgs_launcher_template_witness :
  ProcessBuilder._resolveMcArgs "linux" Terms.sample_config
    (Terms.sample_launcher Terms.launcher_template) =
  map ProcessBuilder.ArgString
    [ "--username"; "${auth_player_name}";
      "--version"; "Crystal Client";
      "--gameDir"; "/home/steve/Application Support/minecraft";
      "--assetsDir"; "/c/assets";
      "--assetIndex"; "1.8";
      "--uuid"; "${auth_uuid}";
      "--accessToken"; "${auth_access_token}";
      "--userProperties"; "{}";
      "--userType"; "${user_type}" ]
  ++ [ProcessBuilder.ArgString "--width"; ProcessBuilder.ArgNumber (Num 1280);
      ProcessBuilder.ArgString "--height"; ProcessBuilder.ArgNumber (Num 720)].
Proof.
  exact (resolveMcArgs_launcher_template "linux" Terms.sample_config
           (Terms.sample_launcher Terms.launcher_template) eq_refl).
Defined.

(** ** Memory bounds *)

Section MemoryBounds.

Import ConfigManager.

Ltac norm_pos :=
  repeat match goal with
         | |- context [Z.pos ?p] =>
             let p' := eval compute in p in
             progress change (Z.pos p) with (Z.pos p')
         end.

(** The upper bound in integer arithmetic: three quarters of the
    memory less one gigabyte, in whole gigabytes, up to 16 GB; above,
    an eighth of the excess is held back instead of a quarter. *)
Lemma getAbsoluteMaxRAM_quotient (mem : Z) :
  getAbsoluteMaxRAM mem =
    if 0 <? mem - 16000000000 then
      (mem - 5000000000 - (mem - 16000000000) / 8) / 1000000000
    else (3 * mem - 4000000000) / 4000000000.
Proof.
  unfold getAbsoluteMaxRAM.
  destruct (0 <? mem - 16000000000);
    unfold Qfloor, Qdiv, Qminus, Qplus, Qmult, Qinv, Qopp, inject_Z;
    cbn [Qnum Qden]; norm_pos; rewrite ?Z.mul_1_r.
  - set (q := (mem - 16000000000) / 8).
    change 4000000000 with (4 * 1000000000).
    replace ((mem + - (1000000000)) * 4 + - (q * 4 + 16000000000))
      with (4 * (mem - 5000000000 - q)) by lia.
    apply Z.div_mul_cancel_l; lia.
  - f_equal. lia.
Qed.

(** X23: the range of memory the settings offer, from
    [getAbsoluteMinRAM] to [getAbsoluteMaxRAM] gigabytes, is not empty
    exactly on a machine with at least 4,000,000,000 bytes of memory;
    below that the upper bound is under the lower bound. *)
Theorem absolute_ram_range_nonempty (mem : Z) :
  getAbsoluteMinRAM mem <= getAbsoluteMaxRAM mem <-> 4000000000 <= mem.
Proof.
  rewrite getAbsoluteMaxRAM_quotient. unfold getAbsoluteMinRAM.
  destruct (Z.ltb_spec 0 (mem - 16000000000)) as [Hbig|Hsmall];
    destruct (Z.leb_spec 6000000000 mem) as [H6|H6];
    Z.div_mod_to_equations; lia.
Qed.

(** X24: the upper bound never goes down when memory is added. *)
Theorem getAbsoluteMaxRAM_monotone (mem mem' : Z) :
  mem <= mem' -> getAbsoluteMaxRAM mem <= getAbsoluteMaxRAM mem'.
Proof.
  intros H. rewrite !getAbsoluteMaxRAM_quotient.
  destruct (Z.ltb_spec 0 (mem - 16000000000));
    destruct (Z.ltb_spec 0 (mem' - 16000000000));
    Z.div_mod_to_equations; lia.
Qed.

End MemoryBounds.

Lemma getAbsoluteMaxRAM_monotone_witness :
  ConfigManager.getAbsoluteMaxRAM 8000000000 = 5 /\
  ConfigManager.getAbsoluteMaxRAM 32000000000 = 25 /\
  ConfigManager.getAbsoluteMaxRAM 8000000000
    <= ConfigManager.getAbsoluteMaxRAM 32000000000.
Proof.
  split; [reflexivity|]. split; [reflexivity|].
  apply (getAbsoluteMaxRAM_monotone 8000000000 32000000000). lia.
Defined.

(** ** Native libraries *)

Section NativeLibraries.

Import AssetGuard ProcessBuilder Terms.

Variables (platform arch : string).
Variable zipEntries : string -> option (list ZipEntry).




End NativeLibraries.


(** ** The regular run *)

Section RegularRun.

Import AssetGuard Reading.

Variable digest : string -> string -> string.
Variable fetch : string -> FetchResult.


End RegularRun.

